(** * Conversation session manager of the Bakllava API server

    A shallow embedding of [api_server.py]: the in-memory conversation
    table, the context builder and the three generation handlers, followed
    by the properties of the specification that concern them.

    Conventions of the embedding.
    - [datetime] values are integers, counted in microseconds (the
      resolution of Python's [datetime] and [timedelta]).
    - [time.time()] readings, temperatures and frame rates are binary64
      floats ([PrimFloat.float]), so [end - start] is the float subtraction
      the handlers perform.
    - The module-level dict [conversations] is a [gmap] from session ids
      to conversation records.
    - Everything the server obtains from outside (the wall clock, the
      uuid generator, the timer, PIL, the Ollama HTTP endpoint, [str] on
      exceptions and floats) is read from an environment [Env]. Opening a
      file and encoding an image ([image.save], which is where a file that
      opened lazily may still fail) can each raise. Successive
      calls of the same source are numbered, and the numbers are kept in
      the state, so that two calls of [datetime.now()] are two readings.
    - Handlers run in a state-and-exception monad: a raised exception
      keeps the state reached so far, as in Python. A handler is followed
      from its first statement to its [return] on its own; what other
      requests do while it awaits the backend is not part of the model.
    - The state also records the payloads posted to the backend, in order;
      the server keeps no such record, it is there to state what was sent. *)

From Stdlib Require Import ZArith String List Lia.
From Stdlib Require Floats.PrimFloat.
From Stdlib Require Import DecimalString.
From stdpp Require Import gmap strings list fin_maps sorting.

Open Scope string_scope.
Open Scope Z_scope.

(** ** Data model *)

Abbreviation float := PrimFloat.float.
Abbreviation datetime := Z.

(** [timedelta(hours=24)], in microseconds. *)
Definition CONVERSATION_TIMEOUT : Z := 24 * 3600 * 1000000.

Definition OLLAMA_BASE_URL : string := "http://localhost:11434".
Definition MODEL_NAME : string := "bakllava".

(** The dict built in [add_message_to_conversation] (and [class Message]). *)
Record Message := mkMessage {
  role : string;
  content : string;
  timestamp : datetime;
  images : option (list string)
}.

(** The dict built in [get_or_create_conversation]
    (and [class ConversationSession]). *)
Record Conversation := mkConversation {
  session_id : string;
  messages : list Message;
  created_at : datetime;
  last_activity : datetime
}.

Record TextPromptRequest := mkTextPromptRequest {
  tp_prompt : string;
  tp_temperature : option float;
  tp_max_tokens : option Z;
  tp_session_id : option string
}.

Record APIResponse := mkAPIResponse {
  success : bool;
  response : option string;
  error : option string;
  processing_time : option float;
  api_session_id : option string
}.

Record ConversationResponse := mkConversationResponse {
  cr_session_id : string;
  cr_messages : list Message;
  total_messages : nat
}.

(** Exceptions that travel through the handlers. *)
Inductive Exn :=
| HTTPException (status_code : Z) (detail : string)
| TimeoutException (msg : string)
| OtherException (msg : string).

(** The JSON body posted to [/api/generate]; the key ["images"] is present
    only when [generate_response] adds it. *)
Record Payload := mkPayload {
  p_model : string;
  p_prompt : string;
  p_stream : bool;
  p_temperature : option float;
  p_num_predict : option Z;
  p_images : option (list string)
}.

(** What [client.post] gives back: the status, the raw text, and what
    [response.json().get("response")] would yield ([None]: key absent).
    The value under ["response"], when there is one, is a string, as the
    annotation [-> str] of [generate_response] takes it to be. *)
Record HttpResponse := mkHttpResponse {
  resp_status_code : Z;
  resp_text : string;
  resp_json_response : Exn + option string
}.

(** An uploaded file (its raw bytes) and a decoded RGB image. *)
Inductive UploadFile := upload (raw : string).
Inductive PILImage := pil_image (pixels : string).

(** ** The environment *)

Record Env := mkEnv {
  datetime_now : nat -> datetime;
  uuid4 : nat -> string;
  time_time : nat -> float;
  str_exc : Exn -> string;
  str_float : float -> string;
  Image_open_rgb : UploadFile -> Exn + PILImage;
  image_to_base64 : PILImage -> Exn + string;
  client_post : nat -> Payload -> Exn + HttpResponse
}.

(** ** The state *)

Record World := mkWorld {
  conversations : gmap string Conversation;
  clock_reads : nat;
  uuid_draws : nat;
  timer_reads : nat;
  ollama_calls : list Payload
}.

Definition set_conversations (m : gmap string Conversation) (w : World) : World :=
  mkWorld m (clock_reads w) (uuid_draws w) (timer_reads w) (ollama_calls w).

(** ** The monad of handlers *)

Inductive Outcome (A : Type) :=
| Ok (a : A)
| Raise (e : Exn).
Arguments Ok {A} a.
Arguments Raise {A} e.

Definition M (A : Type) : Type := World -> Outcome A * World.

Definition ret {A} (a : A) : M A := fun w => (Ok a, w).

Definition raise {A} (e : Exn) : M A := fun w => (Raise e, w).

Definition bind {A B} (m : M A) (k : A -> M B) : M B :=
  fun w => match m w with
           | (Ok a, w') => k a w'
           | (Raise e, w') => (Raise e, w')
           end.

(** [try: body except Exception as e: handler e]. *)
Definition try_except {A} (body : M A) (handler : Exn -> M A) : M A :=
  fun w => match body w with
           | (Ok a, w') => (Ok a, w')
           | (Raise e, w') => handler e w'
           end.

#[global] Instance M_ret : MRet M := @ret.
#[global] Instance M_bind : MBind M := fun A B k m => bind m k.

(** A call that either returns or raises. *)
Definition from_result {A} (r : Exn + A) : M A :=
  match r with
  | inr a => ret a
  | inl e => raise e
  end.

Definition get_store : M (gmap string Conversation) :=
  fun w => (Ok (conversations w), w).

Definition put_store (m : gmap string Conversation) : M unit :=
  fun w => (Ok tt, set_conversations m w).

(** Python truthiness of a [str], an [Optional[str]] and an
    [Optional[List[str]]]. *)
Definition truthy_str (s : string) : bool :=
  match s with EmptyString => false | String _ _ => true end.

Definition truthy_opt_str (s : option string) : bool :=
  match s with Some s => truthy_str s | None => false end.

Definition truthy_images (imgs : option (list string)) : bool :=
  match imgs with Some (_ :: _) => true | _ => false end.

Definition str_nat (n : nat) : string := NilEmpty.string_of_uint (Nat.to_uint n).

Definition newline : string := String (Ascii.ascii_of_nat 10) EmptyString.

Section Server.

Context (env : Env).

(** ** Sources of the environment *)

Definition now : M datetime :=
  fun w => (Ok (datetime_now env (clock_reads w)),
            mkWorld (conversations w) (S (clock_reads w)) (uuid_draws w)
                    (timer_reads w) (ollama_calls w)).

Definition new_uuid : M string :=
  fun w => (Ok (uuid4 env (uuid_draws w)),
            mkWorld (conversations w) (clock_reads w) (S (uuid_draws w))
                    (timer_reads w) (ollama_calls w)).

Definition timer : M float :=
  fun w => (Ok (time_time env (timer_reads w)),
            mkWorld (conversations w) (clock_reads w) (uuid_draws w)
                    (S (timer_reads w)) (ollama_calls w)).

(** [await client.post(f"{OLLAMA_BASE_URL}/api/generate", json=payload)];
    the payload is appended to the record of calls. *)
Definition post_generate (payload : Payload) : M HttpResponse :=
  fun w =>
    let w' := mkWorld (conversations w) (clock_reads w) (uuid_draws w)
                      (timer_reads w) (ollama_calls w ++ [payload]) in
    match client_post env (length (ollama_calls w)) payload with
    | inl e => (Raise e, w')
    | inr r => (Ok r, w')
    end.

(** ** Session store *)

(** The test of the first loop of [cleanup_expired_conversations]. *)
Definition is_expired (current_time : datetime) (conversation : Conversation) : bool :=
  CONVERSATION_TIMEOUT <? current_time - last_activity conversation.

Definition expired_sessions (current_time : datetime)
    (convs : gmap string Conversation) : list string :=
  map fst (List.filter (fun kv => is_expired current_time (snd kv)) (map_to_list convs)).

(** The second loop: [del conversations[session_id]] for each collected id. *)
Definition sweep (current_time : datetime) (convs : gmap string Conversation)
    : gmap string Conversation :=
  foldl (fun m sid => delete sid m) convs (expired_sessions current_time convs).

Definition cleanup_expired_conversations : M unit :=
  current_time ← now;
  convs ← get_store;
  put_store (sweep current_time convs).

Definition refresh_activity (t : datetime) (c : Conversation) : Conversation :=
  mkConversation (session_id c) (messages c) (created_at c) t.

(** The tail of [get_or_create_conversation], after the [if]: the values of
    the dict literal are evaluated in order, so the clock is read twice. *)
Definition insert_new_conversation : M string :=
  new_session_id ← new_uuid;
  t_created ← now;
  t_active ← now;
  convs ← get_store;
  put_store (<[new_session_id := mkConversation new_session_id [] t_created t_active]> convs);;
  ret new_session_id.

Definition get_or_create_conversation (sid : option string) : M string :=
  cleanup_expired_conversations;;
  convs ← get_store;
  match sid with
  | Some s =>
      if truthy_str s && bool_decide (is_Some (convs !! s)) then
        t ← now;
        convs ← get_store;
        put_store (alter (refresh_activity t) s convs);;
        ret s
      else insert_new_conversation
  | None => insert_new_conversation
  end.

Definition append_message (m : Message) (c : Conversation) : Conversation :=
  mkConversation (session_id c) (messages c ++ [m]) (created_at c) (last_activity c).

Definition add_message_to_conversation (sid : string) (r : string)
    (text : string) (imgs : option (list string)) : M unit :=
  convs ← get_store;
  if bool_decide (is_Some (convs !! sid)) then
    t_message ← now;
    convs ← get_store;
    put_store (alter (append_message (mkMessage r text t_message imgs)) sid convs);;
    t_active ← now;
    convs ← get_store;
    put_store (alter (refresh_activity t_active) sid convs)
  else ret tt.

(** ** Context builder *)

Definition PREAMBLE : string :=
  "This is a conversation. Here's the conversation history:".

(** [messages[-10:] if len(messages) > 10 else messages]. *)
Definition recent_messages (msgs : list Message) : list Message :=
  if (10 <? length msgs)%nat then skipn (length msgs - 10) msgs else msgs.

(** The body of the [for msg in recent_messages] loop. *)
Definition context_line (msg : Message) : string :=
  let r := if String.eqb (role msg) "user" then "Human" else "Assistant" in
  if truthy_images (images msg)
  then r ++ ": " ++ content msg ++ " [with image(s)]"
  else r ++ ": " ++ content msg.

Definition build_conversation_context (convs : gmap string Conversation)
    (sid : string) (current_prompt : string) (current_images : option (list string))
    : string * option (list string) :=
  match convs !! sid with
  | None => (current_prompt, current_images)
  | Some conversation =>
      match messages conversation with
      | [] => (current_prompt, current_images)
      | _ :: _ =>
          let context_parts :=
            ([PREAMBLE] ++ map context_line (recent_messages (messages conversation))
             ++ [("Human: " ++ current_prompt)%string] ++ ["Assistant:"])%list in
          (String.concat (newline ++ newline) context_parts, current_images)
      end
  end.

(** ** Collaborators *)

Definition process_uploaded_file (file : UploadFile) : M PILImage :=
  match Image_open_rgb env file with
  | inr image => ret image
  | inl e => raise (HTTPException 400 ("Invalid image file: " ++ str_exc env e))
  end.

Definition generate_response (prompt : string) (imgs : option (list string))
    (temperature : option float) (max_tokens : option Z) : M string :=
  try_except
    (let payload :=
       mkPayload MODEL_NAME prompt false temperature max_tokens
                 (if truthy_images imgs then imgs else None) in
     r ← post_generate payload;
     if resp_status_code r =? 200 then
       match resp_json_response r with
       | inl e => raise e
       | inr (Some text) => ret text
       | inr None => ret "No response generated"
       end
     else raise (HTTPException (resp_status_code r) ("Ollama API error: " ++ resp_text r)))
    (fun e =>
       match e with
       | TimeoutException _ => raise (HTTPException 504 "Request timeout")
       | _ => raise (HTTPException 500 ("Generation error: " ++ str_exc env e))
       end).

(** ** Conversation endpoints *)

Definition create_new_conversation : M (string * string) :=
  sid ← get_or_create_conversation None;
  ret (sid, "New conversation created").

Definition get_conversation (sid : string) : M ConversationResponse :=
  convs ← get_store;
  match convs !! sid with
  | None => raise (HTTPException 404 "Conversation not found")
  | Some conversation =>
      ret (mkConversationResponse sid (messages conversation)
                                  (length (messages conversation)))
  end.

Definition delete_conversation (sid : string) : M string :=
  convs ← get_store;
  match convs !! sid with
  | None => raise (HTTPException 404 "Conversation not found")
  | Some _ =>
      put_store (delete sid convs);;
      ret ("Conversation " ++ sid ++ " deleted")
  end.

(** ** Generation endpoints *)

(** The [except Exception as e] clause shared by the three handlers;
    [sid] is the value the variable read by the clause holds when the
    exception arrives. *)
Definition failure_response (start_time : float) (sid : option string) (e : Exn)
    : M APIResponse :=
  t ← timer;
  ret (mkAPIResponse false None (Some (str_exc env e))
                     (Some (PrimFloat.sub t start_time)) sid).

Definition success_response (start_time : float) (sid : string) (text : string)
    : M APIResponse :=
  t ← timer;
  ret (mkAPIResponse true (Some text) None (Some (PrimFloat.sub t start_time)) (Some sid)).

(** [text_prompt]: the [except] clause reads [request.session_id]. *)
Definition text_prompt (request : TextPromptRequest) : M APIResponse :=
  start_time ← timer;
  try_except
    (sid ← get_or_create_conversation (tp_session_id request);
     convs ← get_store;
     let context_prompt := fst (build_conversation_context convs sid (tp_prompt request) None) in
     add_message_to_conversation sid "user" (tp_prompt request) None;;
     text ← generate_response context_prompt None (tp_temperature request) (tp_max_tokens request);
     add_message_to_conversation sid "assistant" text None;;
     success_response start_time sid text)
    (failure_response start_time (tp_session_id request)).

(** [image_prompt]: the parameter [session_id] is reassigned by the first
    statement of the [try] block and read by the [except] clause. The first
    statement cannot raise, so the clause sees the requested id only for an
    exception of that statement (outer [try_except]) and the resolved id for
    every later one (inner [try_except]). *)
Definition image_prompt (prompt : string) (temperature : float) (max_tokens : Z)
    (requested : option string) (image : UploadFile) : M APIResponse :=
  start_time ← timer;
  try_except
    (sid ← get_or_create_conversation requested;
     try_except
       (img ← process_uploaded_file image;
        image_b64 ← from_result (image_to_base64 env img);
        convs ← get_store;
        let '(context_prompt, context_images) :=
          build_conversation_context convs sid prompt (Some [image_b64]) in
        add_message_to_conversation sid "user" prompt (Some [image_b64]);;
        text ← generate_response context_prompt context_images (Some temperature) (Some max_tokens);
        add_message_to_conversation sid "assistant" text None;;
        success_response start_time sid text)
       (failure_response start_time (Some sid)))
    (failure_response start_time requested).

(** The [for i, frame in enumerate(frames)] loop of [video_frames_prompt],
    started at index [i] with [acc] already collected. *)
Fixpoint process_frames (i : nat) (frames : list UploadFile) (acc : list string)
    : M (list string) :=
  match frames with
  | [] => ret acc
  | frame :: rest =>
      image_b64 ← try_except
        (img ← process_uploaded_file frame;
         from_result (image_to_base64 env img))
        (fun e => raise (HTTPException 400
           ("Error processing frame " ++ str_nat (i + 1) ++ ": " ++ str_exc env e)));
      process_frames (S i) rest (acc ++ [image_b64])
  end.

Definition enhanced_prompt (prompt : string) (n_frames : nat) (frame_rate : float) : string :=
  prompt ++ newline ++ newline ++ "This is a sequence of " ++ str_nat n_frames
  ++ " video frames captured at " ++ str_float env frame_rate ++ " frame(s) per second.".

(** What follows the two frame-count tests in [video_frames_prompt]. *)
Definition video_frames_body (start_time : float) (prompt : string) (frame_rate : float)
    (temperature : float) (max_tokens : Z) (requested : option string)
    (frames : list UploadFile) : M APIResponse :=
  sid ← get_or_create_conversation requested;
  try_except
    (image_b64_list ← process_frames 0 frames [];
     let prompt' := enhanced_prompt prompt (length frames) frame_rate in
     convs ← get_store;
     let '(context_prompt, context_images) :=
       build_conversation_context convs sid prompt' (Some image_b64_list) in
     add_message_to_conversation sid "user" prompt' (Some image_b64_list);;
     text ← generate_response context_prompt context_images (Some temperature) (Some max_tokens);
     add_message_to_conversation sid "assistant" text None;;
     success_response start_time sid text)
    (failure_response start_time (Some sid)).

Definition video_frames_prompt (prompt : string) (frame_rate : float)
    (temperature : float) (max_tokens : Z) (requested : option string)
    (frames : list UploadFile) : M APIResponse :=
  start_time ← timer;
  try_except
    (match frames with
     | [] => raise (HTTPException 400 "No frames provided")
     | _ :: _ =>
         if (30 <? length frames)%nat
         then raise (HTTPException 400 "Too many frames (max 30)")
         else video_frames_body start_time prompt frame_rate temperature
                                max_tokens requested frames
     end)
    (failure_response start_time requested).

End Server.

(** ** The specification's wording of [render]

    These definitions follow the text of the specification, not the code;
    they are compared with [build_conversation_context] below. *)

(** The [k] most recent turns, oldest first. *)
Definition spec_last_turns (k : nat) (turns : list Message) : list Message :=
  rev (firstn k (rev turns)).

Definition spec_carried_images (turn : Message) : bool :=
  match images turn with
  | None => false
  | Some imgs => negb (Nat.eqb (length imgs) 0)
  end.

Definition spec_role_label (turn : Message) : string :=
  if String.eqb (role turn) "user" then "Human" else "Assistant".

Definition spec_turn_line (turn : Message) : string :=
  spec_role_label turn ++ ": " ++ content turn
  ++ (if spec_carried_images turn then " [with image(s)]" else "").

(** Sections separated by a blank line. *)
Fixpoint spec_blank_line_separated (sections : list string) : string :=
  match sections with
  | [] => ""
  | [s] => s
  | s :: rest => s ++ newline ++ newline ++ spec_blank_line_separated rest
  end.

Definition spec_render (turns : list Message) (newText : string) : string :=
  spec_blank_line_separated
    ([PREAMBLE]
     ++ map spec_turn_line (spec_last_turns (Nat.min 10 (length turns)) turns)
     ++ [("Human: " ++ newText)%string; "Assistant:"])%list.

(** ** Auxiliary notions used in the statements *)

(** The session a request id resolves to once the sweep at [current_time]
    has run: the test [session_id and session_id in conversations]. *)
Definition names_live (current_time : datetime) (convs : gmap string Conversation)
    (sid : option string) : bool :=
  match sid with
  | Some s => truthy_str s && bool_decide (is_Some (sweep current_time convs !! s))
  | None => false
  end.

(** Reading of the clock [k] calls after the state [w]. *)
Definition reading (env : Env) (w : World) (k : nat) : datetime :=
  datetime_now env (k + clock_reads w).

(** One call of [add_message_to_conversation], as data. *)
Record AppendCall := mkAppendCall {
  ac_session : string;
  ac_role : string;
  ac_content : string;
  ac_images : option (list string)
}.

Definition run_append (env : Env) (call : AppendCall) : M unit :=
  add_message_to_conversation env (ac_session call) (ac_role call)
                              (ac_content call) (ac_images call).

Fixpoint run_appends (env : Env) (calls : list AppendCall) : M unit :=
  match calls with
  | [] => ret tt
  | call :: rest => run_append env call;; run_appends env rest
  end.

(** A message without its timestamp. *)
Definition turn_of_message (m : Message) : string * string * option (list string) :=
  (role m, content m, images m).

Definition turn_of_call (call : AppendCall) : string * string * option (list string) :=
  (ac_role call, ac_content call, ac_images call).

Definition calls_on (sid : string) (calls : list AppendCall) : list AppendCall :=
  List.filter (fun call => String.eqb (ac_session call) sid) calls.

(** The operations on the store, as data: the calls the endpoints make. *)
Inductive StoreOp :=
| OpAppend (call : AppendCall)
| OpResolve (sid : option string)
| OpGet (sid : string)
| OpDelete (sid : string).

Definition run_op (env : Env) (op : StoreOp) : M unit :=
  match op with
  | OpAppend call => run_append env call
  | OpResolve sid => get_or_create_conversation env sid;; ret tt
  | OpGet sid => try_except (get_conversation sid;; ret tt) (fun _ => ret tt)
  | OpDelete sid => try_except (delete_conversation sid;; ret tt) (fun _ => ret tt)
  end.

Fixpoint run_ops (env : Env) (ops : list StoreOp) : M unit :=
  match ops with
  | [] => ret tt
  | op :: rest => run_op env op;; run_ops env rest
  end.

(** The session [sid] is gone, or its turns start with [turns]. *)
Definition history_kept (sid : string) (turns : list Message) (w : World) : Prop :=
  conversations w !! sid = None
  \/ exists c new, conversations w !! sid = Some c /\ messages c = (turns ++ new)%list.

(** [returns m]: the computation never raises. *)
Definition returns {A} (m : M A) : Prop :=
  forall w, exists a w', m w = (Ok a, w').

(** [silent m]: the computation does not call the backend. *)
Definition silent {A} (m : M A) : Prop :=
  forall w r w', m w = (r, w') -> ollama_calls w' = ollama_calls w.

(** [sends P m]: every payload the computation posts to the backend
    satisfies [P]. *)
Definition sends {A} (P : Payload -> Prop) (m : M A) : Prop :=
  forall w r w', m w = (r, w') ->
    exists new, ollama_calls w' = (ollama_calls w ++ new)%list /\ Forall P new.

(** [keeps_store m]: the computation leaves the conversation table, the
    clock, the uuid source and the timer as they are. *)
Definition keeps_store {A} (m : M A) : Prop :=
  forall w r w', m w = (r, w') ->
    conversations w' = conversations w /\ clock_reads w' = clock_reads w
    /\ uuid_draws w' = uuid_draws w /\ timer_reads w' = timer_reads w.

(** What handling one uploaded file yields: its encoded image, or the
    exception raised by [process_uploaded_file] or by [image_to_base64]. *)
Definition frame_b64 (env : Env) (file : UploadFile) : Exn + string :=
  match Image_open_rgb env file with
  | inl e => inl (HTTPException 400 ("Invalid image file: " ++ str_exc env e))
  | inr img => image_to_base64 env img
  end.

(** The encoded images of the frames of a request, when every frame can
    be opened and encoded. *)
Fixpoint decode_frames (env : Env) (frames : list UploadFile) : option (list string) :=
  match frames with
  | [] => Some []
  | frame :: rest =>
      match frame_b64 env frame, decode_frames env rest with
      | inr b64, Some l => Some (b64 :: l)
      | _, _ => None
      end
  end.

(** The backend call of this environment fails whatever it is asked. *)
Definition generation_fails (env : Env) : Prop :=
  forall prompt imgs temperature max_tokens w,
    exists e w', generate_response env prompt imgs temperature max_tokens w = (Raise e, w').

(** ** Sample environment and states

    The sample clock starts 25 hours after time 0 and advances by one
    microsecond per reading; the sample backend answers ["hello"] or refuses
    the connection; the sample decoder rejects empty files and opens the
    file ["truncated"] but cannot encode it. *)

Definition demo_str_exc (e : Exn) : string :=
  match e with
  | HTTPException code d => str_nat (Z.to_nat code) ++ ": " ++ d
  | TimeoutException m => m
  | OtherException m => m
  end.

Definition demo_open (f : UploadFile) : Exn + PILImage :=
  match f with
  | upload "" => inl (OtherException "cannot identify image file")
  | upload raw => inr (pil_image raw)
  end.

Definition demo_b64 (img : PILImage) : Exn + string :=
  match img with
  | pil_image "truncated" => inl (OtherException "image file is truncated")
  | pil_image pixels => inr ("b64:" ++ pixels)
  end.

Definition demo_env (backend_up : bool) : Env :=
  mkEnv (fun k => 90000000000 + Z.of_nat k)
        (fun k => "uuid-" ++ str_nat k)
        (fun k => Nat.iter k (fun x => PrimFloat.add x PrimFloat.one) PrimFloat.zero)
        demo_str_exc
        (fun _ => "1.0")
        demo_open
        demo_b64
        (fun _ _ => if backend_up
                    then inr (mkHttpResponse 200 "" (inr (Some "hello")))
                    else inl (OtherException "connection refused")).

Definition demo_turn (r text : string) (imgs : option (list string)) : Message :=
  mkMessage r text 0 imgs.

(** A session idle since time 0, hence for more than 24 hours at every
    reading of the sample clock. *)
Definition demo_old : Conversation :=
  mkConversation "old" [demo_turn "user" "hello" None] 0 0.

(** A session used one millisecond before the first reading. *)
Definition demo_live : Conversation :=
  mkConversation "live"
    [demo_turn "user" "look" (Some ["b64:cat"]); demo_turn "assistant" "a cat" None]
    89999990000 89999999000.

Definition demo_blank : Conversation := mkConversation "blank" [] 89999999000 89999999000.

Definition demo_store : gmap string Conversation :=
  <["old" := demo_old]> (<["live" := demo_live]> (<["blank" := demo_blank]> ∅)).

Definition demo_world : World := mkWorld demo_store 0 0 0 [].

Definition empty_world : World := mkWorld ∅ 0 0 0 [].

Definition demo_request : TextPromptRequest := mkTextPromptRequest "hi" None None None.

Definition demo_calls : list AppendCall :=
  [mkAppendCall "live" "user" "again" None;
   mkAppendCall "blank" "user" "elsewhere" None;
   mkAppendCall "live" "assistant" "yes" None;
   mkAppendCall "gone" "user" "lost" None;
   mkAppendCall "live" "user" "again" None].

Definition demo_ops : list StoreOp :=
  [OpResolve (Some "live"); OpAppend (mkAppendCall "live" "user" "more" None);
   OpGet "live"; OpDelete "blank"; OpResolve None; OpResolve (Some "old")].

Definition demo_frames (n : nat) : list UploadFile := repeat (upload "frame") n.

(** Twelve turns ["t1"] ... ["t12"]. *)
Definition demo_long : Conversation :=
  mkConversation "long"
    (map (fun k => demo_turn "user" ("t" ++ str_nat k) None) (seq 1 12)) 0 89999999000.

(** ** Service start-up and health

    [check_ollama_health], [ensure_model_available] and [startup_event]
    talk to Ollama's [/api/tags] and [/api/pull]. Their
    replies come from a [Probe]; the calls issued so far, and the 2-second
    sleeps taken, are counted in a [Boot] state. *)

(** What [model.get("name", "")] gives for one entry of the model list:
    nothing under that key, a string, or something on which the test
    [MODEL_NAME in ...] raises (a null or otherwise non-string name, or an
    entry that is no object). *)
Inductive ModelName :=
| NameMissing
| NameStr (name : string)
| NameUnusable (e : Exn).

(** The reply to [GET /api/tags]: the status, and what
    [response.json().get("models", [])] yields (or the exception raised
    while reading it). *)
Record TagsReply := mkTagsReply {
  tags_status_code : Z;
  tags_models : Exn + list ModelName
}.

(** The reply to [POST /api/pull]. *)
Record PullReply := mkPullReply {
  pull_status_code : Z;
  pull_text : string
}.

Record Probe := mkProbe {
  get_tags : nat -> Exn + TagsReply;
  post_pull : nat -> Exn + PullReply
}.

Record Boot := mkBoot {
  tag_requests : nat;
  pull_requests : nat;
  sleeps : nat
}.

(** Python's [needle in haystack] on [str]. *)
Fixpoint substring_in (needle haystack : string) : bool :=
  String.prefix needle haystack
  || match haystack with
     | EmptyString => false
     | String _ rest => substring_in needle rest
     end.

Definition check_ollama_health (probe : Probe) (b : Boot) : bool * Boot :=
  let b' := mkBoot (S (tag_requests b)) (pull_requests b) (sleeps b) in
  match get_tags probe (tag_requests b) with
  | inr r => (tags_status_code r =? 200, b')
  | inl _ => (false, b')
  end.

(** The second half of [ensure_model_available]: the pull. *)
Definition pull_model (probe : Probe) (b : Boot) : bool * Boot :=
  let b' := mkBoot (tag_requests b) (S (pull_requests b)) (sleeps b) in
  match post_pull probe (pull_requests b) with
  | inr r => (pull_status_code r =? 200, b')
  | inl _ => (false, b')
  end.

(** The [for model in models] loop of [ensure_model_available]: [Ok true]
    for the early [return True], [Ok false] when the loop runs to its end,
    and the exception of the first entry whose test raises before that. *)
Fixpoint model_listed (models : list ModelName) : Exn + bool :=
  match models with
  | [] => inr false
  | NameMissing :: rest =>
      if substring_in MODEL_NAME "" then inr true else model_listed rest
  | NameStr name :: rest =>
      if substring_in MODEL_NAME name then inr true else model_listed rest
  | NameUnusable e :: _ => inl e
  end.

Definition ensure_model_available (probe : Probe) (b : Boot) : bool * Boot :=
  let b' := mkBoot (S (tag_requests b)) (pull_requests b) (sleeps b) in
  match get_tags probe (tag_requests b) with
  | inl _ => (false, b')
  | inr r =>
      if tags_status_code r =? 200 then
        match tags_models r with
        | inl _ => (false, b')
        | inr models =>
            match model_listed models with
            | inl _ => (false, b')
            | inr true => (true, b')
            | inr false => pull_model probe b'
            end
        end
      else pull_model probe b'
  end.

Definition max_retries : nat := 30.

(** The [for i in range(max_retries)] loop of [startup_event], over the
    indices still to run. *)
Fixpoint wait_for_ollama (probe : Probe) (indices : list nat) (b : Boot)
    : (Exn + unit) * Boot :=
  match indices with
  | [] => (inr tt, b)
  | i :: rest =>
      let '(healthy, b1) := check_ollama_health probe b in
      if healthy then (inr tt, b1)
      else if (i =? max_retries - 1)%nat
      then (inl (OtherException "Ollama service unavailable"), b1)
      else wait_for_ollama probe rest
             (mkBoot (tag_requests b1) (pull_requests b1) (S (sleeps b1)))
  end.

Definition startup_event (probe : Probe) (b : Boot) : (Exn + unit) * Boot :=
  match wait_for_ollama probe (seq 0 max_retries) b with
  | (inl e, b') => (inl e, b')
  | (inr _, b') =>
      let '(_, b'') := ensure_model_available probe b' in
      (inr tt, b'')
  end.

(** ** Invariants of the store *)

(** Every stored conversation records its own key as [session_id]. *)
Definition keys_consistent (w : World) : Prop :=
  forall sid c, conversations w !! sid = Some c -> session_id c = sid.

(** The wall clock never goes back. *)
Definition monotone_clock (env : Env) : Prop :=
  forall i j, (i <= j)%nat -> datetime_now env i <= datetime_now env j.

(** A conversation whose times are in order and not after [bound]: creation,
    then the turns in order of their timestamps, then the last activity. *)
Definition session_chronological (bound : datetime) (c : Conversation) : Prop :=
  created_at c <= last_activity c
  /\ last_activity c <= bound
  /\ StronglySorted Z.le (map timestamp (messages c))
  /\ Forall (fun m => created_at c <= timestamp m <= last_activity c) (messages c).

Definition chronological (env : Env) (w : World) : Prop :=
  forall sid c, conversations w !! sid = Some c ->
    session_chronological (datetime_now env (clock_reads w)) c.

(** The backend answers every call with status 200 and the text [answer]. *)
Definition backend_answers (env : Env) (answer : string) : Prop :=
  forall k p, exists body,
    client_post env k p = inr (mkHttpResponse 200 body (inr (Some answer))).

(** Whether the [i]-th request to [/api/tags] is answered with status 200. *)
Definition tags_ok (probe : Probe) (i : nat) : bool :=
  match get_tags probe i with
  | inr r => tags_status_code r =? 200
  | inl _ => false
  end.

(** How one store operation may change what is stored under the key [k],
    [w] being the state before and [n] the number of clock readings the
    operation takes: nothing, removal, a refreshed activity time, one more
    turn, or a new empty session whose id is the key. *)
Inductive session_step (env : Env) (w : World) (n : nat) (k : string)
    : option Conversation -> option Conversation -> Prop :=
| step_same (o : option Conversation) : session_step env w n k o o
| step_gone (o : option Conversation) : session_step env w n k o None
| step_refresh (c : Conversation) (i : nat) :
    (i < n)%nat ->
    session_step env w n k (Some c) (Some (refresh_activity (reading env w i) c))
| step_append (c : Conversation) (r text : string) (imgs : option (list string))
    (i j : nat) :
    (i <= j)%nat -> (j < n)%nat ->
    session_step env w n k (Some c)
      (Some (mkConversation (session_id c)
               (messages c ++ [mkMessage r text (reading env w i) imgs])
               (created_at c) (reading env w j)))
| step_new (o : option Conversation) (i j : nat) :
    (i <= j)%nat -> (j < n)%nat ->
    session_step env w n k o
      (Some (mkConversation k [] (reading env w i) (reading env w j))).

(** A store built by the operations themselves, for the examples. *)
Definition demo_script : list StoreOp :=
  [OpResolve None;
   OpAppend (mkAppendCall "uuid-0" "user" "hello" None);
   OpAppend (mkAppendCall "uuid-0" "assistant" "hi there" None);
   OpResolve (Some "uuid-0");
   OpResolve (Some "nobody");
   OpDelete "uuid-1";
   OpAppend (mkAppendCall "uuid-0" "user" "bye" (Some ["b64:wave"]))].

(** The payload [generate_response] builds from its arguments. *)
Definition generate_payload (prompt : string) (imgs : option (list string))
    (temperature : option float) (max_tokens : option Z) : Payload :=
  mkPayload "bakllava" prompt false temperature max_tokens
            (match imgs with
             | Some (i :: rest) => Some (i :: rest)
             | _ => None
             end).

(** The text a call of the backend came back with: that of a reply of
    status 200 whose body could be read (["No response generated"] when the
    body has no text); none when the call raised, when the status is another
    one, or when the body could not be read. *)
Definition reply_text (sent : Exn + HttpResponse) : option string :=
  match sent with
  | inl _ => None
  | inr reply =>
      if resp_status_code reply =? 200 then
        match resp_json_response reply with
        | inr (Some text) => Some text
        | inr None => Some "No response generated"
        | inl _ => None
        end
      else None
  end.

(** What the sweep at time [t] leaves of a stored entry. *)
Definition kept_at (t : datetime) (o : option Conversation) : option Conversation :=
  match o with
  | Some c => if decide (t - last_activity c <= 24 * 3600 * 1000000) then Some c else None
  | None => None
  end.

(** The state after one more call of the backend with [payload]. *)
Definition after_call (payload : Payload) (w : World) : World :=
  mkWorld (conversations w) (clock_reads w) (uuid_draws w) (timer_reads w)
          (ollama_calls w ++ [payload]).

(** A backend that answers every call with status 404. *)
Definition demo_env_404 : Env :=
  mkEnv (fun k => 90000000000 + Z.of_nat k)
        (fun k => "uuid-" ++ str_nat k)
        (fun k => Nat.iter k (fun x => PrimFloat.add x PrimFloat.one) PrimFloat.zero)
        demo_str_exc
        (fun _ => "1.0")
        demo_open
        demo_b64
        (fun _ _ => inr (mkHttpResponse 404 "model not found" (inr None))).

(** The four statements every generation handler ends its [try] block
    with: record the user turn, call the backend, record the reply, build
    the success envelope. *)
Definition exchange (env : Env) (start_time : float) (sid : string)
    (user_text : string) (user_images : option (list string))
    (context_prompt : string) (context_images : option (list string))
    (temperature : option float) (max_tokens : option Z) : M APIResponse :=
  add_message_to_conversation env sid "user" user_text user_images;;
  text ← generate_response env context_prompt context_images temperature max_tokens;
  add_message_to_conversation env sid "assistant" text None;;
  success_response env start_time sid text.

(** The time a handler reports: the second reading of the timer minus the
    first. *)
Definition elapsed (env : Env) (w : World) : float :=
  PrimFloat.sub (time_time env (S (timer_reads w))) (time_time env (timer_reads w)).

(** A sample Ollama whose first [down] replies to [/api/tags] are refused
    connections; afterwards it lists three models, one of them without a
    name. Pulls succeed. *)
Definition demo_probe (down : nat) : Probe :=
  mkProbe (fun i => if (i <? down)%nat
                    then inl (OtherException "connection refused")
                    else inr (mkTagsReply 200
                                (inr [NameStr "llama2:7b"; NameMissing;
                                      NameStr "bakllava:latest"])))
          (fun _ => inr (mkPullReply 200 "")).

(** A sample Ollama that lists a model with a null name before the
    model looked for. *)
Definition demo_probe_null : Probe :=
  mkProbe (fun _ => inr (mkTagsReply 200
                           (inr [NameStr "llama2:7b";
                                 NameUnusable
                                   (OtherException
                                      "argument of type 'NoneType' is not iterable");
                                 NameStr "bakllava:latest"])))
          (fun _ => inr (mkPullReply 200 "")).

Definition fresh_boot : Boot := mkBoot 0 0 0.

(** ** Context builder: agreement with the specification's wording *)

Lemma append_empty_r (s : string) : s ++ "" = s.
Proof.
  induction s as [|a s IH]; [reflexivity|].
  change (String a (s ++ "") = String a s). now rewrite IH.
Qed.

Lemma append_assoc3 (a b c : string) : (a ++ b) ++ c = a ++ b ++ c.
Proof.
  induction a as [|x a IH]; [reflexivity|].
  change (String x ((a ++ b) ++ c) = String x (a ++ b ++ c)). now rewrite IH.
Qed.

Lemma concat_blank_line (sections : list string) :
  String.concat (newline ++ newline) sections = spec_blank_line_separated sections.
Proof.
  induction sections as [|s rest IH]; [reflexivity|].
  destruct rest as [|s' rest]; [reflexivity|].
  change (String.concat (newline ++ newline) (s :: s' :: rest))
    with (s ++ (newline ++ newline) ++ String.concat (newline ++ newline) (s' :: rest)).
  rewrite IH, append_assoc3. reflexivity.
Qed.

Lemma recent_messages_last (msgs : list Message) :
  recent_messages msgs = spec_last_turns (Nat.min 10 (length msgs)) msgs.
Proof.
  unfold recent_messages, spec_last_turns.
  rewrite firstn_rev, rev_involutive.
  destruct (10 <? length msgs)%nat eqn:Hlen.
  - apply Nat.ltb_lt in Hlen. rewrite Nat.min_l by lia. reflexivity.
  - apply Nat.ltb_ge in Hlen. rewrite Nat.min_r by lia.
    rewrite Nat.sub_diag. reflexivity.
Qed.

Lemma recent_messages_length (msgs : list Message) :
  length (recent_messages msgs) = Nat.min 10 (length msgs).
Proof.
  unfold recent_messages.
  destruct (10 <? length msgs)%nat eqn:Hlen.
  - apply Nat.ltb_lt in Hlen. rewrite length_skipn. lia.
  - apply Nat.ltb_ge in Hlen. lia.
Qed.

(** Only the ten most recent turns matter to the window. *)
Lemma recent_messages_app (older recent : list Message) :
  length recent = 10%nat -> recent_messages (older ++ recent)%list = recent.
Proof.
  intros Hlen. unfold recent_messages. rewrite length_app, Hlen.
  destruct (10 <? length older + 10)%nat eqn:Hlt.
  - replace (length older + 10 - 10)%nat with (length older) by lia.
    rewrite skipn_app, skipn_all, Nat.sub_diag. reflexivity.
  - apply Nat.ltb_ge in Hlt.
    destruct older as [|m older]; [reflexivity | simpl in Hlt; lia].
Qed.

Lemma context_line_spec (msg : Message) : context_line msg = spec_turn_line msg.
Proof.
  unfold context_line, spec_turn_line, spec_role_label, spec_carried_images, truthy_images.
  destruct (images msg) as [[|i imgs]|]; cbn [length Nat.eqb negb].
  - now rewrite append_empty_r.
  - reflexivity.
  - now rewrite append_empty_r.
Qed.

Lemma build_conversation_context_images (convs : gmap string Conversation)
    (sid prompt : string) (imgs : option (list string)) :
  snd (build_conversation_context convs sid prompt imgs) = imgs.
Proof.
  unfold build_conversation_context.
  destruct (convs !! sid) as [c|]; [|reflexivity].
  destruct (messages c); reflexivity.
Qed.

(** C6: on a session with history, the rendered context is the preamble,
    one line per turn of the window of the last [min 10 n] turns (oldest
    first, marked when the turn carried images), the line of the new human
    turn and the cue line, separated by blank lines; turns older than the
    window have no influence on the output. *)
Theorem render_with_history (convs : gmap string Conversation) (sid : string)
    (c : Conversation) (newText : string) (imgs : option (list string)) :
  convs !! sid = Some c ->
  messages c <> [] ->
  fst (build_conversation_context convs sid newText imgs)
    = spec_render (messages c) newText
  /\ length (spec_last_turns (Nat.min 10 (length (messages c))) (messages c))
       = Nat.min 10 (length (messages c))
  /\ (forall older recent, messages c = (older ++ recent)%list -> length recent = 10%nat ->
        fst (build_conversation_context convs sid newText imgs)
          = spec_render recent newText).
Proof.
  intros Hsid Hne.
  assert (Hrender : fst (build_conversation_context convs sid newText imgs)
                    = spec_render (messages c) newText).
  { unfold build_conversation_context, spec_render. rewrite Hsid.
    destruct (messages c) as [|m ms] eqn:Hm; [congruence|].
    cbn [fst]. rewrite concat_blank_line, recent_messages_last.
    rewrite (map_ext _ _ context_line_spec). reflexivity. }
  split; [exact Hrender|]. split.
  - rewrite <- recent_messages_last. apply recent_messages_length.
  - intros older recent Happ Hlen. rewrite Hrender. unfold spec_render.
    rewrite <- !recent_messages_last, Happ, recent_messages_app by exact Hlen.
    unfold recent_messages. rewrite Hlen. reflexivity.
Qed.

(** C9: on a session without history the context is the new text itself. *)
Theorem render_empty_history (convs : gmap string Conversation) (sid : string)
    (c : Conversation) (newText : string) (imgs : option (list string)) :
  convs !! sid = Some c ->
  messages c = [] ->
  build_conversation_context convs sid newText imgs = (newText, imgs).
Proof.
  intros Hsid Hempty. unfold build_conversation_context.
  rewrite Hsid, Hempty. reflexivity.
Qed.

(** ** Session store: the sweep *)

Lemma lookup_foldl_delete (ks : list string) (m : gmap string Conversation) (k : string) :
  foldl (fun m sid => delete sid m) m ks !! k
    = if decide (k ∈ ks) then None else m !! k.
Proof.
  revert m. induction ks as [|k' ks IH]; intros m; simpl.
  - destruct (decide (k ∈ [])) as [Hin|_]; [inversion Hin | reflexivity].
  - rewrite IH. destruct (decide (k ∈ ks)) as [Hin|Hnin].
    + rewrite decide_True by (now apply elem_of_cons; right). reflexivity.
    + destruct (decide (k = k')) as [->|Hne].
      * rewrite decide_True by (now apply elem_of_cons; left).
        apply lookup_delete_eq.
      * rewrite decide_False by (rewrite elem_of_cons; tauto).
        now apply lookup_delete_ne.
Qed.

Lemma elem_of_expired_sessions (t : datetime) (convs : gmap string Conversation)
    (k : string) :
  k ∈ expired_sessions t convs
  <-> exists c, convs !! k = Some c /\ is_expired t c = true.
Proof.
  unfold expired_sessions. rewrite list_elem_of_In, in_map_iff. split.
  - intros [[k' c] [Hk Hin]]. simpl in Hk. subst k'.
    apply filter_In in Hin. destruct Hin as [Hin Hexp].
    exists c. split; [|exact Hexp].
    apply elem_of_map_to_list. now apply list_elem_of_In.
  - intros [c [Hk Hexp]]. exists (k, c). split; [reflexivity|].
    apply filter_In. split; [|exact Hexp].
    apply list_elem_of_In. now apply elem_of_map_to_list.
Qed.

Lemma lookup_sweep (t : datetime) (convs : gmap string Conversation) (k : string) :
  sweep t convs !! k
    = match convs !! k with
      | Some c => if is_expired t c then None else Some c
      | None => None
      end.
Proof.
  unfold sweep. rewrite lookup_foldl_delete.
  destruct (decide (k ∈ expired_sessions t convs)) as [Hin|Hnin].
  - apply elem_of_expired_sessions in Hin. destruct Hin as [c [-> ->]]. reflexivity.
  - destruct (convs !! k) as [c|] eqn:Hk; [|reflexivity].
    destruct (is_expired t c) eqn:Hexp; [|reflexivity].
    exfalso. apply Hnin. apply elem_of_expired_sessions. eauto.
Qed.

Lemma names_live_true (t : datetime) (convs : gmap string Conversation)
    (sid : option string) :
  names_live t convs sid = true
  <-> exists s c, sid = Some s /\ s <> "" /\ convs !! s = Some c /\ is_expired t c = false.
Proof.
  unfold names_live. split.
  - destruct sid as [s|]; [|discriminate].
    intros H. apply andb_true_iff in H. destruct H as [Hs Hin].
    apply bool_decide_eq_true in Hin. destruct Hin as [c Hc].
    rewrite lookup_sweep in Hc.
    destruct (convs !! s) as [c0|] eqn:Hk; [|discriminate].
    destruct (is_expired t c0) eqn:Hexp; [discriminate|].
    exists s, c0. repeat split; try assumption.
    intros ->. discriminate.
  - intros [s [c [-> [Hne [Hk Hexp]]]]].
    apply andb_true_iff. split.
    + destruct s; [congruence | reflexivity].
    + apply bool_decide_eq_true. rewrite lookup_sweep, Hk, Hexp. eauto.
Qed.

Lemma names_live_false (t : datetime) (convs : gmap string Conversation)
    (sid : option string) :
  sid = None \/ sid = Some ""
  \/ (exists s, sid = Some s /\ convs !! s = None)
  \/ (exists s c, sid = Some s /\ convs !! s = Some c /\ is_expired t c = true) ->
  names_live t convs sid = false.
Proof.
  intros H. apply not_true_is_false. intros Hlive.
  apply names_live_true in Hlive. destruct Hlive as [s [c [-> [Hne [Hk Hexp]]]]].
  destruct H as [H|[H|[[s' [H Hnone]]|[s' [c' [H [Hk' Hexp']]]]]]].
  - discriminate.
  - congruence.
  - congruence.
  - injection H as <-. congruence.
Qed.

(** ** Session store: what each operation computes *)

Section StoreRuns.

Context (env : Env).

Abbreviation reading := (reading env).

Lemma run_cleanup (w : World) :
  cleanup_expired_conversations env w
    = (Ok tt, mkWorld (sweep (reading w 0) (conversations w)) (1 + clock_reads w)
                      (uuid_draws w) (timer_reads w) (ollama_calls w)).
Proof. reflexivity. Qed.

Lemma run_insert_new (w : World) :
  insert_new_conversation env w
    = (Ok (uuid4 env (uuid_draws w)),
       mkWorld (<[uuid4 env (uuid_draws w) :=
                    mkConversation (uuid4 env (uuid_draws w)) []
                                   (reading w 0) (reading w 1)]> (conversations w))
               (2 + clock_reads w) (S (uuid_draws w)) (timer_reads w) (ollama_calls w)).
Proof. reflexivity. Qed.

Lemma run_get_or_create_live (s : string) (w : World) :
  names_live (reading w 0) (conversations w) (Some s) = true ->
  get_or_create_conversation env (Some s) w
    = (Ok s, mkWorld (alter (refresh_activity (reading w 1)) s
                            (sweep (reading w 0) (conversations w)))
                     (2 + clock_reads w) (uuid_draws w) (timer_reads w) (ollama_calls w)).
Proof.
  intros Hlive. unfold get_or_create_conversation, mbind, M_bind, bind.
  rewrite run_cleanup. cbn [get_store conversations].
  unfold names_live in Hlive. rewrite Hlive.
  reflexivity.
Qed.

Lemma run_get_or_create_new (sid : option string) (w : World) :
  names_live (reading w 0) (conversations w) sid = false ->
  get_or_create_conversation env sid w
    = (Ok (uuid4 env (uuid_draws w)),
       mkWorld (<[uuid4 env (uuid_draws w) :=
                    mkConversation (uuid4 env (uuid_draws w)) []
                                   (reading w 1) (reading w 2)]>
                  (sweep (reading w 0) (conversations w)))
               (3 + clock_reads w) (S (uuid_draws w)) (timer_reads w) (ollama_calls w)).
Proof.
  intros Hdead. unfold get_or_create_conversation, mbind, M_bind, bind.
  rewrite run_cleanup. cbn [get_store conversations].
  unfold names_live in Hdead.
  destruct sid as [s|]; [rewrite Hdead|]; reflexivity.
Qed.

Lemma run_add_message_known (sid r text : string) (imgs : option (list string))
    (c : Conversation) (w : World) :
  conversations w !! sid = Some c ->
  add_message_to_conversation env sid r text imgs w
    = (Ok tt,
       mkWorld (<[sid := mkConversation (session_id c)
                           (messages c ++ [mkMessage r text (reading w 0) imgs])
                           (created_at c) (reading w 1)]> (conversations w))
               (2 + clock_reads w) (uuid_draws w) (timer_reads w) (ollama_calls w)).
Proof.
  intros Hsid. unfold add_message_to_conversation, mbind, M_bind, bind.
  cbn [get_store]. rewrite bool_decide_eq_true_2 by eauto.
  assert (Hmap : forall m t,
    alter (refresh_activity t) sid (alter (append_message m) sid (conversations w))
    = <[sid := mkConversation (session_id c) (messages c ++ [m]) (created_at c) t]>
        (conversations w)).
  { intros m t. apply map_eq. intros k. destruct (decide (k = sid)) as [->|Hne].
    - rewrite lookup_insert_eq, !lookup_alter_eq, Hsid. reflexivity.
    - rewrite lookup_insert_ne by congruence.
      rewrite !lookup_alter_ne by congruence. reflexivity. }
  rewrite <- Hmap. reflexivity.
Qed.

Lemma run_add_message_unknown (sid r text : string) (imgs : option (list string))
    (w : World) :
  conversations w !! sid = None ->
  add_message_to_conversation env sid r text imgs w = (Ok tt, w).
Proof.
  intros Hsid. unfold add_message_to_conversation, mbind, M_bind, bind.
  cbn [get_store]. rewrite bool_decide_eq_false_2; [reflexivity|].
  rewrite Hsid. intros [? ?]. discriminate.
Qed.

End StoreRuns.

(** ** Session store: properties *)

(** C10: [delete] tests existence only; an expired session that is still
    stored is deleted and the call succeeds. *)
Theorem delete_ignores_expiry (t : datetime) (sid : string) (c : Conversation)
    (w : World) :
  conversations w !! sid = Some c ->
  is_expired t c = true ->
  delete_conversation sid w
    = (Ok ("Conversation " ++ sid ++ " deleted"),
       set_conversations (delete sid (conversations w)) w)
  /\ conversations (snd (delete_conversation sid w)) !! sid = None.
Proof.
  intros Hsid _.
  assert (Hrun : delete_conversation sid w
    = (Ok ("Conversation " ++ sid ++ " deleted"),
       set_conversations (delete sid (conversations w)) w)).
  { unfold delete_conversation, mbind, M_bind, bind. cbn [get_store].
    rewrite Hsid. reflexivity. }
  split; [exact Hrun|]. rewrite Hrun. apply lookup_delete_eq.
Qed.

Lemma run_get_conversation_known (sid : string) (c : Conversation) (w : World) :
  conversations w !! sid = Some c ->
  get_conversation sid w
    = (Ok (mkConversationResponse sid (messages c) (length (messages c))), w).
Proof.
  intros Hsid. unfold get_conversation, mbind, M_bind, bind. cbn [get_store].
  rewrite Hsid. reflexivity.
Qed.

Lemma run_get_conversation_unknown (sid : string) (w : World) :
  conversations w !! sid = None ->
  get_conversation sid w = (Raise (HTTPException 404 "Conversation not found"), w).
Proof.
  intros Hsid. unfold get_conversation, mbind, M_bind, bind. cbn [get_store].
  rewrite Hsid. reflexivity.
Qed.

(** What the code does with a stored session that is expired at the next
    reading of the clock: [get] tests existence only and still returns it,
    whereas resolving its id sweeps it and returns the newly drawn id, which
    names a new empty session; unless that draw is the old id itself, [get]
    on the old id is NotFound from then on. *)
Theorem expired_session_reachability (env : Env) (s : string) (c : Conversation)
    (w : World) :
  conversations w !! s = Some c ->
  is_expired (reading env w 0) c = true ->
  get_conversation s w
    = (Ok (mkConversationResponse s (messages c) (length (messages c))), w)
  /\ exists w',
       get_or_create_conversation env (Some s) w = (Ok (uuid4 env (uuid_draws w)), w')
       /\ conversations w' !! uuid4 env (uuid_draws w)
            = Some (mkConversation (uuid4 env (uuid_draws w)) []
                                   (reading env w 1) (reading env w 2))
       /\ (uuid4 env (uuid_draws w) <> s ->
            get_conversation s w'
              = (Raise (HTTPException 404 "Conversation not found"), w')).
Proof.
  intros Hsid Hexp. split; [now apply run_get_conversation_known|].
  eexists. split.
  - apply run_get_or_create_new. apply names_live_false.
    right; right; right. eauto.
  - cbn [conversations]. split; [apply lookup_insert_eq|].
    intros Hne. apply run_get_conversation_unknown. cbn [conversations].
    rewrite lookup_insert_ne by exact Hne.
    rewrite lookup_sweep, Hsid, Hexp. reflexivity.
Qed.

(** C5, as the code has it: an id naming a live session is refreshed and
    returned; every other input draws a new id and stores under it an empty
    session whose [created_at] and [last_activity] are the next two readings
    of the clock, in that order. The call always returns an id. *)
Theorem resolve_or_create_cases (env : Env) (sid : option string) (w : World) :
  (forall s c, sid = Some s -> s <> "" -> conversations w !! s = Some c ->
               is_expired (reading env w 0) c = false ->
     exists w', get_or_create_conversation env sid w = (Ok s, w')
       /\ conversations w' !! s = Some (refresh_activity (reading env w 1) c)
       /\ forall k, k <> s ->
            conversations w' !! k = sweep (reading env w 0) (conversations w) !! k)
  /\ (sid = None \/ sid = Some ""
      \/ (exists s, sid = Some s /\ conversations w !! s = None)
      \/ (exists s c, sid = Some s /\ conversations w !! s = Some c
                      /\ is_expired (reading env w 0) c = true) ->
      exists w', get_or_create_conversation env sid w = (Ok (uuid4 env (uuid_draws w)), w')
        /\ conversations w'
             = <[uuid4 env (uuid_draws w) :=
                   mkConversation (uuid4 env (uuid_draws w)) []
                                  (reading env w 1) (reading env w 2)]>
                 (sweep (reading env w 0) (conversations w)))
  /\ exists id w', get_or_create_conversation env sid w = (Ok id, w').
Proof.
  split; [|split].
  - intros s c -> Hne Hsid Hexp. eexists. split.
    + apply run_get_or_create_live. apply names_live_true. eauto 10.
    + cbn [conversations]. split.
      * rewrite lookup_alter_eq, lookup_sweep, Hsid, Hexp. reflexivity.
      * intros k Hk. now rewrite lookup_alter_ne by congruence.
  - intros Hother. eexists. split.
    + apply run_get_or_create_new. now apply names_live_false.
    + reflexivity.
  - destruct (names_live (reading env w 0) (conversations w) sid) eqn:Hlive.
    + destruct sid as [s|]; [|discriminate].
      do 2 eexists. now apply run_get_or_create_live.
    + do 2 eexists. now apply run_get_or_create_new.
Qed.

(** One append leaves every other session as it was and extends the
    session it names. *)
Lemma run_append_lookup (env : Env) (call : AppendCall) (sid : string)
    (c : Conversation) (w : World) :
  conversations w !! sid = Some c ->
  exists w' c', run_append env call w = (Ok tt, w')
    /\ conversations w' !! sid = Some c'
    /\ exists new, messages c' = (messages c ++ new)%list
         /\ map turn_of_message new
              = map turn_of_call (calls_on sid [call]).
Proof.
  intros Hsid. unfold run_append, calls_on. cbn [List.filter].
  destruct (String.eqb (ac_session call) sid) eqn:Heq.
  - apply String.eqb_eq in Heq. rewrite Heq.
    eexists. eexists. split; [eapply run_add_message_known; eassumption|].
    cbn [conversations]. split; [apply lookup_insert_eq|].
    cbn [messages]. eexists. split; reflexivity.
  - apply String.eqb_neq in Heq.
    destruct (conversations w !! ac_session call) as [c0|] eqn:Hk.
    + eexists. exists c. split; [eapply run_add_message_known; eassumption|].
      cbn [conversations]. split; [now rewrite lookup_insert_ne|].
      exists []. split; [now rewrite app_nil_r | reflexivity].
    + exists w, c. split; [now apply run_add_message_unknown|].
      split; [exact Hsid|].
      exists []. split; [now rewrite app_nil_r | reflexivity].
Qed.

Lemma calls_on_cons (sid : string) (call : AppendCall) (calls : list AppendCall) :
  calls_on sid (call :: calls) = (calls_on sid [call] ++ calls_on sid calls)%list.
Proof.
  unfold calls_on. cbn [List.filter].
  destruct (String.eqb (ac_session call) sid); reflexivity.
Qed.

Lemma run_append_lookup_none (env : Env) (call : AppendCall) (sid : string)
    (w : World) :
  conversations w !! sid = None ->
  exists w', run_append env call w = (Ok tt, w') /\ conversations w' !! sid = None.
Proof.
  intros Hsid. unfold run_append.
  destruct (conversations w !! ac_session call) as [c0|] eqn:Hk.
  - eexists. split; [eapply run_add_message_known; eassumption|].
    cbn [conversations]. rewrite lookup_insert_ne by congruence. exact Hsid.
  - exists w. split; [now apply run_add_message_unknown | exact Hsid].
Qed.

(** No operation on the store changes or reorders the turns a session
    already has, provided the uuid source never yields the id again. *)
Lemma run_op_history_kept (env : Env) (sid : string) (turns : list Message)
    (op : StoreOp) (w : World) :
  (forall k, uuid4 env k <> sid) ->
  history_kept sid turns w ->
  exists w', run_op env op w = (Ok tt, w') /\ history_kept sid turns w'.
Proof.
  intros Hfresh Hkept. destruct op as [call|req|k|k]; cbn [run_op].
  - destruct Hkept as [Hnone|[c [new [Hc Hmsgs]]]].
    + destruct (run_append_lookup_none env call sid w Hnone) as [w' [Hrun Hw']].
      exists w'. split; [exact Hrun | now left].
    + destruct (run_append_lookup env call sid c w Hc)
        as [w' [c' [Hrun [Hc' [new' [Hmsgs' _]]]]]].
      exists w'. split; [exact Hrun|]. right. exists c', (new ++ new')%list.
      split; [exact Hc'|]. rewrite Hmsgs', Hmsgs, <- app_assoc. reflexivity.
  - assert (Hsweep : history_kept sid turns
                       (set_conversations (sweep (reading env w 0) (conversations w)) w)).
    { unfold history_kept. cbn [set_conversations conversations]. rewrite lookup_sweep.
      destruct Hkept as [->|[c [new [-> Hmsgs]]]]; [now left|].
      destruct (is_expired _ c); [now left | right; eauto]. }
    unfold history_kept in Hsweep. cbn [set_conversations conversations] in Hsweep.
    unfold mbind, M_bind, bind.
    destruct (names_live (reading env w 0) (conversations w) req) eqn:Hlive.
    + destruct req as [s|]; [|discriminate].
      rewrite (run_get_or_create_live env s w Hlive). eexists. split; [reflexivity|].
      unfold history_kept. cbn [conversations].
      destruct (decide (s = sid)) as [->|Hne].
      * rewrite lookup_alter_eq.
        destruct Hsweep as [->|[c [new [-> Hmsgs]]]]; [now left|].
        right. exists (refresh_activity (reading env w 1) c), new. split; [reflexivity|].
        exact Hmsgs.
      * rewrite lookup_alter_ne by exact Hne. exact Hsweep.
    + rewrite (run_get_or_create_new env req w Hlive). eexists. split; [reflexivity|].
      unfold history_kept. cbn [conversations].
      rewrite lookup_insert_ne by apply Hfresh. exact Hsweep.
  - exists w. split; [|exact Hkept].
    unfold get_conversation, try_except, mbind, M_bind, bind. cbn [get_store].
    destruct (conversations w !! k); reflexivity.
  - unfold delete_conversation, try_except, mbind, M_bind, bind. cbn [get_store].
    destruct (conversations w !! k) as [c0|] eqn:Hk.
    + eexists. split; [reflexivity|]. unfold history_kept.
      cbn [put_store set_conversations conversations].
      destruct (decide (k = sid)) as [->|Hne].
      * left. apply lookup_delete_eq.
      * rewrite lookup_delete_ne by exact Hne. exact Hkept.
    + exists w. split; [reflexivity | exact Hkept].
Qed.

(** C8: after any sequence of appends, [get] returns the turns the session
    had before, unchanged, followed by the turns appended to it, one per
    call and in the order of the calls. More generally, whatever operations
    run on the store, a session that is still stored keeps the turns it had,
    in place and unchanged, as long as its id is not drawn again. *)
Theorem appends_keep_insertion_order (env : Env) (sid : string) (c : Conversation)
    (calls : list AppendCall) (w : World) :
  conversations w !! sid = Some c ->
  (exists w' new,
     run_appends env calls w = (Ok tt, w')
     /\ map turn_of_message new = map turn_of_call (calls_on sid calls)
     /\ get_conversation sid w'
          = (Ok (mkConversationResponse sid (messages c ++ new)
                                        (length (messages c ++ new))), w'))
  /\ (forall ops, (forall k, uuid4 env k <> sid) ->
        exists w', run_ops env ops w = (Ok tt, w')
                   /\ history_kept sid (messages c) w').
Proof.
  intros Hsid. split.
  - revert c w Hsid. induction calls as [|call calls IH]; intros c w Hsid.
    + exists w, []. split; [reflexivity|]. split; [reflexivity|].
      rewrite app_nil_r. now apply run_get_conversation_known.
    + destruct (run_append_lookup env call sid c w Hsid)
        as [w1 [c1 [Hrun [Hsid1 [new1 [Hmsgs Hnew1]]]]]].
      destruct (IH c1 w1 Hsid1) as [w' [new [Hruns [Hnew Hget]]]].
      exists w', (new1 ++ new)%list. split; [|split].
      * cbn [run_appends]. unfold mbind, M_bind, bind. rewrite Hrun. exact Hruns.
      * rewrite calls_on_cons, !map_app, Hnew1, Hnew. reflexivity.
      * rewrite Hget, Hmsgs, <- !app_assoc. reflexivity.
  - intros ops Hfresh.
    assert (Hkept : history_kept sid (messages c) w).
    { right. exists c, []. split; [exact Hsid | now rewrite app_nil_r]. }
    clear Hsid. revert w Hkept. induction ops as [|op ops IH]; intros w Hkept.
    + exists w. split; [reflexivity | exact Hkept].
    + destruct (run_op_history_kept env sid (messages c) op w Hfresh Hkept)
        as [w1 [Hrun Hkept1]].
      destruct (IH w1 Hkept1) as [w' [Hruns Hkept']].
      exists w'. split; [|exact Hkept'].
      cbn [run_ops]. unfold mbind, M_bind, bind. rewrite Hrun. exact Hruns.
Qed.

(** ** The monad: inversion and composition *)

Lemma bind_Ok_inv {A B} (m : M A) (k : A -> M B) (w w' : World) (b : B) :
  (m ≫= k) w = (Ok b, w') ->
  exists a w1, m w = (Ok a, w1) /\ k a w1 = (Ok b, w').
Proof.
  unfold mbind, M_bind, bind. destruct (m w) as [[a|e] w1]; intros H.
  - eauto.
  - discriminate.
Qed.

Lemma bind_inv {A B} (m : M A) (k : A -> M B) (w w' : World) (r : Outcome B) :
  (m ≫= k) w = (r, w') ->
  (exists a w1, m w = (Ok a, w1) /\ k a w1 = (r, w'))
  \/ (exists e, m w = (Raise e, w') /\ r = Raise e).
Proof.
  unfold mbind, M_bind, bind. destruct (m w) as [[a|e] w1]; intros H.
  - left. eauto.
  - right. injection H as <- <-. eauto.
Qed.

Lemma try_except_inv {A} (body : M A) (handler : Exn -> M A) (w w' : World)
    (r : Outcome A) :
  try_except body handler w = (r, w') ->
  (exists a, body w = (Ok a, w') /\ r = Ok a)
  \/ (exists e w1, body w = (Raise e, w1) /\ handler e w1 = (r, w')).
Proof.
  unfold try_except. destruct (body w) as [[a|e] w1]; intros H.
  - left. injection H as <- <-. eauto.
  - right. eauto.
Qed.

Lemma returns_bind {A B} (m : M A) (k : A -> M B) :
  returns m -> (forall a, returns (k a)) -> returns (m ≫= k).
Proof.
  intros Hm Hk w. destruct (Hm w) as [a [w1 Hrun]].
  destruct (Hk a w1) as [b [w2 Hrun2]]. exists b, w2.
  unfold mbind, M_bind, bind. now rewrite Hrun.
Qed.

Lemma returns_try_except {A} (body : M A) (handler : Exn -> M A) :
  (forall e, returns (handler e)) -> returns (try_except body handler).
Proof.
  intros Hh w. unfold try_except. destruct (body w) as [[a|e] w1].
  - eauto.
  - apply Hh.
Qed.

Lemma sends_weaken {A} (P Q : Payload -> Prop) (m : M A) :
  (forall p, P p -> Q p) -> sends P m -> sends Q m.
Proof.
  intros HPQ Hm w r w' Hrun. destruct (Hm w r w' Hrun) as [new [Hcalls Hall]].
  exists new. split; [exact Hcalls|]. eapply Forall_impl; eauto.
Qed.

Lemma silent_sends {A} (P : Payload -> Prop) (m : M A) : silent m -> sends P m.
Proof.
  intros Hm w r w' Hrun. exists []. rewrite app_nil_r. split; [eauto | constructor].
Qed.

Lemma sends_bind {A B} (P : Payload -> Prop) (m : M A) (k : A -> M B) :
  sends P m ->
  (forall a w w1, m w = (Ok a, w1) -> sends P (k a)) ->
  sends P (m ≫= k).
Proof.
  intros Hm Hk w r w' Hrun. apply bind_inv in Hrun.
  destruct Hrun as [[a [w1 [Hrun1 Hrun2]]]|[e [Hrun1 _]]].
  - destruct (Hm _ _ _ Hrun1) as [new1 [Hc1 Hall1]].
    destruct (Hk _ _ _ Hrun1 _ _ _ Hrun2) as [new2 [Hc2 Hall2]].
    exists (new1 ++ new2)%list. split.
    + rewrite Hc2, Hc1, app_assoc. reflexivity.
    + apply Forall_app. split; assumption.
  - eapply Hm; eauto.
Qed.

Lemma sends_try_except {A} (P : Payload -> Prop) (body : M A) (handler : Exn -> M A) :
  sends P body -> (forall e, sends P (handler e)) -> sends P (try_except body handler).
Proof.
  intros Hb Hh w r w' Hrun. apply try_except_inv in Hrun.
  destruct Hrun as [[a [Hrun _]]|[e [w1 [Hrun1 Hrun2]]]].
  - eapply Hb; eauto.
  - destruct (Hb _ _ _ Hrun1) as [new1 [Hc1 Hall1]].
    destruct (Hh e _ _ _ Hrun2) as [new2 [Hc2 Hall2]].
    exists (new1 ++ new2)%list. split.
    + rewrite Hc2, Hc1, app_assoc. reflexivity.
    + apply Forall_app. split; assumption.
Qed.

Lemma silent_bind {A B} (m : M A) (k : A -> M B) :
  silent m -> (forall a, silent (k a)) -> silent (m ≫= k).
Proof.
  intros Hm Hk w r w' Hrun. apply bind_inv in Hrun.
  destruct Hrun as [[a [w1 [Hrun1 Hrun2]]]|[e [Hrun1 _]]].
  - rewrite (Hk _ _ _ _ Hrun2). eapply Hm; eauto.
  - eapply Hm; eauto.
Qed.

Lemma silent_try_except {A} (body : M A) (handler : Exn -> M A) :
  silent body -> (forall e, silent (handler e)) -> silent (try_except body handler).
Proof.
  intros Hb Hh w r w' Hrun. apply try_except_inv in Hrun.
  destruct Hrun as [[a [Hrun _]]|[e [w1 [Hrun1 Hrun2]]]].
  - eapply Hb; eauto.
  - rewrite (Hh _ _ _ _ Hrun2). eapply Hb; eauto.
Qed.

Lemma silent_ret {A} (a : A) : silent (mret a).
Proof. intros w r w' H. injection H as _ <-. reflexivity. Qed.

Lemma silent_raise {A} (e : Exn) : silent (@raise A e).
Proof. intros w r w' H. injection H as _ <-. reflexivity. Qed.

Lemma silent_get_store : silent get_store.
Proof. intros w r w' H. injection H as _ <-. reflexivity. Qed.

Lemma silent_put_store (m : gmap string Conversation) : silent (put_store m).
Proof. intros w r w' H. injection H as _ <-. reflexivity. Qed.

Lemma silent_now (env : Env) : silent (now env).
Proof. intros w r w' H. injection H as _ <-. reflexivity. Qed.

Lemma silent_new_uuid (env : Env) : silent (new_uuid env).
Proof. intros w r w' H. injection H as _ <-. reflexivity. Qed.

Lemma silent_timer (env : Env) : silent (timer env).
Proof. intros w r w' H. injection H as _ <-. reflexivity. Qed.

Create HintDb silent.

#[local] Hint Resolve silent_ret silent_raise silent_get_store silent_put_store
  silent_now silent_new_uuid silent_timer : silent.

Ltac silent_steps :=
  repeat first
    [ apply silent_bind; [|intros ?]
    | apply silent_try_except; [|intros ?]
    | solve [auto with silent] ].

Lemma silent_get_or_create (env : Env) (sid : option string) :
  silent (get_or_create_conversation env sid).
Proof.
  unfold get_or_create_conversation, cleanup_expired_conversations,
    insert_new_conversation.
  silent_steps.
  destruct sid as [s|]; [destruct (_ && _)|]; silent_steps.
Qed.

Lemma silent_add_message (env : Env) (sid r text : string)
    (imgs : option (list string)) :
  silent (add_message_to_conversation env sid r text imgs).
Proof.
  unfold add_message_to_conversation. silent_steps.
  destruct (bool_decide _); silent_steps.
Qed.

Lemma silent_failure_response (env : Env) (st : float) (sid : option string) (e : Exn) :
  silent (failure_response env st sid e).
Proof. unfold failure_response. silent_steps. Qed.

Lemma silent_success_response (env : Env) (st : float) (sid text : string) :
  silent (success_response env st sid text).
Proof. unfold success_response. silent_steps. Qed.

Lemma silent_process_uploaded_file (env : Env) (file : UploadFile) :
  silent (process_uploaded_file env file).
Proof.
  unfold process_uploaded_file. destruct (Image_open_rgb env file); silent_steps.
Qed.

Lemma returns_failure_response (env : Env) (st : float) (sid : option string) (e : Exn) :
  returns (failure_response env st sid e).
Proof. intros w. do 2 eexists. reflexivity. Qed.

#[local] Hint Resolve silent_get_or_create silent_add_message silent_failure_response
  silent_success_response silent_process_uploaded_file : silent.

(** ** The backend call *)

Lemma sends_post_generate (env : Env) (P : Payload -> Prop) (payload : Payload) :
  P payload -> sends P (post_generate env payload).
Proof.
  intros HP w r w' Hrun. exists [payload]. split; [|repeat constructor; exact HP].
  unfold post_generate in Hrun.
  destruct (client_post env (length (ollama_calls w)) payload);
    injection Hrun as _ <-; reflexivity.
Qed.

Lemma sends_generate_response (env : Env) (prompt : string)
    (imgs : option (list string)) (temperature : option float) (max_tokens : option Z) :
  sends (fun p => p_prompt p = prompt
                  /\ p_images p = if truthy_images imgs then imgs else None)
        (generate_response env prompt imgs temperature max_tokens).
Proof.
  unfold generate_response. apply sends_try_except.
  - apply sends_bind.
    + apply sends_post_generate. split; reflexivity.
    + intros r _ _ _. apply silent_sends.
      destruct (resp_status_code r =? 200); [|apply silent_raise].
      destruct (resp_json_response r) as [e|[text|]]; auto with silent.
  - intros e. apply silent_sends. destruct e; apply silent_raise.
Qed.

Ltac sends_steps :=
  repeat lazymatch goal with
    | |- sends _ (generate_response _ _ _ _ _) => fail
    | |- sends _ (_ ≫= _) => apply sends_bind; [|intros ? ? ? ?]
    | |- sends _ (try_except _ _) => apply sends_try_except; [|intros ?]
    | |- sends _ _ => apply silent_sends; solve [auto with silent]
    end.

(** Names the two components of the context built for the current turn. *)
Ltac split_context cp :=
  match goal with
  | |- context [build_conversation_context ?c ?s ?p ?i] =>
      let Hci := fresh "Hci" in
      let ci := fresh "ci" in
      pose proof (build_conversation_context_images c s p i) as Hci;
      destruct (build_conversation_context c s p i) as [cp ci];
      cbn [snd] in Hci; subst ci
  end.

(** ** Frames *)

Lemma process_uploaded_file_Ok (env : Env) (file : UploadFile) (img : PILImage)
    (w w' : World) :
  process_uploaded_file env file w = (Ok img, w') ->
  Image_open_rgb env file = inr img /\ w' = w.
Proof.
  unfold process_uploaded_file.
  destruct (Image_open_rgb env file) as [e|img']; intros H.
  - discriminate.
  - injection H as <- <-. split; reflexivity.
Qed.

Lemma from_result_Ok {A} (r : Exn + A) (a : A) (w w' : World) :
  from_result r w = (Ok a, w') -> r = inr a /\ w' = w.
Proof.
  destruct r as [e|a']; intros H; [discriminate|].
  injection H as <- <-. split; reflexivity.
Qed.

Lemma silent_from_result {A} (r : Exn + A) : silent (from_result r).
Proof. destruct r; [apply silent_raise | apply silent_ret]. Qed.

#[local] Hint Resolve silent_from_result : silent.

(** Opening and encoding one file, as one step. *)
Lemma run_frame (env : Env) (file : UploadFile) (w : World) :
  (process_uploaded_file env file ≫= fun img => from_result (image_to_base64 env img)) w
    = (match frame_b64 env file with inr b64 => Ok b64 | inl e => Raise e end, w).
Proof.
  unfold mbind, M_bind, bind, process_uploaded_file, frame_b64.
  destruct (Image_open_rgb env file) as [e|img]; [reflexivity|].
  cbn [ret]. destruct (image_to_base64 env img); reflexivity.
Qed.

Lemma process_frames_cons (env : Env) (i : nat) (frame : UploadFile)
    (rest : list UploadFile) (acc : list string) (w : World) :
  process_frames env i (frame :: rest) acc w
    = match frame_b64 env frame with
      | inr b64 => process_frames env (S i) rest (acc ++ [b64])%list w
      | inl e =>
          (Raise (HTTPException 400
                    ("Error processing frame " ++ str_nat (i + 1) ++ ": "
                     ++ str_exc env e)), w)
      end.
Proof.
  cbn [process_frames]. unfold mbind at 1, M_bind at 1, bind at 1, try_except.
  rewrite run_frame. destruct (frame_b64 env frame); reflexivity.
Qed.

Lemma process_frames_Ok (env : Env) (frames : list UploadFile) :
  forall (i : nat) (acc l : list string) (w w' : World),
    process_frames env i frames acc w = (Ok l, w') ->
    exists l', decode_frames env frames = Some l' /\ l = (acc ++ l')%list /\ w' = w.
Proof.
  induction frames as [|frame rest IH]; intros i acc l w w' Hrun.
  - injection Hrun as <- <-. exists []. now rewrite app_nil_r.
  - rewrite process_frames_cons in Hrun. cbn [decode_frames].
    destruct (frame_b64 env frame) as [e|b64]; [discriminate|].
    apply IH in Hrun. destruct Hrun as [l' [Hdec [-> ->]]].
    exists (b64 :: l'). rewrite Hdec, <- app_assoc. repeat split.
Qed.

Lemma silent_process_frames (env : Env) (frames : list UploadFile) :
  forall (i : nat) (acc : list string), silent (process_frames env i frames acc).
Proof.
  induction frames as [|frame rest IH]; intros i acc; cbn [process_frames].
  - apply silent_ret.
  - silent_steps.
Qed.

Lemma decode_frames_length (env : Env) (frames : list UploadFile) :
  forall l, decode_frames env frames = Some l -> length l = length frames.
Proof.
  induction frames as [|frame rest IH]; intros l H; cbn [decode_frames] in H.
  - injection H as <-. reflexivity.
  - destruct (frame_b64 env frame) as [e|b64]; [discriminate|].
    destruct (decode_frames env rest) as [l'|]; [|discriminate].
    injection H as <-. cbn [length]. now rewrite (IH l').
Qed.

(** ** Generation endpoints: the images handed to the backend *)

(** C7: whatever the stored history, each payload a handler posts carries
    the images of the request being served and no others: none for a text
    request, the one uploaded image for an image request, the uploaded
    frames for a video request. *)
Theorem backend_receives_current_images_only (env : Env) :
  (forall request,
     sends (fun p => p_images p = None) (text_prompt env request))
  /\ (forall prompt temperature max_tokens requested image,
        sends (fun p => exists img b64, Image_open_rgb env image = inr img
                        /\ image_to_base64 env img = inr b64
                        /\ p_images p = Some [b64])
              (image_prompt env prompt temperature max_tokens requested image))
  /\ (forall prompt frame_rate temperature max_tokens requested frames,
        sends (fun p => exists l, decode_frames env frames = Some l
                        /\ p_images p = Some l)
              (video_frames_prompt env prompt frame_rate temperature max_tokens
                                   requested frames)).
Proof.
  split; [|split].
  - intros request. unfold text_prompt. sends_steps.
    eapply sends_weaken; [|apply sends_generate_response].
    intros p [_ Himgs]. exact Himgs.
  - intros prompt temperature max_tokens requested image.
    unfold image_prompt. sends_steps.
    match goal with H : process_uploaded_file _ _ _ = _ |- _ =>
      apply process_uploaded_file_Ok in H; destruct H as [Hopen _] end.
    match goal with H : from_result _ _ = _ |- _ =>
      apply from_result_Ok in H; destruct H as [Hencode _] end.
    split_context cp. sends_steps.
    eapply sends_weaken; [|apply sends_generate_response].
    intros p [_ Himgs]. eauto.
  - intros prompt frame_rate temperature max_tokens requested frames.
    unfold video_frames_prompt. sends_steps.
    destruct frames as [|frame rest]; [sends_steps|].
    destruct (30 <? _)%nat; [sends_steps|].
    unfold video_frames_body. sends_steps.
    { apply silent_sends, silent_process_frames. }
    match goal with H : process_frames _ _ _ _ _ = _ |- _ =>
      apply process_frames_Ok in H; destruct H as [l [Hdec [Hl _]]] end.
    cbn [app] in Hl. subst.
    split_context cp. sends_steps.
    eapply sends_weaken; [|apply sends_generate_response].
    intros p [_ Himgs]. exists l. split; [exact Hdec|].
    rewrite Himgs. apply decode_frames_length in Hdec.
    destruct l; [discriminate | reflexivity].
Qed.

(** ** Generation endpoints: outcomes *)

(** Resolution always yields an id under which a session is stored. *)
Lemma get_or_create_resolves (env : Env) (sid : option string) (w : World) :
  exists id w' c,
    get_or_create_conversation env sid w = (Ok id, w')
    /\ conversations w' !! id = Some c.
Proof.
  destruct (names_live (reading env w 0) (conversations w) sid) eqn:Hlive.
  - pose proof Hlive as Hl. apply names_live_true in Hl.
    destruct Hl as [s [c [-> [Hne [Hsid Hexp]]]]].
    do 3 eexists. split; [now apply run_get_or_create_live|].
    cbn [conversations]. rewrite lookup_alter_eq, lookup_sweep, Hsid, Hexp.
    reflexivity.
  - do 3 eexists. split; [now apply run_get_or_create_new|].
    cbn [conversations]. apply lookup_insert_eq.
Qed.

Lemma returns_get_or_create (env : Env) (sid : option string) :
  returns (get_or_create_conversation env sid).
Proof.
  intros w. destruct (get_or_create_resolves env sid w) as [id [w' [c [Hrun _]]]].
  eauto.
Qed.

(** The three generation handlers answer every request with an envelope:
    no exception leaves them. *)
Lemma generation_handlers_return_envelope (env : Env) :
  (forall request, returns (text_prompt env request))
  /\ (forall prompt temperature max_tokens requested image,
        returns (image_prompt env prompt temperature max_tokens requested image))
  /\ (forall prompt frame_rate temperature max_tokens requested frames,
        returns (video_frames_prompt env prompt frame_rate temperature max_tokens
                                     requested frames)).
Proof.
  assert (Htimer : returns (timer env)) by (intros w; do 2 eexists; reflexivity).
  repeat split; intros;
    (apply returns_bind; [exact Htimer|]); intros st;
    apply returns_try_except; intros e; apply returns_failure_response.
Qed.

Lemma success_response_session (env : Env) (st : float) (sid text : string)
    (w w' : World) (r : Outcome APIResponse) :
  success_response env st sid text w = (r, w') ->
  exists resp, r = Ok resp /\ api_session_id resp = Some sid.
Proof. intros H. injection H as <- _. eauto. Qed.

Lemma failure_response_session (env : Env) (st : float) (sid : option string)
    (e : Exn) (w w' : World) (r : Outcome APIResponse) :
  failure_response env st sid e w = (r, w') ->
  exists resp, r = Ok resp /\ api_session_id resp = sid /\ success resp = false.
Proof. intros H. injection H as <- _. eauto. Qed.

(** Past the frame-count tests, the envelope of a video request carries
    the id the request resolved to. *)
Lemma video_frames_body_session (env : Env) (st : float) (prompt : string)
    (frame_rate temperature : float) (max_tokens : Z) (requested : option string)
    (frames : list UploadFile) (w : World) :
  exists sid w1 c resp w',
    get_or_create_conversation env requested w = (Ok sid, w1)
    /\ conversations w1 !! sid = Some c
    /\ video_frames_body env st prompt frame_rate temperature max_tokens
                         requested frames w = (Ok resp, w')
    /\ api_session_id resp = Some sid.
Proof.
  destruct (get_or_create_resolves env requested w) as [sid [w1 [c [Hres Hc]]]].
  exists sid, w1, c.
  destruct (video_frames_body env st prompt frame_rate temperature max_tokens
              requested frames w) as [r w'] eqn:Hrun.
  unfold video_frames_body in Hrun.
  unfold mbind at 1, M_bind at 1, bind at 1 in Hrun. rewrite Hres in Hrun.
  apply try_except_inv in Hrun.
  destruct Hrun as [[resp [Hbody ->]]|[e [w2 [_ Hfail]]]].
  - exists resp, w'. repeat split; try assumption.
    apply bind_Ok_inv in Hbody. destruct Hbody as [l [w2 [_ Hbody]]].
    apply bind_Ok_inv in Hbody. destruct Hbody as [convs [w3 [_ Hbody]]].
    destruct (build_conversation_context _ _ _ _) as [cp ci].
    apply bind_Ok_inv in Hbody. destruct Hbody as [[] [w4 [_ Hbody]]].
    apply bind_Ok_inv in Hbody. destruct Hbody as [text [w5 [_ Hbody]]].
    apply bind_Ok_inv in Hbody. destruct Hbody as [[] [w6 [_ Hbody]]].
    apply success_response_session in Hbody.
    destruct Hbody as [resp' [Heq Hid]]. injection Heq as <-. exact Hid.
  - apply failure_response_session in Hfail.
    destruct Hfail as [resp [-> [Hid _]]]. exists resp, w'. repeat split; assumption.
Qed.

(** C4: a video request with no frame or with more than 30 frames is
    answered by a failure envelope and leaves the conversation table (keys,
    turns, activity times) and the clock untouched: only the timer was read.
    A request with exactly 30 frames goes on to resolve its session, and its
    envelope carries the resolved id. *)
Theorem frame_count_gate (env : Env) (prompt : string) (frame_rate temperature : float)
    (max_tokens : Z) (requested : option string) (frames : list UploadFile)
    (w : World) :
  (length frames = 0%nat \/ (30 < length frames)%nat ->
     exists detail,
       video_frames_prompt env prompt frame_rate temperature max_tokens requested
                           frames w
       = (Ok (mkAPIResponse false None
                (Some (str_exc env (HTTPException 400 detail)))
                (Some (PrimFloat.sub (time_time env (S (timer_reads w)))
                                     (time_time env (timer_reads w))))
                requested),
          mkWorld (conversations w) (clock_reads w) (uuid_draws w)
                  (S (S (timer_reads w))) (ollama_calls w)))
  /\ (length frames = 30%nat ->
      video_frames_prompt env prompt frame_rate temperature max_tokens requested
                          frames w
      = video_frames_body env (time_time env (timer_reads w)) prompt frame_rate
                          temperature max_tokens requested frames (snd (timer env w))
      /\ exists sid w1 c resp w',
           get_or_create_conversation env requested (snd (timer env w)) = (Ok sid, w1)
           /\ conversations w1 !! sid = Some c
           /\ video_frames_prompt env prompt frame_rate temperature max_tokens
                                  requested frames w = (Ok resp, w')
           /\ api_session_id resp = Some sid).
Proof.
  split.
  - intros Hbad. destruct frames as [|frame rest].
    + exists "No frames provided". reflexivity.
    + exists "Too many frames (max 30)".
      destruct Hbad as [Hzero|Hmany]; [discriminate|].
      apply Nat.ltb_lt in Hmany.
      unfold video_frames_prompt, mbind, M_bind, bind, try_except.
      cbn [timer]. rewrite Hmany. reflexivity.
  - intros Hlen.
    destruct (video_frames_body_session env (time_time env (timer_reads w)) prompt
                frame_rate temperature max_tokens requested frames (snd (timer env w)))
      as [sid [w1 [c [resp [w' [Hres [Hc [Hbody Hid]]]]]]]].
    assert (Hrun : video_frames_prompt env prompt frame_rate temperature max_tokens
                     requested frames w
                   = video_frames_body env (time_time env (timer_reads w)) prompt
                       frame_rate temperature max_tokens requested frames
                       (snd (timer env w))).
    { destruct frames as [|frame rest]; [discriminate|].
      unfold video_frames_prompt.
      unfold mbind at 1, M_bind at 1, bind at 1, try_except. cbn [timer].
      replace (30 <? length (frame :: rest))%nat with false
        by (symmetry; apply Nat.ltb_ge; lia).
      cbn [timer snd] in Hbody |- *. rewrite Hbody. reflexivity. }
    split; [exact Hrun|].
    exists sid, w1, c, resp, w'. rewrite Hrun. repeat split; assumption.
Qed.

(** ** Generation endpoints: a failing backend *)

Lemma generate_response_keeps_store (env : Env) (prompt : string)
    (imgs : option (list string)) (temperature : option float) (max_tokens : option Z) :
  keeps_store (generate_response env prompt imgs temperature max_tokens).
Proof.
  intros w r w' Hrun.
  unfold generate_response, try_except, mbind, M_bind, bind, post_generate in Hrun.
  destruct (client_post env _ _) as [e|resp].
  - destruct e; injection Hrun as _ <-; repeat split.
  - destruct (resp_status_code resp =? 200).
    + destruct (resp_json_response resp) as [e|[text|]];
        try (injection Hrun as _ <-; repeat split).
      destruct e; injection Hrun as _ <-; repeat split.
    + injection Hrun as _ <-; repeat split.
Qed.

Lemma get_or_create_keeps_timer (env : Env) (sid : option string) (w w' : World)
    (r : Outcome string) :
  get_or_create_conversation env sid w = (r, w') -> timer_reads w' = timer_reads w.
Proof.
  destruct (names_live (reading env w 0) (conversations w) sid) eqn:Hlive.
  - destruct sid as [s|]; [|discriminate].
    rewrite (run_get_or_create_live env s w Hlive). intros H. now injection H as _ <-.
  - rewrite (run_get_or_create_new env sid w Hlive). intros H. now injection H as _ <-.
Qed.

(** With a failing backend, [text_prompt] leaves the user turn in the
    resolved session, without a reply, and answers with a failure envelope
    whose session id is the one of the request. *)
Lemma text_prompt_generation_failure (env : Env) (request : TextPromptRequest)
    (w : World) :
  generation_fails env ->
  exists sid w1 c resp w' c',
    get_or_create_conversation env (tp_session_id request) (snd (timer env w))
      = (Ok sid, w1)
    /\ conversations w1 !! sid = Some c
    /\ text_prompt env request w = (Ok resp, w')
    /\ success resp = false
    /\ processing_time resp
         = Some (PrimFloat.sub (time_time env (S (timer_reads w)))
                               (time_time env (timer_reads w)))
    /\ api_session_id resp = tp_session_id request
    /\ conversations w' !! sid = Some c'
    /\ messages c'
         = (messages c ++ [mkMessage "user" (tp_prompt request) (reading env w1 0) None])%list.
Proof.
  intros Hfail.
  destruct (get_or_create_resolves env (tp_session_id request) (snd (timer env w)))
    as [sid [w1 [c [Hres Hc]]]].
  pose proof (get_or_create_keeps_timer _ _ _ _ _ Hres) as Ht1. cbn [timer snd timer_reads] in Ht1.
  pose proof (run_add_message_known env sid "user" (tp_prompt request) None c w1 Hc)
    as Hadd.
  destruct (add_message_to_conversation env sid "user" (tp_prompt request) None w1)
    as [r2 w2] eqn:Hadd'.
  injection Hadd as -> Hw2.
  destruct (Hfail (fst (build_conversation_context (conversations w1) sid
                          (tp_prompt request) None))
                  None (tp_temperature request) (tp_max_tokens request) w2)
    as [e [w3 Hgen]].
  destruct (generate_response_keeps_store _ _ _ _ _ _ _ _ Hgen)
    as [Hconv [_ [_ Htimer]]].
  assert (Hrun : text_prompt env request w
                 = failure_response env (time_time env (timer_reads w))
                                    (tp_session_id request) e w3).
  { unfold text_prompt. unfold mbind at 1, M_bind at 1, bind at 1.
    cbn [timer snd] in Hres |- *. unfold try_except.
    unfold mbind at 1, M_bind at 1, bind at 1. rewrite Hres.
    unfold mbind at 1, M_bind at 1, bind at 1. cbn [get_store].
    unfold mbind at 1, M_bind at 1, bind at 1. rewrite Hadd'.
    unfold mbind at 1, M_bind at 1, bind at 1. rewrite Hgen. reflexivity. }
  exists sid, w1, c. do 2 eexists. exists (mkConversation (session_id c)
    (messages c ++ [mkMessage "user" (tp_prompt request) (reading env w1 0) None])
    (created_at c) (reading env w1 1)).
  split; [exact Hres|]. split; [exact Hc|]. split; [rewrite Hrun; reflexivity|].
  cbn [success processing_time api_session_id conversations messages].
  rewrite Htimer, Hconv, Hw2. cbn [timer_reads conversations]. rewrite Ht1.
  repeat split. apply lookup_insert_eq.
Qed.

(** With a failing backend, [image_prompt] answers with the resolved id. *)
Lemma image_prompt_generation_failure (env : Env) (prompt : string)
    (temperature : float) (max_tokens : Z) (requested : option string)
    (image : UploadFile) (img : PILImage) (b64 : string) (w : World) :
  generation_fails env ->
  Image_open_rgb env image = inr img ->
  image_to_base64 env img = inr b64 ->
  exists sid w1 c resp w' c',
    get_or_create_conversation env requested (snd (timer env w)) = (Ok sid, w1)
    /\ conversations w1 !! sid = Some c
    /\ image_prompt env prompt temperature max_tokens requested image w = (Ok resp, w')
    /\ success resp = false
    /\ api_session_id resp = Some sid
    /\ conversations w' !! sid = Some c'
    /\ messages c'
         = (messages c ++ [mkMessage "user" prompt (reading env w1 0) (Some [b64])])%list.
Proof.
  intros Hfail Hopen Hencode.
  destruct (get_or_create_resolves env requested (snd (timer env w)))
    as [sid [w1 [c [Hres Hc]]]].
  pose proof (run_add_message_known env sid "user" prompt (Some [b64]) c w1 Hc) as Hadd.
  destruct (add_message_to_conversation env sid "user" prompt (Some [b64]) w1)
    as [r2 w2] eqn:Hadd'.
  injection Hadd as -> Hw2.
  destruct (build_conversation_context (conversations w1) sid prompt (Some [b64]))
    as [cp ci] eqn:Hctx.
  destruct (Hfail cp ci (Some temperature) (Some max_tokens) w2) as [e [w3 Hgen]].
  destruct (generate_response_keeps_store _ _ _ _ _ _ _ _ Hgen)
    as [Hconv [_ [_ Htimer]]].
  assert (Hrun : image_prompt env prompt temperature max_tokens requested image w
                 = failure_response env (time_time env (timer_reads w)) (Some sid) e w3).
  { unfold image_prompt. unfold mbind at 1, M_bind at 1, bind at 1.
    cbn [timer snd] in Hres |- *. unfold try_except at 1.
    unfold mbind at 1, M_bind at 1, bind at 1. rewrite Hres.
    unfold try_except at 1.
    unfold mbind at 1, M_bind at 1, bind at 1.
    unfold process_uploaded_file. rewrite Hopen. cbn [ret].
    unfold mbind at 1, M_bind at 1, bind at 1. rewrite Hencode. cbn [from_result ret].
    unfold mbind at 1, M_bind at 1, bind at 1. cbn [get_store]. rewrite Hctx.
    unfold mbind at 1, M_bind at 1, bind at 1. rewrite Hadd'.
    unfold mbind at 1, M_bind at 1, bind at 1. rewrite Hgen. reflexivity. }
  exists sid, w1, c. do 2 eexists. exists (mkConversation (session_id c)
    (messages c ++ [mkMessage "user" prompt (reading env w1 0) (Some [b64])])
    (created_at c) (reading env w1 1)).
  split; [exact Hres|]. split; [exact Hc|]. split; [rewrite Hrun; reflexivity|].
  cbn [success api_session_id conversations messages].
  rewrite Hconv, Hw2. cbn [conversations]. repeat split. apply lookup_insert_eq.
Qed.

Lemma demo_backend_down : generation_fails (demo_env false).
Proof. intros prompt imgs temperature max_tokens w. do 2 eexists. reflexivity. Qed.

(** ** The handlers at concrete requests *)

(** C2: a text request without session id, served while the backend
    refuses connections. The user turn stays in the session the request
    resolved to (["uuid-0"]) without a reply and the envelope reports the
    failure with the elapsed time, but its session id is the request's
    (absent), not the resolved one; [image_prompt] in the same situation
    reports ["uuid-0"]. *)
Theorem text_prompt_failure_drops_resolved_id :
  let run := text_prompt (demo_env false) demo_request empty_world in
  fst run = Ok (mkAPIResponse false None
                  (Some "500: Generation error: connection refused")
                  (Some PrimFloat.one) None)
  /\ conversations (snd run) !! "uuid-0"
       = Some (mkConversation "uuid-0" [mkMessage "user" "hi" 90000000003 None]
                              90000000001 90000000004)
  /\ fst (image_prompt (demo_env false) "hi" PrimFloat.one 2048 None
                        (upload "png") empty_world)
       = Ok (mkAPIResponse false None
               (Some "500: Generation error: connection refused")
               (Some PrimFloat.one) (Some "uuid-0")).
Proof. vm_compute. repeat split. Qed.

(** C3: a video request with 31 frames and an image request with an
    unreadable file are both answered with the failure envelope; the
    exception of status 400 raised for them does not leave the handler. *)
Theorem invalid_input_yields_envelope :
  fst (video_frames_prompt (demo_env true) "what happens?" PrimFloat.one PrimFloat.one
                           2048 None (demo_frames 31) empty_world)
    = Ok (mkAPIResponse false None (Some "400: Too many frames (max 30)")
            (Some PrimFloat.one) None)
  /\ fst (image_prompt (demo_env true) "what is this?" PrimFloat.one 2048 None
                        (upload "") empty_world)
       = Ok (mkAPIResponse false None
               (Some "400: Invalid image file: cannot identify image file")
               (Some PrimFloat.one) (Some "uuid-0"))
  /\ fst (video_frames_prompt (demo_env true) "what happens?" PrimFloat.one PrimFloat.one
                              2048 None [upload "frame"; upload ""] empty_world)
       = Ok (mkAPIResponse false None
               (Some "400: Error processing frame 2: 400: Invalid image file: cannot identify image file")
               (Some PrimFloat.one) (Some "uuid-0")).
Proof. vm_compute. repeat split. Qed.

(** ** The claims the code departs from, at concrete inputs *)

(** C1: the session ["old"] has been idle for more than 24 hours and has
    not been swept. Resolving its id treats it as expired: the call returns
    the new id ["uuid-0"], and [get] of ["old"] is then the 404 error. But
    [get] of ["old"] before any sweep returns the session, where it should
    behave as on an absent id, for which it raises the 404 error. *)
Theorem expired_session_served_by_get :
  conversations demo_world !! "old" = Some demo_old
  /\ is_expired (reading (demo_env true) demo_world 0) demo_old = true
  /\ get_conversation "old" demo_world
       = (Ok (mkConversationResponse "old" [demo_turn "user" "hello" None] 1), demo_world)
  /\ get_conversation "absent" demo_world
       = (Raise (HTTPException 404 "Conversation not found"), demo_world)
  /\ fst (get_or_create_conversation (demo_env true) (Some "old") demo_world)
       = Ok "uuid-0"
  /\ fst (get_conversation "old"
            (snd (get_or_create_conversation (demo_env true) (Some "old") demo_world)))
       = Raise (HTTPException 404 "Conversation not found").
Proof.
  assert (Hold : conversations demo_world !! "old" = Some demo_old)
    by (vm_compute; reflexivity).
  assert (Habsent : conversations demo_world !! "absent" = None)
    by (vm_compute; reflexivity).
  split; [exact Hold|]. split; [vm_compute; reflexivity|].
  rewrite (run_get_conversation_known _ _ _ Hold),
          (run_get_conversation_unknown _ _ Habsent).
  repeat split; vm_compute; reflexivity.
Qed.

(** Against C5 as stated: with a clock that advances between two readings,
    the session created for a request without id has a [last_activity]
    later than its [created_at]. *)
Lemma new_session_times_differ :
  let run := get_or_create_conversation (demo_env true) None empty_world in
  fst run = Ok "uuid-0"
  /\ conversations (snd run) !! "uuid-0"
       = Some (mkConversation "uuid-0" [] 90000000001 90000000002)
  /\ (created_at <$> conversations (snd run) !! "uuid-0")
       <> (last_activity <$> conversations (snd run) !! "uuid-0").
Proof. vm_compute. repeat split. discriminate. Qed.

(** ** The theorems at concrete inputs *)

Lemma expired_session_reachability_witness :
  (conversations demo_world !! "old" = Some demo_old
   /\ is_expired (reading (demo_env true) demo_world 0) demo_old = true)
  /\ get_conversation "old" demo_world
       = (Ok (mkConversationResponse "old" (messages demo_old)
                                     (length (messages demo_old))), demo_world)
  /\ exists w',
       get_or_create_conversation (demo_env true) (Some "old") demo_world
         = (Ok (uuid4 (demo_env true) (uuid_draws demo_world)), w')
       /\ conversations w' !! uuid4 (demo_env true) (uuid_draws demo_world)
            = Some (mkConversation (uuid4 (demo_env true) (uuid_draws demo_world)) []
                      (reading (demo_env true) demo_world 1)
                      (reading (demo_env true) demo_world 2))
       /\ (uuid4 (demo_env true) (uuid_draws demo_world) <> "old" ->
            get_conversation "old" w'
              = (Raise (HTTPException 404 "Conversation not found"), w')).
Proof.
  split.
  - split; vm_compute; reflexivity.
  - apply (expired_session_reachability (demo_env true) "old" demo_old demo_world);
      vm_compute; reflexivity.
Defined.

Lemma resolve_or_create_cases_witness :
  (exists w',
     get_or_create_conversation (demo_env true) (Some "live") demo_world = (Ok "live", w')
     /\ conversations w' !! "live"
          = Some (refresh_activity (reading (demo_env true) demo_world 1) demo_live)
     /\ forall k, k <> "live" ->
          conversations w' !! k
            = sweep (reading (demo_env true) demo_world 0) (conversations demo_world) !! k)
  /\ (exists w',
        get_or_create_conversation (demo_env true) (Some "old") demo_world
          = (Ok (uuid4 (demo_env true) (uuid_draws demo_world)), w')
        /\ conversations w'
             = <[uuid4 (demo_env true) (uuid_draws demo_world) :=
                   mkConversation (uuid4 (demo_env true) (uuid_draws demo_world)) []
                     (reading (demo_env true) demo_world 1)
                     (reading (demo_env true) demo_world 2)]>
                 (sweep (reading (demo_env true) demo_world 0) (conversations demo_world))).
Proof.
  split.
  - apply (proj1 (resolve_or_create_cases (demo_env true) (Some "live") demo_world)
             "live" demo_live); try (vm_compute; reflexivity).
    discriminate.
  - apply (proj1 (proj2 (resolve_or_create_cases (demo_env true) (Some "old") demo_world))).
    right; right; right. exists "old", demo_old.
    repeat split; vm_compute; reflexivity.
Defined.

Lemma frame_count_gate_witness :
  (exists detail,
     video_frames_prompt (demo_env true) "clip" PrimFloat.one PrimFloat.one 2048 None
                         (demo_frames 31) empty_world
     = (Ok (mkAPIResponse false None
              (Some (str_exc (demo_env true) (HTTPException 400 detail)))
              (Some (PrimFloat.sub (time_time (demo_env true) 1)
                                   (time_time (demo_env true) 0)))
              None),
        mkWorld ∅ 0 0 2 []))
  /\ exists sid w1 c resp w',
       get_or_create_conversation (demo_env true) None
         (snd (timer (demo_env true) empty_world)) = (Ok sid, w1)
       /\ conversations w1 !! sid = Some c
       /\ video_frames_prompt (demo_env true) "clip" PrimFloat.one PrimFloat.one 2048
            None (demo_frames 30) empty_world = (Ok resp, w')
       /\ api_session_id resp = Some sid.
Proof.
  split.
  - apply (proj1 (frame_count_gate (demo_env true) "clip" PrimFloat.one PrimFloat.one
                    2048 None (demo_frames 31) empty_world)).
    right. vm_compute. lia.
  - apply (proj2 (frame_count_gate (demo_env true) "clip" PrimFloat.one PrimFloat.one
                    2048 None (demo_frames 30) empty_world)).
    reflexivity.
Defined.

Lemma render_with_history_witness :
  (demo_store !! "live" = Some demo_live /\ messages demo_live <> [])
  /\ fst (build_conversation_context demo_store "live" "and now?" None)
       = spec_render (messages demo_live) "and now?".
Proof.
  assert (Hlive : demo_store !! "live" = Some demo_live) by (vm_compute; reflexivity).
  assert (Hne : messages demo_live <> []) by discriminate.
  split; [split; assumption|].
  exact (proj1 (render_with_history demo_store "live" demo_live "and now?" None Hlive Hne)).
Defined.

Lemma render_empty_history_witness :
  (demo_store !! "blank" = Some demo_blank /\ messages demo_blank = [])
  /\ build_conversation_context demo_store "blank" "hi" (Some ["b64:dog"])
       = ("hi", Some ["b64:dog"]).
Proof.
  assert (Hblank : demo_store !! "blank" = Some demo_blank) by (vm_compute; reflexivity).
  split; [split; [exact Hblank | reflexivity]|].
  exact (render_empty_history demo_store "blank" demo_blank "hi" (Some ["b64:dog"])
           Hblank eq_refl).
Defined.

Lemma delete_ignores_expiry_witness :
  (conversations demo_world !! "old" = Some demo_old
   /\ is_expired 90000000000 demo_old = true)
  /\ delete_conversation "old" demo_world
       = (Ok "Conversation old deleted",
          set_conversations (delete "old" (conversations demo_world)) demo_world)
  /\ conversations (snd (delete_conversation "old" demo_world)) !! "old" = None.
Proof.
  assert (Hold : conversations demo_world !! "old" = Some demo_old)
    by (vm_compute; reflexivity).
  split; [split; [exact Hold | reflexivity]|].
  exact (delete_ignores_expiry 90000000000 "old" demo_old demo_world Hold eq_refl).
Defined.

Lemma demo_uuid_not_live (k : nat) : uuid4 (demo_env true) k <> "live".
Proof. discriminate. Qed.

Lemma appends_keep_insertion_order_witness :
  conversations demo_world !! "live" = Some demo_live
  /\ (exists w' new,
        run_appends (demo_env true) demo_calls demo_world = (Ok tt, w')
        /\ map turn_of_message new = map turn_of_call (calls_on "live" demo_calls)
        /\ get_conversation "live" w'
             = (Ok (mkConversationResponse "live" (messages demo_live ++ new)
                      (length (messages demo_live ++ new))), w'))
  /\ exists w', run_ops (demo_env true) demo_ops demo_world = (Ok tt, w')
                /\ history_kept "live" (messages demo_live) w'.
Proof.
  assert (Hlive : conversations demo_world !! "live" = Some demo_live)
    by (vm_compute; reflexivity).
  split; [exact Hlive|].
  destruct (appends_keep_insertion_order (demo_env true) "live" demo_live demo_calls
              demo_world Hlive) as [Happends Hops].
  split; [exact Happends|]. exact (Hops demo_ops demo_uuid_not_live).
Defined.

(** ** Further concrete runs *)

Example render_demo :
  fst (build_conversation_context demo_store "live" "and now?" None)
  = "This is a conversation. Here's the conversation history:" ++ newline ++ newline
    ++ "Human: look [with image(s)]" ++ newline ++ newline
    ++ "Assistant: a cat" ++ newline ++ newline
    ++ "Human: and now?" ++ newline ++ newline
    ++ "Assistant:".
Proof. vm_compute. reflexivity. Qed.

Example window_demo :
  map content (recent_messages (messages demo_long))
  = ["t3"; "t4"; "t5"; "t6"; "t7"; "t8"; "t9"; "t10"; "t11"; "t12"].
Proof. vm_compute. reflexivity. Qed.

Example appends_demo :
  map turn_of_message
      (cr_messages
         match fst ((run_appends (demo_env true) demo_calls;; get_conversation "live")
                      demo_world) with
         | Ok r => r
         | Raise _ => mkConversationResponse "" [] 0
         end)
  = [("user", "look", Some ["b64:cat"]); ("assistant", "a cat", None);
     ("user", "again", None); ("assistant", "yes", None); ("user", "again", None)].
Proof. vm_compute. reflexivity. Qed.

Example thirty_frames_demo :
  fst (video_frames_prompt (demo_env true) "clip" PrimFloat.one PrimFloat.one 2048 None
                           (demo_frames 30) empty_world)
  = Ok (mkAPIResponse true (Some "hello") None (Some PrimFloat.one) (Some "uuid-0")).
Proof. vm_compute. reflexivity. Qed.

(** * Further properties of the code *)

(** ** The sweep *)

(** X1: [cleanup_expired_conversations] reads the clock once and removes
    exactly the sessions whose idle time at that reading is strictly more
    than 24 hours; a session idle for exactly 24 hours, and every other
    survivor, is kept as it is. *)
Theorem cleanup_removes_exactly_expired (env : Env) (w : World) :
  exists w',
    cleanup_expired_conversations env w = (Ok tt, w')
    /\ clock_reads w' = S (clock_reads w)
    /\ forall sid,
         conversations w' !! sid
         = match conversations w !! sid with
           | Some c =>
               if decide (reading env w 0 - last_activity c <= 24 * 3600 * 1000000)
               then Some c else None
           | None => None
           end.
Proof.
  eexists. split; [apply run_cleanup|]. split; [reflexivity|].
  intros sid. cbn [conversations]. rewrite lookup_sweep.
  destruct (conversations w !! sid) as [c|]; [|reflexivity].
  unfold is_expired, CONVERSATION_TIMEOUT.
  destruct (Z.ltb_spec (24 * 3600 * 1000000) (reading env w 0 - last_activity c));
    destruct (decide _); try reflexivity; lia.
Qed.

(** ** One operation, one session *)

Lemma run_op_steps (env : Env) (op : StoreOp) (w : World) :
  exists w' n,
    run_op env op w = (Ok tt, w')
    /\ clock_reads w' = (n + clock_reads w)%nat
    /\ forall k, session_step env w n k (conversations w !! k) (conversations w' !! k).
Proof.
  destruct op as [call|req|sid|sid]; cbn [run_op].
  - unfold run_append.
    destruct (conversations w !! ac_session call) as [c|] eqn:Hc.
    + eexists. exists 2%nat. split; [eapply run_add_message_known; eassumption|].
      split; [reflexivity|]. intros k. cbn [conversations].
      destruct (decide (k = ac_session call)) as [->|Hne].
      * rewrite lookup_insert_eq, Hc. apply step_append; lia.
      * rewrite lookup_insert_ne by congruence. apply step_same.
    + exists w, 0%nat. split; [now apply run_add_message_unknown|].
      split; [reflexivity|]. intros k. apply step_same.
  - assert (Hsweep : forall k n, session_step env w n k (conversations w !! k)
                       (sweep (reading env w 0) (conversations w) !! k)).
    { intros k n. rewrite lookup_sweep.
      destruct (conversations w !! k) as [c|]; [|apply step_same].
      destruct (is_expired _ c); [apply step_gone | apply step_same]. }
    unfold mbind, M_bind, bind.
    destruct (names_live (reading env w 0) (conversations w) req) eqn:Hlive.
    + pose proof Hlive as Hl. apply names_live_true in Hl.
      destruct Hl as [s [c [-> [Hne [Hc Hexp]]]]].
      rewrite (run_get_or_create_live env s w Hlive).
      eexists. exists 2%nat. split; [reflexivity|]. split; [reflexivity|].
      intros k. cbn [conversations]. destruct (decide (k = s)) as [->|Hk].
      * rewrite lookup_alter_eq, lookup_sweep, Hc, Hexp. apply step_refresh. lia.
      * rewrite lookup_alter_ne by congruence. apply Hsweep.
    + rewrite (run_get_or_create_new env req w Hlive).
      eexists. exists 3%nat. split; [reflexivity|]. split; [reflexivity|].
      intros k. cbn [conversations].
      destruct (decide (k = uuid4 env (uuid_draws w))) as [->|Hk].
      * rewrite lookup_insert_eq. apply step_new; lia.
      * rewrite lookup_insert_ne by congruence. apply Hsweep.
  - exists w, 0%nat. split; [|split; [reflexivity | intros k; apply step_same]].
    unfold get_conversation, try_except, mbind, M_bind, bind. cbn [get_store].
    destruct (conversations w !! sid); reflexivity.
  - unfold delete_conversation, try_except, mbind, M_bind, bind. cbn [get_store].
    destruct (conversations w !! sid) as [c|] eqn:Hc.
    + eexists. exists 0%nat. split; [reflexivity|]. split; [reflexivity|].
      intros k. cbn [put_store set_conversations conversations snd].
      destruct (decide (k = sid)) as [->|Hk].
      * rewrite lookup_delete_eq. apply step_gone.
      * rewrite lookup_delete_ne by congruence. apply step_same.
    + exists w, 0%nat. split; [reflexivity|]. split; [reflexivity|].
      intros k. apply step_same.
Qed.

(** Lifts a property kept by every single operation to sequences. *)
Lemma run_ops_invariant (env : Env) (I : World -> Prop) :
  (forall op w w', I w -> run_op env op w = (Ok tt, w') -> I w') ->
  forall ops w, I w -> exists w', run_ops env ops w = (Ok tt, w') /\ I w'.
Proof.
  intros Hstep ops. induction ops as [|op ops IH]; intros w Hw.
  - exists w. split; [reflexivity | exact Hw].
  - destruct (run_op_steps env op w) as [w1 [n [Hrun _]]].
    destruct (IH w1 (Hstep op w w1 Hw Hrun)) as [w' [Hruns Hw']].
    exists w'. split; [|exact Hw'].
    cbn [run_ops]. unfold mbind, M_bind, bind. rewrite Hrun. exact Hruns.
Qed.

(** X2: whatever operations run on the store, each stored conversation
    keeps recording its own key as its [session_id]. *)
Theorem store_keys_consistent (env : Env) (ops : list StoreOp) (w : World) :
  keys_consistent w ->
  exists w', run_ops env ops w = (Ok tt, w') /\ keys_consistent w'.
Proof.
  apply run_ops_invariant. clear. intros op w w' Hw Hrun sid c' Hc'.
  destruct (run_op_steps env op w) as [w1 [n [Hrun1 [_ Hsteps]]]].
  rewrite Hrun in Hrun1. injection Hrun1 as <-.
  specialize (Hsteps sid). rewrite Hc' in Hsteps.
  inversion Hsteps as [o Ho|o|c i Hi Hc|c r text imgs i j Hij Hj Hc|o i j Hij Hj];
    subst; try reflexivity.
  - apply Hw. congruence.
  - cbn [session_id refresh_activity]. apply Hw. congruence.
  - cbn [session_id]. apply Hw. congruence.
Qed.

Lemma session_chronological_later (b b' : datetime) (c : Conversation) :
  b <= b' -> session_chronological b c -> session_chronological b' c.
Proof. intros Hb [H1 [H2 [H3 H4]]]. repeat split; try assumption. lia. Qed.

(** X3: with a clock that never goes back, every operation on the store
    keeps the times of each conversation in order: creation, then the turns
    by increasing timestamp, then the last activity, none of them later
    than the next reading of the clock. *)
Theorem store_chronological (env : Env) (ops : list StoreOp) (w : World) :
  monotone_clock env ->
  chronological env w ->
  exists w', run_ops env ops w = (Ok tt, w') /\ chronological env w'.
Proof.
  intros Hmono. apply run_ops_invariant. clear ops w.
  intros op w w' Hw Hrun sid c' Hc'.
  destruct (run_op_steps env op w) as [w1 [n [Hrun1 [Hclock Hsteps]]]].
  rewrite Hrun in Hrun1. injection Hrun1 as <-. rewrite Hclock.
  assert (Hread : forall i, (i <= n)%nat ->
            datetime_now env (clock_reads w) <= reading env w i
            /\ reading env w i <= datetime_now env (n + clock_reads w)).
  { intros i Hi. unfold reading. split; apply Hmono; lia. }
  specialize (Hsteps sid). rewrite Hc' in Hsteps.
  inversion Hsteps as [o Ho|o|c i Hi Hc|c r text imgs i j Hij Hj Hc|o i j Hij Hj]; subst.
  - eapply session_chronological_later; [|apply (Hw sid); congruence].
    apply Hmono. lia.
  - destruct (Hw sid c (eq_sym Hc)) as [H1 [H2 [H3 H4]]].
    destruct (Hread i ltac:(lia)) as [Hlo Hhi].
    repeat split; cbn [created_at last_activity messages refresh_activity];
      try assumption; try lia.
    eapply Forall_impl; [exact H4|]. cbn. intros m Hm. lia.
  - destruct (Hw sid c (eq_sym Hc)) as [H1 [H2 [H3 H4]]].
    destruct (Hread i ltac:(lia)) as [Hilo Hihi].
    destruct (Hread j ltac:(lia)) as [Hjlo Hjhi].
    assert (Hij' : reading env w i <= reading env w j)
      by (unfold reading; apply Hmono; lia).
    repeat split; cbn [created_at last_activity messages]; try lia.
    + rewrite map_app. apply StronglySorted_app_2; [|exact H3|repeat constructor].
      intros x1 x2 Hx1 Hx2. cbn in Hx2. apply list_elem_of_singleton in Hx2. subst x2.
      apply list_elem_of_fmap in Hx1. destruct Hx1 as [m [-> Hm]].
      rewrite Forall_forall in H4. specialize (H4 m Hm). cbn in H4 |- *. lia.
    + apply Forall_app. split.
      * eapply Forall_impl; [exact H4|]. cbn. intros m Hm. lia.
      * repeat constructor; cbn [timestamp]; lia.
  - destruct (Hread i ltac:(lia)) as [Hilo Hihi].
    destruct (Hread j ltac:(lia)) as [Hjlo Hjhi].
    assert (Hij' : reading env w i <= reading env w j)
      by (unfold reading; apply Hmono; lia).
    repeat split; cbn [created_at last_activity messages]; try lia; constructor.
Qed.

(** X4: [add_message_to_conversation] never creates or removes a session
    and touches no session but the one it names; for an unknown id it does
    nothing at all, not even read the clock. *)
Theorem add_message_touches_one_session (env : Env) (sid r text : string)
    (imgs : option (list string)) (w : World) :
  exists w',
    add_message_to_conversation env sid r text imgs w = (Ok tt, w')
    /\ dom (conversations w') = dom (conversations w)
    /\ (forall k, k <> sid -> conversations w' !! k = conversations w !! k)
    /\ (conversations w !! sid = None -> w' = w).
Proof.
  destruct (conversations w !! sid) as [c|] eqn:Hc.
  - eexists. split; [eapply run_add_message_known; eassumption|].
    cbn [conversations]. split; [|split].
    + apply dom_insert_lookup_L. eauto.
    + intros k Hk. now rewrite lookup_insert_ne by congruence.
    + discriminate.
  - exists w. split; [now apply run_add_message_unknown|]. repeat split.
Qed.

(** X5: deleting a stored session answers with the confirmation, leaves
    every other session as it was, and makes a later [get] or [delete] of
    the same id a 404; deleting an unknown id is a 404 that changes
    nothing. *)
Theorem delete_conversation_outcomes (sid : string) (w : World) :
  (forall c, conversations w !! sid = Some c ->
     exists w',
       delete_conversation sid w = (Ok ("Conversation " ++ sid ++ " deleted"), w')
       /\ (forall k, k <> sid -> conversations w' !! k = conversations w !! k)
       /\ get_conversation sid w'
            = (Raise (HTTPException 404 "Conversation not found"), w')
       /\ delete_conversation sid w'
            = (Raise (HTTPException 404 "Conversation not found"), w'))
  /\ (conversations w !! sid = None ->
      delete_conversation sid w
        = (Raise (HTTPException 404 "Conversation not found"), w)).
Proof.
  assert (Hunknown : forall w0, conversations w0 !! sid = None ->
            delete_conversation sid w0
              = (Raise (HTTPException 404 "Conversation not found"), w0)).
  { intros w0 H0. unfold delete_conversation, mbind, M_bind, bind. cbn [get_store].
    rewrite H0. reflexivity. }
  split; [|apply Hunknown].
  intros c Hc. eexists. split.
  - unfold delete_conversation, mbind, M_bind, bind. cbn [get_store].
    rewrite Hc. reflexivity.
  - cbn [put_store set_conversations conversations snd]. split; [|split].
    + intros k Hk. now rewrite lookup_delete_ne by congruence.
    + apply run_get_conversation_unknown. cbn [conversations]. apply lookup_delete_eq.
    + apply Hunknown. cbn [conversations]. apply lookup_delete_eq.
Qed.

(** X6: [create_new_conversation] returns the id it draws, and a [get] of
    that id right after finds an empty conversation. *)
Theorem new_conversation_is_empty (env : Env) (w : World) :
  exists w',
    create_new_conversation env w
      = (Ok (uuid4 env (uuid_draws w), "New conversation created"), w')
    /\ get_conversation (uuid4 env (uuid_draws w)) w'
         = (Ok (mkConversationResponse (uuid4 env (uuid_draws w)) [] 0), w').
Proof.
  eexists. split.
  - unfold create_new_conversation, mbind, M_bind, bind.
    rewrite (run_get_or_create_new env None w eq_refl). reflexivity.
  - apply (run_get_conversation_known _
             (mkConversation (uuid4 env (uuid_draws w)) [] (reading env w 1)
                             (reading env w 2))).
    cbn [conversations]. apply lookup_insert_eq.
Qed.

(** ** The backend call, in full *)

Lemma generate_payload_eq (prompt : string) (imgs : option (list string))
    (temperature : option float) (max_tokens : option Z) :
  mkPayload MODEL_NAME prompt false temperature max_tokens
            (if truthy_images imgs then imgs else None)
  = generate_payload prompt imgs temperature max_tokens.
Proof. unfold generate_payload. destruct imgs as [[|i rest]|]; reflexivity. Qed.

(** [generate_response] as a function of what the one call it makes
    comes back with. *)
Lemma run_generate_response (env : Env) (prompt : string)
    (imgs : option (list string)) (temperature : option float)
    (max_tokens : option Z) (w : World) :
  generate_response env prompt imgs temperature max_tokens w
    = (fst (generate_response env prompt imgs temperature max_tokens w),
       after_call (generate_payload prompt imgs temperature max_tokens) w)
  /\ fst (generate_response env prompt imgs temperature max_tokens w)
     = match client_post env (length (ollama_calls w))
                         (generate_payload prompt imgs temperature max_tokens) with
       | inl (TimeoutException _) => Raise (HTTPException 504 "Request timeout")
       | inl e => Raise (HTTPException 500 ("Generation error: " ++ str_exc env e))
       | inr reply =>
           if resp_status_code reply =? 200 then
             match resp_json_response reply with
             | inr (Some text) => Ok text
             | inr None => Ok "No response generated"
             | inl (TimeoutException _) => Raise (HTTPException 504 "Request timeout")
             | inl e => Raise (HTTPException 500 ("Generation error: " ++ str_exc env e))
             end
           else Raise (HTTPException 500
                         ("Generation error: "
                          ++ str_exc env (HTTPException (resp_status_code reply)
                                            ("Ollama API error: " ++ resp_text reply))))
       end.
Proof.
  unfold generate_response, try_except, mbind, M_bind, bind, post_generate.
  rewrite generate_payload_eq.
  destruct (client_post env _ _) as [e|reply].
  - destruct e; split; reflexivity.
  - destruct (resp_status_code reply =? 200); [|split; reflexivity].
    destruct (resp_json_response reply) as [e|[text|]]; try (split; reflexivity).
    destruct e; split; reflexivity.
Qed.

(** X7: whatever the backend does, [generate_response] calls it exactly
    once, with the model name, the prompt and the options as given and the
    images only when there is at least one, and changes nothing else. A
    reply of status 200 carrying a text makes it return that text, and one
    of status 200 without a text makes it return ["No response generated"];
    a timeout of the call makes it raise status 504, any other failure of
    the call status 500 with the failure's text. *)
Theorem generate_response_outcome (env : Env) (prompt : string)
    (imgs : option (list string)) (temperature : option float)
    (max_tokens : option Z) (w : World) :
  let payload := generate_payload prompt imgs temperature max_tokens in
  let run := generate_response env prompt imgs temperature max_tokens w in
  let sent := client_post env (length (ollama_calls w)) payload in
  snd run = after_call payload w
  /\ (forall reply text,
        sent = inr reply -> resp_status_code reply = 200 ->
        resp_json_response reply = inr (Some text) -> fst run = Ok text)
  /\ (forall reply,
        sent = inr reply -> resp_status_code reply = 200 ->
        resp_json_response reply = inr None -> fst run = Ok "No response generated")
  /\ (forall msg,
        sent = inl (TimeoutException msg) ->
        fst run = Raise (HTTPException 504 "Request timeout"))
  /\ (forall code detail,
        sent = inl (HTTPException code detail) ->
        fst run = Raise (HTTPException 500
                           ("Generation error: "
                            ++ str_exc env (HTTPException code detail))))
  /\ (forall msg,
        sent = inl (OtherException msg) ->
        fst run = Raise (HTTPException 500
                           ("Generation error: " ++ str_exc env (OtherException msg)))).
Proof.
  intros payload run sent.
  destruct (run_generate_response env prompt imgs temperature max_tokens w)
    as [Hworld Hfst].
  fold run in Hworld, Hfst. fold payload in Hworld, Hfst. fold sent in Hfst.
  split; [rewrite Hworld; reflexivity|].
  repeat split.
  - intros reply text Hsent Hstatus Hjson. rewrite Hfst, Hsent, Hstatus, Hjson. reflexivity.
  - intros reply Hsent Hstatus Hjson. rewrite Hfst, Hsent, Hstatus, Hjson. reflexivity.
  - intros msg Hsent. rewrite Hfst, Hsent. reflexivity.
  - intros code detail Hsent. rewrite Hfst, Hsent. reflexivity.
  - intros msg Hsent. rewrite Hfst, Hsent. reflexivity.
Qed.

(** X8: a reply of any status other than 200 is reported with status 500;
    the status the backend sent appears only inside the error text. *)
Theorem generate_response_hides_backend_status (env : Env) (prompt : string)
    (imgs : option (list string)) (temperature : option float)
    (max_tokens : option Z) (w : World) (reply : HttpResponse) :
  client_post env (length (ollama_calls w))
              (generate_payload prompt imgs temperature max_tokens) = inr reply ->
  resp_status_code reply <> 200 ->
  fst (generate_response env prompt imgs temperature max_tokens w)
    = Raise (HTTPException 500
               ("Generation error: "
                ++ str_exc env (HTTPException (resp_status_code reply)
                                  ("Ollama API error: " ++ resp_text reply)))).
Proof.
  intros Hpost Hstatus.
  assert (Hpayload : mkPayload MODEL_NAME prompt false temperature max_tokens
                       (if truthy_images imgs then imgs else None)
                     = generate_payload prompt imgs temperature max_tokens).
  { unfold generate_payload. destruct imgs as [[|i rest]|]; reflexivity. }
  unfold generate_response, try_except, mbind, M_bind, bind, post_generate.
  rewrite Hpayload, Hpost. apply Z.eqb_neq in Hstatus. rewrite Hstatus. reflexivity.
Qed.

(** ** Frames, in full *)

Lemma process_frames_decoded (env : Env) (frames : list UploadFile) :
  forall (i : nat) (acc l : list string) (w : World),
    decode_frames env frames = Some l ->
    process_frames env i frames acc w = (Ok (acc ++ l)%list, w).
Proof.
  induction frames as [|frame rest IH]; intros i acc l w Hdec; cbn [decode_frames] in Hdec.
  - injection Hdec as <-. rewrite app_nil_r. reflexivity.
  - rewrite process_frames_cons.
    destruct (frame_b64 env frame) as [e|b64]; [discriminate|].
    destruct (decode_frames env rest) as [l'|] eqn:Hrest; [|discriminate].
    injection Hdec as <-.
    rewrite (IH (S i) (acc ++ [b64])%list l' w eq_refl), <- app_assoc. reflexivity.
Qed.

Lemma process_frames_failure_at (env : Env) (good : list UploadFile) :
  forall (bad : UploadFile) (rest : list UploadFile) (e : Exn) (l : list string)
         (i : nat) (acc : list string) (w : World),
    decode_frames env good = Some l ->
    frame_b64 env bad = inl e ->
    process_frames env i (good ++ bad :: rest)%list acc w
      = (Raise (HTTPException 400
                  ("Error processing frame " ++ str_nat (i + length good + 1) ++ ": "
                   ++ str_exc env e)), w).
Proof.
  induction good as [|frame good IH]; intros bad rest e l i acc w Hdec Hbad.
  - cbn [app length]. rewrite process_frames_cons, Hbad, Nat.add_0_r. reflexivity.
  - cbn [decode_frames] in Hdec. cbn [app length]. rewrite process_frames_cons.
    destruct (frame_b64 env frame) as [e0|b64]; [discriminate|].
    destruct (decode_frames env good) as [l'|] eqn:Hgood; [|discriminate].
    rewrite (IH bad rest e l' (S i) _ w eq_refl Hbad).
    replace (S i + length good + 1)%nat with (i + S (length good) + 1)%nat by lia.
    reflexivity.
Qed.

(** X9: the frame loop of [video_frames_prompt] stops at the first frame
    that cannot be handled, whether it cannot be opened or, once opened,
    cannot be encoded, and raises an error of status 400 whose text names
    that frame by its position counted from 1, followed by the text of the
    exception: the 400 "Invalid image file" error of
    [process_uploaded_file] in the first case, the exception of
    [image_to_base64] in the second. The frames after it are not looked at
    and the state is untouched. *)
Theorem first_unreadable_frame_is_reported (env : Env) (good : list UploadFile)
    (bad : UploadFile) (rest : list UploadFile) (w : World) :
  Forall (fun frame => exists img b64, Image_open_rgb env frame = inr img
                                       /\ image_to_base64 env img = inr b64) good ->
  (forall e,
     Image_open_rgb env bad = inl e ->
     process_frames env 0 (good ++ bad :: rest)%list [] w
       = (Raise (HTTPException 400
                   ("Error processing frame " ++ str_nat (length good + 1) ++ ": "
                    ++ str_exc env (HTTPException 400
                                      ("Invalid image file: " ++ str_exc env e)))), w))
  /\ (forall img e,
        Image_open_rgb env bad = inr img ->
        image_to_base64 env img = inl e ->
        process_frames env 0 (good ++ bad :: rest)%list [] w
          = (Raise (HTTPException 400
                      ("Error processing frame " ++ str_nat (length good + 1) ++ ": "
                       ++ str_exc env e)), w)).
Proof.
  intros Hgood.
  assert (Hdec : exists l, decode_frames env good = Some l).
  { induction Hgood as [|frame good [img [b64 [Hopen Henc]]] _ [l IH]].
    - exists []. reflexivity.
    - exists (b64 :: l). cbn [decode_frames]. unfold frame_b64.
      rewrite Hopen, Henc, IH. reflexivity. }
  destruct Hdec as [l Hdec]. split.
  - intros e Hopen.
    apply (process_frames_failure_at env good bad rest _ l 0 [] w Hdec).
    unfold frame_b64. rewrite Hopen. reflexivity.
  - intros img e Hopen Henc.
    apply (process_frames_failure_at env good bad rest _ l 0 [] w Hdec).
    unfold frame_b64. rewrite Hopen. exact Henc.
Qed.

Lemma decode_frames_Forall2 (env : Env) (frames : list UploadFile) :
  forall l,
    decode_frames env frames = Some l
    <-> Forall2 (fun frame b64 =>
                   exists img, Image_open_rgb env frame = inr img
                               /\ image_to_base64 env img = inr b64) frames l.
Proof.
  induction frames as [|f fs IH]; intros bs; cbn [decode_frames].
  - split.
    + intros H. injection H as <-. constructor.
    + intros H. inversion H. reflexivity.
  - unfold frame_b64. split.
    + destruct (Image_open_rgb env f) as [e|img] eqn:Hopen; [discriminate|].
      destruct (image_to_base64 env img) as [e|b] eqn:Henc; [discriminate|].
      destruct (decode_frames env fs) as [bs'|] eqn:Hfs; [|discriminate].
      intros H. injection H as <-. constructor; [eauto|]. now apply IH.
    + intros H. inversion H as [|f' b fs' bs' [img [Hopen Henc]] Hrest]; subst.
      rewrite Hopen, Henc. apply IH in Hrest. rewrite Hrest. reflexivity.
Qed.

(** X10: the frame loop succeeds exactly when every frame can be opened
    and encoded; it then returns one encoded image per frame, in the order
    of the frames, and leaves the state untouched. *)
Theorem frames_encoded_in_order (env : Env) (frames : list UploadFile)
    (l : list string) (w : World) :
  process_frames env 0 frames [] w = (Ok l, w)
  <-> Forall2 (fun frame b64 =>
                 exists img, Image_open_rgb env frame = inr img
                             /\ image_to_base64 env img = inr b64) frames l.
Proof.
  rewrite <- decode_frames_Forall2. split.
  - intros Hrun. apply process_frames_Ok in Hrun.
    destruct Hrun as [l' [Hl' [-> _]]]. exact Hl'.
  - intros Hl. apply (process_frames_decoded env frames 0 [] l w Hl).
Qed.

(** ** One exchange with the backend *)

Lemma generate_response_world (env : Env) (prompt : string)
    (imgs : option (list string)) (temperature : option float)
    (max_tokens : option Z) (w : World) :
  snd (generate_response env prompt imgs temperature max_tokens w)
    = after_call (generate_payload prompt imgs temperature max_tokens) w.
Proof.
  assert (Hpayload : mkPayload MODEL_NAME prompt false temperature max_tokens
                       (if truthy_images imgs then imgs else None)
                     = generate_payload prompt imgs temperature max_tokens).
  { unfold generate_payload. destruct imgs as [[|i rest]|]; reflexivity. }
  unfold generate_response, try_except, mbind, M_bind, bind, post_generate.
  rewrite Hpayload.
  destruct (client_post env _ _) as [e|reply].
  - destruct e; reflexivity.
  - destruct (resp_status_code reply =? 200); [|reflexivity].
    destruct (resp_json_response reply) as [e|[text|]]; try reflexivity.
    destruct e; reflexivity.
Qed.

Lemma exchange_run (env : Env) (st : float) (sid : string) (user_text : string)
    (user_images : option (list string)) (cp : string) (ci : option (list string))
    (temperature : option float) (max_tokens : option Z) (c : Conversation)
    (w : World) :
  conversations w !! sid = Some c ->
  (exists text,
     exchange env st sid user_text user_images cp ci temperature max_tokens w
     = (Ok (mkAPIResponse true (Some text) None
              (Some (PrimFloat.sub (time_time env (timer_reads w)) st)) (Some sid)),
        mkWorld
          (<[sid := mkConversation (session_id c)
                      ((messages c ++ [mkMessage "user" user_text (reading env w 0)
                                                 user_images])
                       ++ [mkMessage "assistant" text (reading env w 2) None])
                      (created_at c) (reading env w 3)]> (conversations w))
          (4 + clock_reads w) (uuid_draws w) (S (timer_reads w))
          (ollama_calls w ++ [generate_payload cp ci temperature max_tokens])))
  \/ (exists e,
        exchange env st sid user_text user_images cp ci temperature max_tokens w
        = (Raise e,
           mkWorld
             (<[sid := mkConversation (session_id c)
                         (messages c ++ [mkMessage "user" user_text (reading env w 0)
                                                   user_images])
                         (created_at c) (reading env w 1)]> (conversations w))
             (2 + clock_reads w) (uuid_draws w) (timer_reads w)
             (ollama_calls w ++ [generate_payload cp ci temperature max_tokens]))).
Proof.
  intros Hc.
  pose proof (run_add_message_known env sid "user" user_text user_images c w Hc) as Hadd.
  destruct (add_message_to_conversation env sid "user" user_text user_images w)
    as [r2 w2] eqn:Hadd'.
  injection Hadd as -> Hw2.
  pose proof (generate_response_world env cp ci temperature max_tokens w2) as Hw3.
  destruct (generate_response env cp ci temperature max_tokens w2) as [r w3] eqn:Hgen.
  cbn [snd] in Hw3. destruct r as [text|e]; [left; exists text | right; exists e];
    unfold exchange;
    unfold mbind at 1, M_bind at 1, bind at 1; rewrite Hadd';
    unfold mbind at 1, M_bind at 1, bind at 1; rewrite Hgen; subst w3 w2.
  - unfold mbind at 1, M_bind at 1, bind at 1.
    erewrite run_add_message_known
      by (cbn [after_call conversations]; apply lookup_insert_eq).
    cbn [after_call conversations clock_reads uuid_draws timer_reads ollama_calls
         session_id messages created_at].
    rewrite insert_insert_eq. reflexivity.
  - reflexivity.
Qed.

(** After resolution, [text_prompt] is the exchange followed, when it
    raises, by the failure envelope with the requested id. *)
Lemma text_prompt_unfold (env : Env) (request : TextPromptRequest) (w w1 : World)
    (sid : string) :
  get_or_create_conversation env (tp_session_id request) (snd (timer env w))
    = (Ok sid, w1) ->
  text_prompt env request w
    = try_except
        (exchange env (time_time env (timer_reads w)) sid (tp_prompt request) None
           (fst (build_conversation_context (conversations w1) sid
                   (tp_prompt request) None))
           None (tp_temperature request) (tp_max_tokens request))
        (failure_response env (time_time env (timer_reads w)) (tp_session_id request))
        w1.
Proof.
  intros Hres. unfold text_prompt.
  unfold mbind at 1, M_bind at 1, bind at 1. cbn [timer snd] in Hres |- *.
  unfold try_except.
  unfold mbind at 1, M_bind at 1, bind at 1. rewrite Hres. reflexivity.
Qed.

Lemma resolve_keeps_counters (env : Env) (sid : option string) (w w' : World)
    (r : Outcome string) :
  get_or_create_conversation env sid w = (r, w') ->
  timer_reads w' = timer_reads w /\ ollama_calls w' = ollama_calls w.
Proof.
  intros Hrun. split.
  - eapply get_or_create_keeps_timer; eauto.
  - eapply silent_get_or_create; eauto.
Qed.

Lemma exchange_run_reply (env : Env) (st : float) (sid : string) (user_text : string)
    (user_images : option (list string)) (cp : string) (ci : option (list string))
    (temperature : option float) (max_tokens : option Z) (c : Conversation)
    (w : World) :
  conversations w !! sid = Some c ->
  match reply_text (client_post env (length (ollama_calls w))
                                (generate_payload cp ci temperature max_tokens)) with
  | Some text =>
      exchange env st sid user_text user_images cp ci temperature max_tokens w
      = (Ok (mkAPIResponse true (Some text) None
               (Some (PrimFloat.sub (time_time env (timer_reads w)) st)) (Some sid)),
         mkWorld
           (<[sid := mkConversation (session_id c)
                       ((messages c ++ [mkMessage "user" user_text (reading env w 0)
                                                  user_images])
                        ++ [mkMessage "assistant" text (reading env w 2) None])
                       (created_at c) (reading env w 3)]> (conversations w))
           (4 + clock_reads w) (uuid_draws w) (S (timer_reads w))
           (ollama_calls w ++ [generate_payload cp ci temperature max_tokens]))
  | None =>
      exists e,
        exchange env st sid user_text user_images cp ci temperature max_tokens w
        = (Raise e,
           mkWorld
             (<[sid := mkConversation (session_id c)
                         (messages c ++ [mkMessage "user" user_text (reading env w 0)
                                                   user_images])
                         (created_at c) (reading env w 1)]> (conversations w))
             (2 + clock_reads w) (uuid_draws w) (timer_reads w)
             (ollama_calls w ++ [generate_payload cp ci temperature max_tokens]))
  end.
Proof.
  intros Hc.
  pose proof (run_add_message_known env sid "user" user_text user_images c w Hc) as Hadd.
  match type of Hadd with _ = (_, ?W) => set (w2 := W) in Hadd end.
  destruct (run_generate_response env cp ci temperature max_tokens w2) as [Hworld Hfst].
  change (ollama_calls w2) with (ollama_calls w) in Hfst.
  assert (Hex : exchange env st sid user_text user_images cp ci temperature max_tokens w
                = match fst (generate_response env cp ci temperature max_tokens w2) with
                  | Ok text =>
                      (Ok (mkAPIResponse true (Some text) None
                             (Some (PrimFloat.sub (time_time env (timer_reads w)) st))
                             (Some sid)),
                       mkWorld
                         (<[sid := mkConversation (session_id c)
                                     ((messages c
                                       ++ [mkMessage "user" user_text (reading env w 0)
                                                     user_images])
                                      ++ [mkMessage "assistant" text (reading env w 2) None])
                                     (created_at c) (reading env w 3)]> (conversations w))
                         (4 + clock_reads w) (uuid_draws w) (S (timer_reads w))
                         (ollama_calls w ++ [generate_payload cp ci temperature max_tokens]))
                  | Raise e =>
                      (Raise e,
                       after_call (generate_payload cp ci temperature max_tokens) w2)
                  end).
  { unfold exchange.
    unfold mbind at 1, M_bind at 1, bind at 1. rewrite Hadd.
    unfold mbind at 1, M_bind at 1, bind at 1. rewrite Hworld.
    destruct (fst (generate_response env cp ci temperature max_tokens w2)) as [text|e];
      [|reflexivity].
    unfold mbind at 1, M_bind at 1, bind at 1.
    erewrite run_add_message_known
      by (unfold w2; cbn [after_call conversations]; apply lookup_insert_eq).
    unfold w2.
    cbn [after_call conversations clock_reads uuid_draws timer_reads ollama_calls
         session_id messages created_at].
    rewrite insert_insert_eq. reflexivity. }
  rewrite Hex, Hfst. unfold reply_text.
  destruct (client_post env _ _) as [e|reply]; [destruct e; eexists; reflexivity|].
  destruct (resp_status_code reply =? 200); [|eexists; reflexivity].
  destruct (resp_json_response reply) as [e|[text|]]; try reflexivity.
  destruct e; eexists; reflexivity.
Qed.

(** Resolution leaves of every other session what the sweep leaves. *)
Lemma resolve_others (env : Env) (requested : option string) (w w1 : World)
    (sid : string) :
  get_or_create_conversation env requested w = (Ok sid, w1) ->
  forall k, k <> sid ->
    conversations w1 !! k = kept_at (reading env w 0) (conversations w !! k).
Proof.
  intros Hres k Hk.
  assert (Hsweep : sweep (reading env w 0) (conversations w) !! k
                   = kept_at (reading env w 0) (conversations w !! k)).
  { rewrite lookup_sweep. unfold kept_at.
    destruct (conversations w !! k) as [c|]; [|reflexivity].
    unfold is_expired, CONVERSATION_TIMEOUT.
    destruct (Z.ltb_spec (24 * 3600 * 1000000) (reading env w 0 - last_activity c));
      destruct (decide _); try reflexivity; lia. }
  rewrite <- Hsweep.
  destruct (names_live (reading env w 0) (conversations w) requested) eqn:Hlive.
  - destruct requested as [s|]; [|discriminate].
    rewrite (run_get_or_create_live env s w Hlive) in Hres. injection Hres as <- <-.
    cbn [conversations]. now rewrite lookup_alter_ne by congruence.
  - rewrite (run_get_or_create_new env requested w Hlive) in Hres.
    injection Hres as <- <-. cbn [conversations].
    now rewrite lookup_insert_ne by congruence.
Qed.

(** ** What a text request leaves behind *)

(** X11: a text request always ends with an envelope. Of the sessions
    other than the one it resolves to it removes those idle for more than 24
    hours at its sweep and leaves the rest as they are. To the resolved
    session it appends the user turn; when the backend call came back with
    a text it appends the assistant turn with that text right after it and
    the envelope carries the text and the resolved id; in every other case
    no assistant turn is appended and the envelope carries an error and the
    id of the request. *)
Theorem text_prompt_records_turns (env : Env) (request : TextPromptRequest) (w : World) :
  exists sid w1 c resp w' c',
    get_or_create_conversation env (tp_session_id request) (snd (timer env w))
      = (Ok sid, w1)
    /\ conversations w1 !! sid = Some c
    /\ text_prompt env request w = (Ok resp, w')
    /\ conversations w' !! sid = Some c'
    /\ (forall k, k <> sid ->
          conversations w' !! k = kept_at (reading env w 0) (conversations w !! k))
    /\ processing_time resp = Some (elapsed env w)
    /\ match reply_text
               (client_post env (length (ollama_calls w))
                  (mkPayload "bakllava"
                     (fst (build_conversation_context (conversations w1) sid
                             (tp_prompt request) None))
                     false (tp_temperature request) (tp_max_tokens request) None)) with
       | Some text =>
           success resp = true /\ response resp = Some text /\ error resp = None
           /\ api_session_id resp = Some sid
           /\ map turn_of_message (messages c')
                = (map turn_of_message (messages c)
                   ++ [("user", tp_prompt request, None); ("assistant", text, None)])%list
       | None =>
           success resp = false /\ response resp = None /\ is_Some (error resp)
           /\ api_session_id resp = tp_session_id request
           /\ map turn_of_message (messages c')
                = (map turn_of_message (messages c)
                   ++ [("user", tp_prompt request, None)])%list
       end.
Proof.
  destruct (get_or_create_resolves env (tp_session_id request) (snd (timer env w)))
    as [sid [w1 [c [Hres Hc]]]].
  destruct (resolve_keeps_counters _ _ _ _ _ Hres) as [Ht Hcalls].
  cbn [timer snd timer_reads ollama_calls] in Ht, Hcalls.
  pose proof (resolve_others env _ _ _ _ Hres) as Hothers.
  change (reading env (snd (timer env w)) 0) with (reading env w 0) in Hothers.
  change (conversations (snd (timer env w))) with (conversations w) in Hothers.
  exists sid, w1, c. rewrite (text_prompt_unfold env request w w1 sid Hres).
  unfold try_except, elapsed.
  pose proof (exchange_run_reply env (time_time env (timer_reads w)) sid
                (tp_prompt request) None
                (fst (build_conversation_context (conversations w1) sid
                        (tp_prompt request) None))
                None (tp_temperature request) (tp_max_tokens request) c w1 Hc) as Hex.
  rewrite Hcalls in Hex.
  change (generate_payload
            (fst (build_conversation_context (conversations w1) sid (tp_prompt request) None))
            None (tp_temperature request) (tp_max_tokens request))
    with (mkPayload "bakllava"
            (fst (build_conversation_context (conversations w1) sid (tp_prompt request) None))
            false (tp_temperature request) (tp_max_tokens request) None) in Hex.
  destruct (reply_text _) as [text|].
  - rewrite Hex.
    do 3 eexists. split; [exact Hres|]. split; [exact Hc|]. split; [reflexivity|].
    cbn [conversations]. split; [apply lookup_insert_eq|].
    split; [intros k Hk; rewrite lookup_insert_ne by congruence; now apply Hothers|].
    cbn [processing_time]. rewrite Ht. split; [reflexivity|].
    cbn [success response error api_session_id messages].
    repeat split. rewrite !map_app, <- app_assoc. reflexivity.
  - destruct Hex as [e Hex]. rewrite Hex.
    do 3 eexists. split; [exact Hres|]. split; [exact Hc|]. split; [reflexivity|].
    cbn [failure_response timer mbind M_bind bind ret mret M_ret conversations snd fst].
    split; [apply lookup_insert_eq|].
    split; [intros k Hk; rewrite lookup_insert_ne by congruence; now apply Hothers|].
    cbn [processing_time timer_reads]. rewrite Ht. split; [reflexivity|].
    cbn [success response error api_session_id messages].
    repeat split; [eauto|]. rewrite map_app. reflexivity.
Qed.

(** X12: a text request calls the backend exactly once. The prompt it
    sends is the context rendered from the history of the resolved session
    as it was before the request's own turn was appended, so the new prompt
    occurs in it once; for a request without session id it is the prompt of
    the request, verbatim. No image is sent. *)
Theorem text_prompt_sends_context (env : Env) (request : TextPromptRequest) (w : World) :
  exists sid w1,
    get_or_create_conversation env (tp_session_id request) (snd (timer env w))
      = (Ok sid, w1)
    /\ ollama_calls (snd (text_prompt env request w))
         = (ollama_calls w
            ++ [mkPayload "bakllava"
                  (fst (build_conversation_context (conversations w1) sid
                          (tp_prompt request) None))
                  false (tp_temperature request) (tp_max_tokens request) None])%list
    /\ (tp_session_id request = None ->
        fst (build_conversation_context (conversations w1) sid (tp_prompt request) None)
          = tp_prompt request).
Proof.
  destruct (get_or_create_resolves env (tp_session_id request) (snd (timer env w)))
    as [sid [w1 [c [Hres Hc]]]].
  destruct (resolve_keeps_counters _ _ _ _ _ Hres) as [_ Hcalls].
  cbn [timer snd ollama_calls] in Hcalls.
  exists sid, w1. split; [exact Hres|]. split.
  - rewrite (text_prompt_unfold env request w w1 sid Hres). unfold try_except.
    destruct (exchange_run env (time_time env (timer_reads w)) sid (tp_prompt request) None
                (fst (build_conversation_context (conversations w1) sid
                        (tp_prompt request) None))
                None (tp_temperature request) (tp_max_tokens request) c w1 Hc)
      as [[text Hex]|[e Hex]]; rewrite Hex; cbn [snd ollama_calls failure_response timer
        mbind M_bind bind ret mret M_ret]; rewrite Hcalls; reflexivity.
  - intros Hnone. rewrite Hnone in Hres.
    rewrite (run_get_or_create_new env None _ eq_refl) in Hres.
    injection Hres as <- <-. unfold build_conversation_context. cbn [conversations].
    rewrite lookup_insert_eq. reflexivity.
Qed.

(** ** What image and video requests leave behind *)

Lemma image_prompt_unfold (env : Env) (prompt : string) (temperature : float)
    (max_tokens : Z) (requested : option string) (image : UploadFile)
    (img : PILImage) (b64 : string) (w w1 : World) (sid : string) :
  Image_open_rgb env image = inr img ->
  image_to_base64 env img = inr b64 ->
  get_or_create_conversation env requested (snd (timer env w)) = (Ok sid, w1) ->
  image_prompt env prompt temperature max_tokens requested image w
    = try_except
        (try_except
           (exchange env (time_time env (timer_reads w)) sid prompt (Some [b64])
              (fst (build_conversation_context (conversations w1) sid prompt
                      (Some [b64])))
              (Some [b64]) (Some temperature) (Some max_tokens))
           (failure_response env (time_time env (timer_reads w)) (Some sid)))
        (failure_response env (time_time env (timer_reads w)) requested)
        w1.
Proof.
  intros Hopen Hencode Hres. unfold image_prompt.
  unfold mbind at 1, M_bind at 1, bind at 1. cbn [timer snd] in Hres |- *.
  unfold try_except.
  unfold mbind at 1, M_bind at 1, bind at 1. rewrite Hres.
  unfold mbind at 1, M_bind at 1, bind at 1.
  unfold process_uploaded_file. rewrite Hopen. cbn [ret].
  unfold mbind at 1, M_bind at 1, bind at 1. rewrite Hencode. cbn [from_result ret].
  unfold mbind at 1, M_bind at 1, bind at 1. cbn [get_store].
  rewrite (surjective_pairing (build_conversation_context (conversations w1) sid prompt
                                 (Some [b64]))).
  rewrite build_conversation_context_images. reflexivity.
Qed.

Lemma video_frames_unfold (env : Env) (prompt : string) (frame_rate temperature : float)
    (max_tokens : Z) (requested : option string) (frames : list UploadFile)
    (l : list string) (w w1 : World) (sid : string) :
  frames <> [] -> (length frames <= 30)%nat ->
  decode_frames env frames = Some l ->
  get_or_create_conversation env requested (snd (timer env w)) = (Ok sid, w1) ->
  video_frames_prompt env prompt frame_rate temperature max_tokens requested frames w
    = try_except
        (try_except
           (exchange env (time_time env (timer_reads w)) sid
              (enhanced_prompt env prompt (length frames) frame_rate) (Some l)
              (fst (build_conversation_context (conversations w1) sid
                      (enhanced_prompt env prompt (length frames) frame_rate) (Some l)))
              (Some l) (Some temperature) (Some max_tokens))
           (failure_response env (time_time env (timer_reads w)) (Some sid)))
        (failure_response env (time_time env (timer_reads w)) requested)
        w1.
Proof.
  intros Hne Hlen Hdec Hres. unfold video_frames_prompt.
  unfold mbind at 1, M_bind at 1, bind at 1. cbn [timer snd] in Hres |- *.
  destruct frames as [|frame rest]; [congruence|].
  replace (30 <? length (frame :: rest))%nat with false
    by (symmetry; apply Nat.ltb_ge; exact Hlen).
  unfold video_frames_body.
  unfold try_except.
  unfold mbind at 1, M_bind at 1, bind at 1. rewrite Hres.
  unfold mbind at 1, M_bind at 1, bind at 1.
  rewrite (process_frames_decoded env (frame :: rest) 0 [] l w1 Hdec). cbn [app].
  unfold mbind at 1, M_bind at 1, bind at 1. cbn [get_store].
  rewrite (surjective_pairing (build_conversation_context (conversations w1) sid
             (enhanced_prompt env prompt (length (frame :: rest)) frame_rate) (Some l))).
  rewrite build_conversation_context_images. reflexivity.
Qed.

(** What an exchange inside the two [try] blocks of the image and video
    handlers leaves: the envelope, the session and the record of calls. *)
Lemma guarded_exchange_run (env : Env) (st : float) (sid : string) (user_text : string)
    (imgs : list string) (cp : string) (temperature : float) (max_tokens : Z)
    (requested : option string) (c : Conversation) (w1 : World) :
  imgs <> [] ->
  conversations w1 !! sid = Some c ->
  exists resp w' c',
    try_except
      (try_except
         (exchange env st sid user_text (Some imgs) cp (Some imgs)
                   (Some temperature) (Some max_tokens))
         (failure_response env st (Some sid)))
      (failure_response env st requested) w1 = (Ok resp, w')
    /\ api_session_id resp = Some sid
    /\ conversations w' !! sid = Some c'
    /\ ollama_calls w'
         = (ollama_calls w1
            ++ [mkPayload "bakllava" cp false (Some temperature) (Some max_tokens)
                          (Some imgs)])%list
    /\ match reply_text
               (client_post env (length (ollama_calls w1))
                  (mkPayload "bakllava" cp false (Some temperature) (Some max_tokens)
                             (Some imgs))) with
       | Some text =>
           success resp = true /\ response resp = Some text /\ error resp = None
           /\ map turn_of_message (messages c')
                = (map turn_of_message (messages c)
                   ++ [("user", user_text, Some imgs); ("assistant", text, None)])%list
       | None =>
           success resp = false /\ response resp = None /\ is_Some (error resp)
           /\ map turn_of_message (messages c')
                = (map turn_of_message (messages c)
                   ++ [("user", user_text, Some imgs)])%list
       end.
Proof.
  intros Hne Hc.
  assert (Hpayload : generate_payload cp (Some imgs) (Some temperature) (Some max_tokens)
                     = mkPayload "bakllava" cp false (Some temperature) (Some max_tokens)
                                 (Some imgs)).
  { unfold generate_payload. destruct imgs; [congruence | reflexivity]. }
  pose proof (exchange_run_reply env st sid user_text (Some imgs) cp (Some imgs)
                (Some temperature) (Some max_tokens) c w1 Hc) as Hex.
  rewrite Hpayload in Hex. unfold try_except.
  destruct (reply_text _) as [text|].
  - rewrite Hex. do 3 eexists. split; [reflexivity|].
    cbn [api_session_id conversations ollama_calls].
    split; [reflexivity|]. split; [apply lookup_insert_eq|]. split; [reflexivity|].
    cbn [success response error messages].
    repeat split. rewrite !map_app, <- app_assoc. reflexivity.
  - destruct Hex as [e Hex]. rewrite Hex. do 3 eexists. split; [reflexivity|].
    cbn [failure_response timer mbind M_bind bind ret mret M_ret conversations snd fst
         api_session_id ollama_calls].
    split; [reflexivity|]. split; [apply lookup_insert_eq|]. split; [reflexivity|].
    cbn [success response error messages].
    repeat split; [eauto|]. rewrite map_app. reflexivity.
Qed.

(** X13: a video request whose 1 to 30 frames can all be opened and
    encoded records, as the user turn, the prompt extended with the note on
    the number of frames and the frame rate, together with the encoded
    frames. The backend is called once, with the context rendered from that
    extended prompt and with exactly those frames. When that call came back
    with a text, the assistant turn with that text follows and the envelope
    reports success with it; in every other case no assistant turn is
    appended and the envelope reports a failure. Either way the envelope
    carries the resolved id. *)
Theorem video_records_annotated_prompt (env : Env) (prompt : string)
    (frame_rate temperature : float) (max_tokens : Z) (requested : option string)
    (frames : list UploadFile) (l : list string) (w : World) :
  frames <> [] -> (length frames <= 30)%nat ->
  Forall2 (fun frame b64 =>
             exists img, Image_open_rgb env frame = inr img
                         /\ image_to_base64 env img = inr b64) frames l ->
  let annotated :=
    prompt ++ newline ++ newline ++ "This is a sequence of " ++ str_nat (length frames)
    ++ " video frames captured at " ++ str_float env frame_rate
    ++ " frame(s) per second." in
  exists sid w1 c resp w' c',
    get_or_create_conversation env requested (snd (timer env w)) = (Ok sid, w1)
    /\ conversations w1 !! sid = Some c
    /\ video_frames_prompt env prompt frame_rate temperature max_tokens requested
                            frames w = (Ok resp, w')
    /\ api_session_id resp = Some sid
    /\ conversations w' !! sid = Some c'
    /\ ollama_calls w'
         = (ollama_calls w
            ++ [mkPayload "bakllava"
                  (fst (build_conversation_context (conversations w1) sid annotated
                          (Some l)))
                  false (Some temperature) (Some max_tokens) (Some l)])%list
    /\ match reply_text
               (client_post env (length (ollama_calls w))
                  (mkPayload "bakllava"
                     (fst (build_conversation_context (conversations w1) sid annotated
                             (Some l)))
                     false (Some temperature) (Some max_tokens) (Some l))) with
       | Some text =>
           success resp = true /\ response resp = Some text /\ error resp = None
           /\ map turn_of_message (messages c')
                = (map turn_of_message (messages c)
                   ++ [("user", annotated, Some l); ("assistant", text, None)])%list
       | None =>
           success resp = false /\ response resp = None /\ is_Some (error resp)
           /\ map turn_of_message (messages c')
                = (map turn_of_message (messages c)
                   ++ [("user", annotated, Some l)])%list
       end.
Proof.
  intros Hne Hlen Hall annotated.
  apply decode_frames_Forall2 in Hall. rename Hall into Hdec.
  destruct (get_or_create_resolves env requested (snd (timer env w)))
    as [sid [w1 [c [Hres Hc]]]].
  destruct (resolve_keeps_counters _ _ _ _ _ Hres) as [_ Hcalls].
  cbn [timer snd ollama_calls] in Hcalls.
  assert (Hl : l <> []).
  { apply decode_frames_length in Hdec. destruct l; [|discriminate].
    destruct frames; [congruence | discriminate]. }
  destruct (guarded_exchange_run env (time_time env (timer_reads w)) sid annotated l
              (fst (build_conversation_context (conversations w1) sid annotated (Some l)))
              temperature max_tokens requested c w1 Hl Hc)
    as [resp [w' [c' [Hrun [Hid [Hc' [Hlog Hcase]]]]]]].
  exists sid, w1, c, resp, w', c'.
  rewrite (video_frames_unfold env prompt frame_rate temperature max_tokens requested
             frames l w w1 sid Hne Hlen Hdec Hres).
  change (enhanced_prompt env prompt (length frames) frame_rate) with annotated.
  rewrite Hcalls in Hlog, Hcase.
  repeat split; assumption.
Qed.


(** X15: an image request with a file that cannot be opened is answered
    with a failure envelope carrying the resolved id; no turn is appended
    and the backend is not called, but the session has been resolved, so a
    request without session id leaves a new, empty session behind. *)
Theorem image_unreadable_file_keeps_resolution (env : Env) (prompt : string)
    (temperature : float) (max_tokens : Z) (requested : option string)
    (image : UploadFile) (e : Exn) (w : World) :
  Image_open_rgb env image = inl e ->
  exists sid w1 c resp w',
    get_or_create_conversation env requested (snd (timer env w)) = (Ok sid, w1)
    /\ conversations w1 !! sid = Some c
    /\ image_prompt env prompt temperature max_tokens requested image w = (Ok resp, w')
    /\ success resp = false
    /\ error resp = Some (str_exc env (HTTPException 400
                                         ("Invalid image file: " ++ str_exc env e)))
    /\ api_session_id resp = Some sid
    /\ conversations w' = conversations w1
    /\ ollama_calls w' = ollama_calls w
    /\ (requested = None -> messages c = []).
Proof.
  intros Hbad.
  destruct (get_or_create_resolves env requested (snd (timer env w)))
    as [sid [w1 [c [Hres Hc]]]].
  destruct (resolve_keeps_counters _ _ _ _ _ Hres) as [_ Hcalls].
  cbn [timer snd ollama_calls] in Hcalls.
  exists sid, w1, c. do 2 eexists.
  split; [exact Hres|]. split; [exact Hc|]. split.
  - unfold image_prompt.
    unfold mbind at 1, M_bind at 1, bind at 1. cbn [timer snd] in Hres |- *.
    unfold try_except.
    unfold mbind at 1, M_bind at 1, bind at 1. rewrite Hres.
    unfold mbind at 1, M_bind at 1, bind at 1.
    unfold process_uploaded_file. rewrite Hbad. reflexivity.
  - cbn [success error api_session_id conversations ollama_calls]. repeat split.
    + exact Hcalls.
    + intros ->. rewrite (run_get_or_create_new env None _ eq_refl) in Hres.
      injection Hres as <- <-. cbn [conversations] in Hc.
      rewrite lookup_insert_eq in Hc. injection Hc as <-. reflexivity.
Qed.

(** X16: an image request whose file can be opened and encoded records
    the user turn with the one encoded image and calls the backend once,
    with that image and the context built before the turn was appended.
    When that call came back with a text, the assistant turn with that text
    follows and the envelope reports success with it; in every other case no
    assistant turn is appended and the envelope reports a failure. Either
    way the envelope carries the resolved id. *)
Theorem image_prompt_records_turns (env : Env) (prompt : string) (temperature : float)
    (max_tokens : Z) (requested : option string) (image : UploadFile)
    (img : PILImage) (b64 : string) (w : World) :
  Image_open_rgb env image = inr img ->
  image_to_base64 env img = inr b64 ->
  exists sid w1 c resp w' c',
    get_or_create_conversation env requested (snd (timer env w)) = (Ok sid, w1)
    /\ conversations w1 !! sid = Some c
    /\ image_prompt env prompt temperature max_tokens requested image w = (Ok resp, w')
    /\ api_session_id resp = Some sid
    /\ conversations w' !! sid = Some c'
    /\ ollama_calls w'
         = (ollama_calls w
            ++ [mkPayload "bakllava"
                  (fst (build_conversation_context (conversations w1) sid prompt
                          (Some [b64])))
                  false (Some temperature) (Some max_tokens) (Some [b64])])%list
    /\ match reply_text
               (client_post env (length (ollama_calls w))
                  (mkPayload "bakllava"
                     (fst (build_conversation_context (conversations w1) sid prompt
                             (Some [b64])))
                     false (Some temperature) (Some max_tokens) (Some [b64]))) with
       | Some text =>
           success resp = true /\ response resp = Some text /\ error resp = None
           /\ map turn_of_message (messages c')
                = (map turn_of_message (messages c)
                   ++ [("user", prompt, Some [b64]); ("assistant", text, None)])%list
       | None =>
           success resp = false /\ response resp = None /\ is_Some (error resp)
           /\ map turn_of_message (messages c')
                = (map turn_of_message (messages c)
                   ++ [("user", prompt, Some [b64])])%list
       end.
Proof.
  intros Hopen Hencode.
  destruct (get_or_create_resolves env requested (snd (timer env w)))
    as [sid [w1 [c [Hres Hc]]]].
  destruct (resolve_keeps_counters _ _ _ _ _ Hres) as [_ Hcalls].
  cbn [timer snd ollama_calls] in Hcalls.
  destruct (guarded_exchange_run env (time_time env (timer_reads w)) sid prompt [b64]
              (fst (build_conversation_context (conversations w1) sid prompt (Some [b64])))
              temperature max_tokens requested c w1 ltac:(discriminate) Hc)
    as [resp [w' [c' [Hrun [Hid [Hc' [Hlog Hcase]]]]]]].
  exists sid, w1, c, resp, w', c'.
  rewrite (image_prompt_unfold env prompt temperature max_tokens requested image img b64
             w w1 sid Hopen Hencode Hres).
  rewrite Hcalls in Hlog, Hcase.
  repeat split; assumption.
Qed.

(** X21: an image request whose file opens but cannot be encoded is
    answered with a failure envelope carrying the text of the encoder's
    exception and the resolved id; no turn is appended and the backend is
    not called, and the store is the one session resolution left. *)
Theorem image_unencodable_file_keeps_resolution (env : Env) (prompt : string)
    (temperature : float) (max_tokens : Z) (requested : option string)
    (image : UploadFile) (img : PILImage) (e : Exn) (w : World) :
  Image_open_rgb env image = inr img ->
  image_to_base64 env img = inl e ->
  exists sid w1 c resp w',
    get_or_create_conversation env requested (snd (timer env w)) = (Ok sid, w1)
    /\ conversations w1 !! sid = Some c
    /\ image_prompt env prompt temperature max_tokens requested image w = (Ok resp, w')
    /\ success resp = false
    /\ error resp = Some (str_exc env e)
    /\ api_session_id resp = Some sid
    /\ conversations w' = conversations w1
    /\ ollama_calls w' = ollama_calls w.
Proof.
  intros Hopen Hencode.
  destruct (get_or_create_resolves env requested (snd (timer env w)))
    as [sid [w1 [c [Hres Hc]]]].
  destruct (resolve_keeps_counters _ _ _ _ _ Hres) as [_ Hcalls].
  cbn [timer snd ollama_calls] in Hcalls.
  exists sid, w1, c. do 2 eexists.
  split; [exact Hres|]. split; [exact Hc|]. split.
  - unfold image_prompt.
    unfold mbind at 1, M_bind at 1, bind at 1. cbn [timer snd] in Hres |- *.
    unfold try_except.
    unfold mbind at 1, M_bind at 1, bind at 1. rewrite Hres.
    unfold mbind at 1, M_bind at 1, bind at 1.
    unfold process_uploaded_file. rewrite Hopen. cbn [ret].
    unfold mbind at 1, M_bind at 1, bind at 1. rewrite Hencode. reflexivity.
  - cbn [success error api_session_id conversations ollama_calls]. repeat split.
    exact Hcalls.
Qed.

(** ** Start-up *)

Lemma run_check_ollama_health (probe : Probe) (b : Boot) :
  check_ollama_health probe b
    = (tags_ok probe (tag_requests b),
       mkBoot (S (tag_requests b)) (pull_requests b) (sleeps b)).
Proof.
  unfold check_ollama_health, tags_ok.
  destruct (get_tags probe (tag_requests b)); reflexivity.
Qed.

Lemma wait_for_ollama_cons (probe : Probe) (i : nat) (rest : list nat) (b : Boot) :
  wait_for_ollama probe (i :: rest) b
    = if tags_ok probe (tag_requests b)
      then (inr tt, mkBoot (S (tag_requests b)) (pull_requests b) (sleeps b))
      else if (i =? 29)%nat
      then (inl (OtherException "Ollama service unavailable"),
            mkBoot (S (tag_requests b)) (pull_requests b) (sleeps b))
      else wait_for_ollama probe rest
             (mkBoot (S (tag_requests b)) (pull_requests b) (S (sleeps b))).
Proof.
  cbn [wait_for_ollama]. rewrite run_check_ollama_health.
  destruct (tags_ok probe (tag_requests b)); reflexivity.
Qed.

Lemma wait_for_ollama_all_down (probe : Probe) (n : nat) :
  forall (i : nat) (b : Boot),
    (i + S n = 30)%nat ->
    (forall j, (j <= n)%nat -> tags_ok probe (tag_requests b + j) = false) ->
    wait_for_ollama probe (seq i (S n)) b
      = (inl (OtherException "Ollama service unavailable"),
         mkBoot (tag_requests b + S n) (pull_requests b) (sleeps b + n)).
Proof.
  induction n as [|n IH]; intros i b Hi Hdown;
    rewrite <- cons_seq, wait_for_ollama_cons;
    pose proof (Hdown 0%nat ltac:(lia)) as H0; rewrite Nat.add_0_r in H0; rewrite H0.
  - replace (i =? 29)%nat with true by (symmetry; apply Nat.eqb_eq; lia).
    rewrite Nat.add_1_r, Nat.add_0_r. reflexivity.
  - replace (i =? 29)%nat with false by (symmetry; apply Nat.eqb_neq; lia).
    rewrite IH.
    + cbn [tag_requests pull_requests sleeps]. do 2 f_equal; lia.
    + lia.
    + intros j Hj. cbn [tag_requests].
      replace (S (tag_requests b) + j)%nat with (tag_requests b + S j)%nat by lia.
      apply Hdown. lia.
Qed.

Lemma wait_for_ollama_first_up (probe : Probe) (k : nat) :
  forall (i n : nat) (b : Boot),
    (i + n = 30)%nat -> (k < n)%nat ->
    (forall j, (j < k)%nat -> tags_ok probe (tag_requests b + j) = false) ->
    tags_ok probe (tag_requests b + k) = true ->
    wait_for_ollama probe (seq i n) b
      = (inr tt, mkBoot (tag_requests b + S k) (pull_requests b) (sleeps b + k)).
Proof.
  induction k as [|k IH]; intros i n b Hi Hk Hdown Hup;
    (destruct n as [|n]; [lia|]); rewrite <- cons_seq, wait_for_ollama_cons.
  - rewrite Nat.add_0_r in Hup. rewrite Hup.
    rewrite Nat.add_1_r, Nat.add_0_r. reflexivity.
  - pose proof (Hdown 0%nat ltac:(lia)) as H0. rewrite Nat.add_0_r in H0. rewrite H0.
    replace (i =? 29)%nat with false by (symmetry; apply Nat.eqb_neq; lia).
    rewrite (IH (S i) n).
    + cbn [tag_requests pull_requests sleeps]. do 2 f_equal; lia.
    + lia.
    + lia.
    + intros j Hj. cbn [tag_requests].
      replace (S (tag_requests b) + j)%nat with (tag_requests b + S j)%nat by lia.
      apply Hdown. lia.
    + cbn [tag_requests].
      replace (S (tag_requests b) + k)%nat with (tag_requests b + S k)%nat by lia.
      exact Hup.
Qed.

(** X17: when the first 30 health checks all fail, [startup_event] raises
    "Ollama service unavailable" after exactly 30 checks and 29 sleeps of 2
    seconds, without asking for the model. *)
Theorem startup_gives_up_after_30_checks (probe : Probe) (b : Boot) :
  (forall j, (j < 30)%nat -> tags_ok probe (tag_requests b + j) = false) ->
  startup_event probe b
    = (inl (OtherException "Ollama service unavailable"),
       mkBoot (tag_requests b + 30) (pull_requests b) (sleeps b + 29)).
Proof.
  intros Hdown. unfold startup_event.
  change (seq 0 max_retries) with (seq 0 30).
  rewrite (wait_for_ollama_all_down probe 29 0 b); [reflexivity | reflexivity |].
  intros j Hj. apply Hdown. lia.
Qed.

(** X18: when the health check number [k+1] (with [k < 30]) is the first to
    succeed, [startup_event] completes, after exactly [k] sleeps; whether
    the model is available or can be pulled does not make it fail, and at
    most one pull is requested. *)
Theorem startup_completes_at_first_healthy_check (probe : Probe) (b : Boot) (k : nat) :
  (k < 30)%nat ->
  (forall j, (j < k)%nat -> tags_ok probe (tag_requests b + j) = false) ->
  tags_ok probe (tag_requests b + k) = true ->
  exists b',
    startup_event probe b = (inr tt, b')
    /\ sleeps b' = (sleeps b + k)%nat
    /\ tag_requests b' = (tag_requests b + k + 2)%nat
    /\ (pull_requests b' <= S (pull_requests b))%nat.
Proof.
  intros Hk Hdown Hup. unfold startup_event.
  change (seq 0 max_retries) with (seq 0 30).
  rewrite (wait_for_ollama_first_up probe k 0 30 b);
    [|reflexivity | exact Hk | exact Hdown | exact Hup].
  unfold ensure_model_available, pull_model. cbn [tag_requests pull_requests sleeps].
  destruct (get_tags probe _) as [e|r].
  - eexists. split; [reflexivity|]. cbn. repeat split; lia.
  - destruct (tags_status_code r =? 200).
    + destruct (tags_models r) as [e|models].
      * eexists. split; [reflexivity|]. cbn. repeat split; lia.
      * destruct (model_listed models) as [e|[|]].
        -- eexists. split; [reflexivity|]. cbn. repeat split; lia.
        -- eexists. split; [reflexivity|]. cbn. repeat split; lia.
        -- cbn [tag_requests pull_requests sleeps].
           destruct (post_pull probe _); eexists; (split; [reflexivity|]);
             cbn; repeat split; lia.
    + cbn [tag_requests pull_requests sleeps].
      destruct (post_pull probe _); eexists; (split; [reflexivity|]);
        cbn; repeat split; lia.
Qed.

Lemma prefix_append (s t : string) : String.prefix s (s ++ t) = true.
Proof.
  induction s as [|a s IH]; [destruct t; reflexivity|].
  change (String.prefix (String a s) (String a (s ++ t)) = true). cbn [String.prefix].
  destruct (Ascii.ascii_dec a a); [exact IH | congruence].
Qed.

Lemma substring_in_middle (needle pre post : string) :
  substring_in needle (pre ++ needle ++ post) = true.
Proof.
  induction pre as [|a pre IH].
  - change ("" ++ needle ++ post) with (needle ++ post).
    destruct (needle ++ post) eqn:Heq; cbn [substring_in]; rewrite <- Heq;
      rewrite prefix_append; reflexivity.
  - change (String a pre ++ needle ++ post) with (String a (pre ++ needle ++ post)).
    cbn [substring_in]. rewrite IH. apply orb_true_r.
Qed.

Lemma model_listed_found (before after : list ModelName) (pre post : string) :
  Forall (fun m => forall e, m <> NameUnusable e) before ->
  model_listed (before ++ NameStr (pre ++ "bakllava" ++ post)%string :: after)%list = inr true.
Proof.
  induction before as [|m before IH]; intros Hread; cbn [app model_listed].
  - change MODEL_NAME with "bakllava". rewrite substring_in_middle. reflexivity.
  - inversion Hread as [|m' before' Hm Hrest]; subst.
    destruct m as [|name|e].
    + destruct (substring_in MODEL_NAME ""); [reflexivity | now apply IH].
    + destruct (substring_in MODEL_NAME name); [reflexivity | now apply IH].
    + exfalso. now apply (Hm e).
Qed.

(** X19: when [/api/tags] answers with status 200 and lists a model whose
    name contains "bakllava" (under any tag or prefix), and the names of
    the entries listed before it are strings or missing,
    [ensure_model_available] reports the model as available after that one
    request, without pulling. *)
Theorem listed_model_is_not_pulled (probe : Probe) (b : Boot)
    (before after : list ModelName) (pre post : string) :
  get_tags probe (tag_requests b)
    = inr (mkTagsReply 200
             (inr (before ++ NameStr (pre ++ "bakllava" ++ post)%string :: after)%list)) ->
  Forall (fun m => forall e, m <> NameUnusable e) before ->
  ensure_model_available probe b
    = (true, mkBoot (S (tag_requests b)) (pull_requests b) (sleeps b)).
Proof.
  intros Htags Hread. unfold ensure_model_available. rewrite Htags.
  cbn [tags_status_code tags_models]. change (200 =? 200) with true. cbv iota.
  rewrite (model_listed_found before after pre post Hread). reflexivity.
Qed.

(** X22: when [/api/tags] answers with status 200 and, before any name
    containing "bakllava", lists an entry whose name is null or not a
    string, the test on that entry raises and [ensure_model_available]
    reports the model as unavailable, without pulling, whatever is listed
    after that entry. *)
Theorem unusable_name_stops_the_search (probe : Probe) (b : Boot)
    (before after : list ModelName) (e : Exn) :
  get_tags probe (tag_requests b)
    = inr (mkTagsReply 200 (inr (before ++ NameUnusable e :: after)%list)) ->
  Forall (fun m => m = NameMissing
                   \/ exists name, m = NameStr name
                                    /\ substring_in "bakllava" name = false) before ->
  ensure_model_available probe b
    = (false, mkBoot (S (tag_requests b)) (pull_requests b) (sleeps b)).
Proof.
  intros Htags Hbefore. unfold ensure_model_available. rewrite Htags.
  cbn [tags_status_code tags_models]. change (200 =? 200) with true. cbv iota.
  replace (model_listed (before ++ NameUnusable e :: after)%list) with (@inl Exn bool e);
    [reflexivity|].
  symmetry. clear Htags.
  induction Hbefore as [|m before [->|[name [-> Hname]]] _ IH];
    cbn [app model_listed].
  - reflexivity.
  - exact IH.
  - change MODEL_NAME with "bakllava". rewrite Hname. exact IH.
Qed.

(** ** Two requests in a row *)

Lemma generate_response_answers (env : Env) (answer prompt : string)
    (imgs : option (list string)) (temperature : option float)
    (max_tokens : option Z) (w : World) :
  backend_answers env answer ->
  generate_response env prompt imgs temperature max_tokens w
    = (Ok answer, after_call (generate_payload prompt imgs temperature max_tokens) w).
Proof.
  intros Hans.
  assert (Hpayload : mkPayload MODEL_NAME prompt false temperature max_tokens
                       (if truthy_images imgs then imgs else None)
                     = generate_payload prompt imgs temperature max_tokens).
  { unfold generate_payload. destruct imgs as [[|i rest]|]; reflexivity. }
  unfold generate_response, try_except, mbind, M_bind, bind, post_generate.
  rewrite Hpayload.
  destruct (Hans (length (ollama_calls w))
                 (generate_payload prompt imgs temperature max_tokens)) as [body ->].
  reflexivity.
Qed.

Lemma text_prompt_answers (env : Env) (answer : string) (request : TextPromptRequest)
    (w w1 : World) (sid : string) (c : Conversation) :
  backend_answers env answer ->
  get_or_create_conversation env (tp_session_id request) (snd (timer env w))
    = (Ok sid, w1) ->
  conversations w1 !! sid = Some c ->
  text_prompt env request w
    = (Ok (mkAPIResponse true (Some answer) None
             (Some (PrimFloat.sub (time_time env (timer_reads w1))
                                  (time_time env (timer_reads w))))
             (Some sid)),
       mkWorld
         (<[sid := mkConversation (session_id c)
                     ((messages c ++ [mkMessage "user" (tp_prompt request)
                                                (reading env w1 0) None])
                      ++ [mkMessage "assistant" answer (reading env w1 2) None])
                     (created_at c) (reading env w1 3)]> (conversations w1))
         (4 + clock_reads w1) (uuid_draws w1) (S (timer_reads w1))
         (ollama_calls w1
          ++ [generate_payload
                (fst (build_conversation_context (conversations w1) sid
                        (tp_prompt request) None))
                None (tp_temperature request) (tp_max_tokens request)])).
Proof.
  intros Hans Hres Hc. rewrite (text_prompt_unfold env request w w1 sid Hres).
  unfold try_except.
  destruct (exchange_run env (time_time env (timer_reads w)) sid (tp_prompt request) None
              (fst (build_conversation_context (conversations w1) sid
                      (tp_prompt request) None))
              None (tp_temperature request) (tp_max_tokens request) c w1 Hc)
    as [[text Hex]|[e Hex]].
  - rewrite Hex. pose proof Hex as Hex'. unfold exchange in Hex'.
    unfold mbind at 1, M_bind at 1, bind at 1 in Hex'.
    rewrite (run_add_message_known env sid "user" (tp_prompt request) None c w1 Hc) in Hex'.
    unfold mbind at 1, M_bind at 1, bind at 1 in Hex'.
    rewrite (generate_response_answers env answer) in Hex' by exact Hans.
    unfold mbind at 1, M_bind at 1, bind at 1 in Hex'.
    erewrite run_add_message_known in Hex'
      by (cbn [after_call conversations]; apply lookup_insert_eq).
    injection Hex' as Htext _. subst text. reflexivity.
  - exfalso. unfold exchange in Hex.
    unfold mbind at 1, M_bind at 1, bind at 1 in Hex.
    rewrite (run_add_message_known env sid "user" (tp_prompt request) None c w1 Hc) in Hex.
    unfold mbind at 1, M_bind at 1, bind at 1 in Hex.
    rewrite (generate_response_answers env answer) in Hex by exact Hans.
    unfold mbind at 1, M_bind at 1, bind at 1 in Hex.
    erewrite run_add_message_known in Hex
      by (cbn [after_call conversations]; apply lookup_insert_eq).
    discriminate.
Qed.

(** X20: conversation memory. With a backend that answers, a text request
    without session id followed by a text request carrying the returned id
    (the id being non-empty and the session not idle for more than 24 hours
    in between) both succeed under that id; the second prompt sent to the
    backend is the preamble, the first exchange, the new prompt and the cue,
    and the session ends with the four turns in order. *)
Theorem follow_up_sees_first_exchange (env : Env) (answer p1 p2 : string)
    (t1 t2 : option float) (m1 m2 : option Z) (w : World) :
  backend_answers env answer ->
  uuid4 env (uuid_draws w) <> "" ->
  datetime_now env (7 + clock_reads w) - datetime_now env (6 + clock_reads w)
    <= CONVERSATION_TIMEOUT ->
  let u := uuid4 env (uuid_draws w) in
  let first := text_prompt env (mkTextPromptRequest p1 t1 m1 None) w in
  let second := text_prompt env (mkTextPromptRequest p2 t2 m2 (Some u)) (snd first) in
  (exists e1, fst first = Ok (mkAPIResponse true (Some answer) None (Some e1) (Some u)))
  /\ (exists e2, fst second = Ok (mkAPIResponse true (Some answer) None (Some e2) (Some u)))
  /\ map p_prompt (ollama_calls (snd second))
       = (map p_prompt (ollama_calls w)
          ++ [p1;
              ("This is a conversation. Here's the conversation history:"
               ++ newline ++ newline ++ ("Human: " ++ p1)
               ++ newline ++ newline ++ ("Assistant: " ++ answer)
               ++ newline ++ newline ++ ("Human: " ++ p2)
               ++ newline ++ newline ++ "Assistant:")%string])%list
  /\ exists c, conversations (snd second) !! u = Some c
       /\ map turn_of_message (messages c)
            = [("user", p1, None); ("assistant", answer, None);
               ("user", p2, None); ("assistant", answer, None)].
Proof.
  intros Hans Hne Hidle u first second.
  (* the first request *)
  pose proof (run_get_or_create_new env None (snd (timer env w)) eq_refl) as Hres1.
  cbn [timer snd conversations clock_reads uuid_draws timer_reads ollama_calls] in Hres1.
  fold u in Hres1.
  pose proof (text_prompt_answers env answer (mkTextPromptRequest p1 t1 m1 None) w _ u _
                Hans Hres1 (lookup_insert_eq _ _ _)) as Hfirst.
  cbn [tp_prompt tp_temperature tp_max_tokens conversations clock_reads uuid_draws
       timer_reads ollama_calls session_id messages created_at app] in Hfirst.
  assert (Hctx1 : forall m,
            fst (build_conversation_context
                   (<[u := mkConversation u [] (reading env (snd (timer env w)) 1)
                                          (reading env (snd (timer env w)) 2)]> m)
                   u p1 None) = p1).
  { intros m. unfold build_conversation_context. rewrite lookup_insert_eq. reflexivity. }
  cbn [timer snd] in Hctx1. rewrite Hctx1 in Hfirst.
  (* the second request *)
  set (wA := snd first). assert (HwA : first = (fst first, wA)) by apply surjective_pairing.
  unfold first in HwA at 1. rewrite Hfirst in HwA.
  assert (Hfst : fst first = Ok (mkAPIResponse true (Some answer) None
             (Some (PrimFloat.sub (time_time env (S (timer_reads w)))
                                  (time_time env (timer_reads w)))) (Some u))).
  { unfold first. rewrite Hfirst. reflexivity. }
  injection HwA as _ HwA.
  assert (Hlive : names_live (reading env (snd (timer env wA)) 0)
                    (conversations (snd (timer env wA))) (Some u) = true).
  { apply names_live_true. do 2 eexists. split; [reflexivity|]. split; [exact Hne|].
    rewrite <- HwA. cbn [timer snd conversations]. split; [apply lookup_insert_eq|].
    unfold is_expired, reading. cbn [last_activity clock_reads].
    apply Z.ltb_ge.
    replace (0 + (4 + (3 + clock_reads w)))%nat with (7 + clock_reads w)%nat by lia.
    replace (3 + (3 + clock_reads w))%nat with (6 + clock_reads w)%nat by lia.
    exact Hidle. }
  pose proof (run_get_or_create_live env u (snd (timer env wA)) Hlive) as Hres2.
  assert (Hc2 : exists c2,
            conversations (snd (get_or_create_conversation env (Some u) (snd (timer env wA))))
              !! u = Some c2
            /\ map turn_of_message (messages c2)
                 = [("user", p1, None); ("assistant", answer, None)]).
  { rewrite Hres2. cbn [snd conversations]. rewrite lookup_alter_eq, lookup_sweep.
    apply names_live_true in Hlive.
    destruct Hlive as [s [c0 [Hs [_ [Hc0 Hexp]]]]]. injection Hs as <-.
    rewrite Hc0, Hexp. eexists. split; [reflexivity|].
    rewrite <- HwA in Hc0. cbn [timer snd conversations] in Hc0.
    rewrite lookup_insert_eq in Hc0. injection Hc0 as <-. reflexivity. }
  destruct Hc2 as [c2 [Hc2 Hturns2]]. rewrite Hres2 in Hc2. cbn [snd] in Hc2.
  pose proof (text_prompt_answers env answer (mkTextPromptRequest p2 t2 m2 (Some u)) wA _ u c2
                Hans Hres2 Hc2) as Hsecond.
  assert (Hctx2 : fst (build_conversation_context
                         (alter (refresh_activity (reading env (snd (timer env wA)) 1)) u
                            (sweep (reading env (snd (timer env wA)) 0)
                               (conversations (snd (timer env wA)))))
                         u p2 None)
                  = "This is a conversation. Here's the conversation history:"
                    ++ newline ++ newline ++ ("Human: " ++ p1)
                    ++ newline ++ newline ++ ("Assistant: " ++ answer)
                    ++ newline ++ newline ++ ("Human: " ++ p2)
                    ++ newline ++ newline ++ "Assistant:").
  { cbn [conversations] in Hc2. unfold build_conversation_context. rewrite Hc2.
    destruct (messages c2) as [|[ra ca ta ia] [|[rb cb tb ib] [|x rest]]] eqn:Hm;
      try discriminate.
    cbn [map turn_of_message role content images] in Hturns2.
    injection Hturns2 as -> -> -> -> -> ->.
    cbn [fst]. rewrite concat_blank_line. reflexivity. }
  split; [eexists; exact Hfst|].
  unfold second. fold wA. rewrite Hsecond. cbn [fst snd conversations ollama_calls tp_prompt tp_temperature
                         tp_max_tokens timer].
  split; [eexists; reflexivity|]. split.
  - cbn [conversations timer snd] in Hctx2. rewrite Hctx2.
    rewrite <- HwA. cbn [ollama_calls]. rewrite !map_app. cbn [map p_prompt generate_payload].
    rewrite <- app_assoc. reflexivity.
  - eexists. split; [apply lookup_insert_eq|].
    cbn [messages]. rewrite !map_app, Hturns2. reflexivity.
Qed.

(** ** The further properties at concrete inputs *)

Lemma demo_world_keys_consistent : keys_consistent demo_world.
Proof.
  intros sid c. unfold demo_world, demo_store. cbn [conversations].
  rewrite !lookup_insert_Some, lookup_empty.
  intros [[<- <-]|[_ [[<- <-]|[_ [[<- <-]|[_ H]]]]]]; try reflexivity. discriminate.
Qed.

Lemma store_keys_consistent_witness :
  keys_consistent demo_world
  /\ exists w', run_ops (demo_env true) demo_ops demo_world = (Ok tt, w')
                /\ keys_consistent w'.
Proof.
  split; [exact demo_world_keys_consistent|].
  exact (store_keys_consistent (demo_env true) demo_ops demo_world
           demo_world_keys_consistent).
Defined.

Lemma demo_clock_monotone (up : bool) : monotone_clock (demo_env up).
Proof. intros i j Hij. cbn [datetime_now demo_env]. lia. Qed.

Lemma empty_world_chronological (env : Env) : chronological env empty_world.
Proof. intros sid c H. cbn [conversations empty_world] in H. now rewrite lookup_empty in H. Qed.

Lemma store_chronological_witness :
  (monotone_clock (demo_env true) /\ chronological (demo_env true) empty_world)
  /\ exists w', run_ops (demo_env true) demo_script empty_world = (Ok tt, w')
                /\ chronological (demo_env true) w'.
Proof.
  split; [split; [apply demo_clock_monotone | apply empty_world_chronological]|].
  exact (store_chronological (demo_env true) demo_script empty_world
           (demo_clock_monotone true) (empty_world_chronological (demo_env true))).
Defined.

Lemma generate_response_hides_backend_status_witness :
  (client_post demo_env_404 (length (ollama_calls empty_world))
               (generate_payload "hi" None None None)
     = inr (mkHttpResponse 404 "model not found" (inr None))
   /\ resp_status_code (mkHttpResponse 404 "model not found" (inr None)) <> 200)
  /\ fst (generate_response demo_env_404 "hi" None None None empty_world)
       = Raise (HTTPException 500
                  ("Generation error: "
                   ++ str_exc demo_env_404
                        (HTTPException 404 ("Ollama API error: " ++ "model not found")))).
Proof.
  split; [split; [reflexivity | discriminate]|].
  apply (generate_response_hides_backend_status demo_env_404 "hi" None None None
           empty_world (mkHttpResponse 404 "model not found" (inr None)));
    [reflexivity | discriminate].
Defined.

Lemma demo_frames_ab_readable :
  Forall (fun frame => exists img b64, Image_open_rgb (demo_env true) frame = inr img
                                       /\ image_to_base64 (demo_env true) img = inr b64)
         [upload "a"; upload "b"].
Proof. repeat constructor; do 2 eexists; split; reflexivity. Qed.

Lemma first_unreadable_frame_is_reported_witness :
  Forall (fun frame => exists img b64, Image_open_rgb (demo_env true) frame = inr img
                                       /\ image_to_base64 (demo_env true) img = inr b64)
         [upload "a"; upload "b"]
  /\ process_frames (demo_env true) 0
        ([upload "a"; upload "b"] ++ upload "" :: [upload "c"])%list [] empty_world
      = (Raise (HTTPException 400
                  "Error processing frame 3: 400: Invalid image file: cannot identify image file"),
         empty_world)
  /\ process_frames (demo_env true) 0
        ([upload "a"; upload "b"] ++ upload "truncated" :: [upload "c"])%list [] empty_world
      = (Raise (HTTPException 400 "Error processing frame 3: image file is truncated"),
         empty_world).
Proof.
  split; [exact demo_frames_ab_readable|]. split.
  - exact (proj1 (first_unreadable_frame_is_reported (demo_env true)
                    [upload "a"; upload "b"] (upload "") [upload "c"] empty_world
                    demo_frames_ab_readable)
                 (OtherException "cannot identify image file") eq_refl).
  - exact (proj2 (first_unreadable_frame_is_reported (demo_env true)
                    [upload "a"; upload "b"] (upload "truncated") [upload "c"] empty_world
                    demo_frames_ab_readable)
                 (pil_image "truncated") (OtherException "image file is truncated")
                 eq_refl eq_refl).
Defined.

Lemma demo_two_frames_readable :
  Forall2 (fun frame b64 =>
             exists img, Image_open_rgb (demo_env true) frame = inr img
                         /\ image_to_base64 (demo_env true) img = inr b64)
          (demo_frames 2) ["b64:frame"; "b64:frame"].
Proof. repeat constructor; eexists; split; reflexivity. Qed.

Lemma video_records_annotated_prompt_witness :
  (demo_frames 2 <> [] /\ (length (demo_frames 2) <= 30)%nat
   /\ Forall2 (fun frame b64 =>
                 exists img, Image_open_rgb (demo_env true) frame = inr img
                             /\ image_to_base64 (demo_env true) img = inr b64)
              (demo_frames 2) ["b64:frame"; "b64:frame"])
  /\ let annotated :=
       "clip" ++ newline ++ newline ++ "This is a sequence of "
       ++ str_nat (length (demo_frames 2)) ++ " video frames captured at "
       ++ str_float (demo_env true) PrimFloat.one ++ " frame(s) per second." in
     exists sid w1 c resp w' c',
       get_or_create_conversation (demo_env true) (Some "live")
         (snd (timer (demo_env true) demo_world)) = (Ok sid, w1)
       /\ conversations w1 !! sid = Some c
       /\ video_frames_prompt (demo_env true) "clip" PrimFloat.one PrimFloat.one 2048
            (Some "live") (demo_frames 2) demo_world = (Ok resp, w')
       /\ api_session_id resp = Some sid
       /\ conversations w' !! sid = Some c'
       /\ ollama_calls w'
            = (ollama_calls demo_world
               ++ [mkPayload "bakllava"
                     (fst (build_conversation_context (conversations w1) sid annotated
                             (Some ["b64:frame"; "b64:frame"])))
                     false (Some PrimFloat.one) (Some 2048)
                     (Some ["b64:frame"; "b64:frame"])])%list
       /\ success resp = true /\ response resp = Some "hello" /\ error resp = None
       /\ map turn_of_message (messages c')
            = (map turn_of_message (messages c)
               ++ [("user", annotated, Some ["b64:frame"; "b64:frame"]);
                   ("assistant", "hello", None)])%list.
Proof.
  split; [split; [discriminate | split; [cbn; lia | exact demo_two_frames_readable]]|].
  exact (video_records_annotated_prompt (demo_env true) "clip" PrimFloat.one PrimFloat.one
           2048 (Some "live") (demo_frames 2) ["b64:frame"; "b64:frame"] demo_world
           ltac:(discriminate) ltac:(cbn; lia) demo_two_frames_readable).
Defined.


Lemma image_unreadable_file_keeps_resolution_witness :
  Image_open_rgb (demo_env true) (upload "")
    = inl (OtherException "cannot identify image file")
  /\ exists sid w1 c resp w',
       get_or_create_conversation (demo_env true) None
         (snd (timer (demo_env true) empty_world)) = (Ok sid, w1)
       /\ conversations w1 !! sid = Some c
       /\ image_prompt (demo_env true) "what is this?" PrimFloat.one 2048 None
            (upload "") empty_world = (Ok resp, w')
       /\ success resp = false
       /\ error resp
            = Some (str_exc (demo_env true)
                      (HTTPException 400
                         ("Invalid image file: "
                          ++ str_exc (demo_env true)
                               (OtherException "cannot identify image file"))))
       /\ api_session_id resp = Some sid
       /\ conversations w' = conversations w1
       /\ ollama_calls w' = ollama_calls empty_world
       /\ (@None string = None -> messages c = []).
Proof.
  split; [reflexivity|].
  apply (image_unreadable_file_keeps_resolution (demo_env true) "what is this?"
           PrimFloat.one 2048 None (upload "")
           (OtherException "cannot identify image file") empty_world).
  reflexivity.
Defined.

Lemma image_prompt_records_turns_witness :
  (Image_open_rgb (demo_env true) (upload "dog") = inr (pil_image "dog")
   /\ image_to_base64 (demo_env true) (pil_image "dog") = inr "b64:dog")
  /\ exists sid w1 c resp w' c',
       get_or_create_conversation (demo_env true) (Some "live")
         (snd (timer (demo_env true) demo_world)) = (Ok sid, w1)
       /\ conversations w1 !! sid = Some c
       /\ image_prompt (demo_env true) "and this?" PrimFloat.one 2048 (Some "live")
            (upload "dog") demo_world = (Ok resp, w')
       /\ api_session_id resp = Some sid
       /\ conversations w' !! sid = Some c'
       /\ ollama_calls w'
            = (ollama_calls demo_world
               ++ [mkPayload "bakllava"
                     (fst (build_conversation_context (conversations w1) sid "and this?"
                             (Some ["b64:dog"])))
                     false (Some PrimFloat.one) (Some 2048) (Some ["b64:dog"])])%list
       /\ success resp = true /\ response resp = Some "hello" /\ error resp = None
       /\ map turn_of_message (messages c')
            = (map turn_of_message (messages c)
               ++ [("user", "and this?", Some ["b64:dog"]);
                   ("assistant", "hello", None)])%list.
Proof.
  split; [split; reflexivity|].
  exact (image_prompt_records_turns (demo_env true) "and this?" PrimFloat.one 2048
           (Some "live") (upload "dog") (pil_image "dog") "b64:dog" demo_world
           eq_refl eq_refl).
Defined.

Lemma image_unencodable_file_keeps_resolution_witness :
  (Image_open_rgb (demo_env true) (upload "truncated") = inr (pil_image "truncated")
   /\ image_to_base64 (demo_env true) (pil_image "truncated")
        = inl (OtherException "image file is truncated"))
  /\ exists sid w1 c resp w',
       get_or_create_conversation (demo_env true) None
         (snd (timer (demo_env true) empty_world)) = (Ok sid, w1)
       /\ conversations w1 !! sid = Some c
       /\ image_prompt (demo_env true) "what is this?" PrimFloat.one 2048 None
            (upload "truncated") empty_world = (Ok resp, w')
       /\ success resp = false
       /\ error resp = Some "image file is truncated"
       /\ api_session_id resp = Some sid
       /\ conversations w' = conversations w1
       /\ ollama_calls w' = ollama_calls empty_world.
Proof.
  split; [split; reflexivity|].
  exact (image_unencodable_file_keeps_resolution (demo_env true) "what is this?"
           PrimFloat.one 2048 None (upload "truncated") (pil_image "truncated")
           (OtherException "image file is truncated") empty_world eq_refl eq_refl).
Defined.

Lemma demo_probe_down (down j : nat) :
  (j < down)%nat -> tags_ok (demo_probe down) j = false.
Proof.
  intros Hj. unfold tags_ok, demo_probe. cbn [get_tags].
  replace (j <? down)%nat with true by (symmetry; apply Nat.ltb_lt; exact Hj).
  reflexivity.
Qed.

Lemma startup_gives_up_after_30_checks_witness :
  (forall j, (j < 30)%nat -> tags_ok (demo_probe 30) (tag_requests fresh_boot + j) = false)
  /\ startup_event (demo_probe 30) fresh_boot
       = (inl (OtherException "Ollama service unavailable"), mkBoot 30 0 29).
Proof.
  assert (Hdown : forall j, (j < 30)%nat ->
            tags_ok (demo_probe 30) (tag_requests fresh_boot + j) = false)
    by (intros j Hj; apply demo_probe_down; exact Hj).
  split; [exact Hdown|].
  exact (startup_gives_up_after_30_checks (demo_probe 30) fresh_boot Hdown).
Defined.

Lemma startup_completes_at_first_healthy_check_witness :
  ((29 < 30)%nat
   /\ (forall j, (j < 29)%nat ->
         tags_ok (demo_probe 29) (tag_requests fresh_boot + j) = false)
   /\ tags_ok (demo_probe 29) (tag_requests fresh_boot + 29) = true)
  /\ exists b',
       startup_event (demo_probe 29) fresh_boot = (inr tt, b')
       /\ sleeps b' = (sleeps fresh_boot + 29)%nat
       /\ tag_requests b' = (tag_requests fresh_boot + 29 + 2)%nat
       /\ (pull_requests b' <= S (pull_requests fresh_boot))%nat.
Proof.
  assert (Hdown : forall j, (j < 29)%nat ->
            tags_ok (demo_probe 29) (tag_requests fresh_boot + j) = false)
    by (intros j Hj; apply demo_probe_down; exact Hj).
  split; [split; [lia | split; [exact Hdown | reflexivity]]|].
  apply (startup_completes_at_first_healthy_check (demo_probe 29) fresh_boot 29);
    [lia | exact Hdown | reflexivity].
Defined.

Lemma listed_model_is_not_pulled_witness :
  (get_tags (demo_probe 0) (tag_requests fresh_boot)
     = inr (mkTagsReply 200
              (inr ([NameStr "llama2:7b"; NameMissing]
                    ++ NameStr ("" ++ "bakllava" ++ ":latest")%string :: [])%list))
   /\ Forall (fun m => forall e, m <> NameUnusable e) [NameStr "llama2:7b"; NameMissing])
  /\ ensure_model_available (demo_probe 0) fresh_boot = (true, mkBoot 1 0 0).
Proof.
  assert (Hread : Forall (fun m => forall e, m <> NameUnusable e)
                         [NameStr "llama2:7b"; NameMissing])
    by (repeat constructor; discriminate).
  split; [split; [reflexivity | exact Hread]|].
  exact (listed_model_is_not_pulled (demo_probe 0) fresh_boot
           [NameStr "llama2:7b"; NameMissing] [] "" ":latest" eq_refl Hread).
Defined.

Lemma unusable_name_stops_the_search_witness :
  (get_tags demo_probe_null (tag_requests fresh_boot)
     = inr (mkTagsReply 200
              (inr ([NameStr "llama2:7b"]
                    ++ NameUnusable (OtherException "argument of type 'NoneType' is not iterable")
                    :: [NameStr "bakllava:latest"])%list))
   /\ Forall (fun m => m = NameMissing
                       \/ exists name, m = NameStr name
                                        /\ substring_in "bakllava" name = false)
             [NameStr "llama2:7b"])
  /\ ensure_model_available demo_probe_null fresh_boot = (false, mkBoot 1 0 0).
Proof.
  assert (Hbefore : Forall (fun m => m = NameMissing
                              \/ exists name, m = NameStr name
                                               /\ substring_in "bakllava" name = false)
                           [NameStr "llama2:7b"])
    by (constructor; [right; eexists; split; reflexivity | constructor]).
  split; [split; [reflexivity | exact Hbefore]|].
  exact (unusable_name_stops_the_search demo_probe_null fresh_boot
           [NameStr "llama2:7b"] [NameStr "bakllava:latest"]
           (OtherException "argument of type 'NoneType' is not iterable")
           eq_refl Hbefore).
Defined.

Lemma demo_backend_answers : backend_answers (demo_env true) "hello".
Proof. intros k p. exists "". reflexivity. Qed.

Lemma follow_up_sees_first_exchange_witness :
  (backend_answers (demo_env true) "hello"
   /\ uuid4 (demo_env true) (uuid_draws empty_world) <> ""
   /\ datetime_now (demo_env true) (7 + clock_reads empty_world)
        - datetime_now (demo_env true) (6 + clock_reads empty_world)
        <= CONVERSATION_TIMEOUT)
  /\ let u := uuid4 (demo_env true) (uuid_draws empty_world) in
     let first :=
       text_prompt (demo_env true) (mkTextPromptRequest "my name is Alice" None None None)
                   empty_world in
     let second :=
       text_prompt (demo_env true)
                   (mkTextPromptRequest "what is my name?" None None (Some u))
                   (snd first) in
     (exists e1, fst first = Ok (mkAPIResponse true (Some "hello") None (Some e1) (Some u)))
     /\ (exists e2,
           fst second = Ok (mkAPIResponse true (Some "hello") None (Some e2) (Some u)))
     /\ map p_prompt (ollama_calls (snd second))
          = (map p_prompt (ollama_calls empty_world)
             ++ ["my name is Alice";
                 ("This is a conversation. Here's the conversation history:"
                  ++ newline ++ newline ++ ("Human: " ++ "my name is Alice")
                  ++ newline ++ newline ++ ("Assistant: " ++ "hello")
                  ++ newline ++ newline ++ ("Human: " ++ "what is my name?")
                  ++ newline ++ newline ++ "Assistant:")%string])%list
     /\ exists c, conversations (snd second) !! u = Some c
          /\ map turn_of_message (messages c)
               = [("user", "my name is Alice", None); ("assistant", "hello", None);
                  ("user", "what is my name?", None); ("assistant", "hello", None)].
Proof.
  assert (Hidle : datetime_now (demo_env true) (7 + clock_reads empty_world)
                  - datetime_now (demo_env true) (6 + clock_reads empty_world)
                  <= CONVERSATION_TIMEOUT)
    by (vm_compute; discriminate).
  split; [split; [exact demo_backend_answers | split; [discriminate | exact Hidle]]|].
  apply (follow_up_sees_first_exchange (demo_env true) "hello" "my name is Alice"
           "what is my name?" None None None None empty_world demo_backend_answers);
    [discriminate | exact Hidle].
Defined.

(** ** Further concrete runs of the added code *)

Example script_demo :
  (fun c => (map timestamp (messages c), created_at c, last_activity c))
    <$> conversations (snd (run_ops (demo_env true) demo_script empty_world)) !! "uuid-0"
  = Some ([90000000003; 90000000005; 90000000012], 90000000001, 90000000013).
Proof. vm_compute. reflexivity. Qed.

Example startup_demo :
  startup_event (demo_probe 3) fresh_boot = (inr tt, mkBoot 5 0 3).
Proof. vm_compute. reflexivity. Qed.

Example substring_demo :
  substring_in "bakllava" "library/bakllava:7b" = true
  /\ substring_in "bakllava" "llava:13b" = false
  /\ substring_in "" "" = true.
Proof. vm_compute. repeat split. Qed.
